(** * The chart-template registry of ChartGalaxyPipeline

    A shallow embedding of
    [modules/chart_engine/variation/template_registry.py]: the scanner that
    walks the four engine directories and fills the module-level
    [variations] dictionary, and the two resolvers
    [get_variation_for_chart_type] and [get_variation_for_chart_name].

    Conventions of the embedding.
    - Python strings are [string]s; [str.lower] acts on the letters [A-Z]
      and leaves every other character alone.
    - A Python [dict] keeps insertion order, and the resolvers depend on
      that order, so a dictionary is an association list in insertion
      order with one binding per key.
    - The module-level state ([variations], [_variations_scanned]) is
      threaded explicitly; an exception leaves the state as it was when
      it was raised.
    - The file system is a tree of directory entries in [os.listdir]
      order, every file of which can be read as text.
    - [re], [json], [importlib] and [random] are library code: the first
      three are section variables, the draw of [random.choice] is an
      explicit argument.  [Pattern.search] is the compiled pattern of the
      metadata block on ASCII text, an instance of the first. *)

From Stdlib Require Import String Ascii List Bool Arith Lia.
Import ListNotations.
Set Warnings "-register-all".
Local Open Scope string_scope.
Local Open Scope list_scope.

(** ** Strings *)

Module Str.

(** [c.lower()] for one character. *)
Definition lower_char (c : ascii) : ascii :=
  let n := nat_of_ascii c in
  if Nat.leb 65 n && Nat.leb n 90 then ascii_of_nat (n + 32) else c.

(** [s.lower()] *)
Fixpoint lower (s : string) : string :=
  match s with
  | EmptyString => EmptyString
  | String c s' => String (lower_char c) (lower s')
  end.

(** [s.startswith(p)] *)
Definition startswith (p s : string) : bool := String.prefix p s.

(** [s.endswith(p)] *)
Definition endswith (p s : string) : bool :=
  Nat.leb (String.length p) (String.length s) &&
  String.eqb (String.substring (String.length s - String.length p)
                               (String.length p) s) p.

(** [sub in s] for two strings. *)
Fixpoint contains (sub s : string) : bool :=
  match s with
  | EmptyString => String.prefix sub EmptyString
  | String _ s' => String.prefix sub s || contains sub s'
  end.

(** [s.split(sep)] for a one-character separator: never the empty list. *)
Fixpoint split (sep : ascii) (s : string) : list string :=
  match s with
  | EmptyString => [EmptyString]
  | String c s' =>
      if Ascii.eqb c sep then EmptyString :: split sep s'
      else match split sep s' with
           | h :: t => String c h :: t
           | [] => [String c EmptyString]
           end
  end.

(** [s.replace(sub, '')] for a non-empty [sub]: occurrences are removed
    from left to right without overlap.  [skip] counts the characters of
    the occurrence being dropped. *)
Fixpoint remove_from (skip : nat) (sub s : string) : string :=
  match s with
  | EmptyString => EmptyString
  | String c s' =>
      match skip with
      | S k => remove_from k sub s'
      | O => if String.prefix sub s
             then remove_from (String.length sub - 1) sub s'
             else String c (remove_from 0 sub s')
      end
  end.

Definition remove (sub s : string) : string := remove_from 0 sub s.

(** [set(s)]: the distinct characters of [s]. *)
Fixpoint chars (s : string) : list ascii :=
  match s with
  | EmptyString => []
  | String c s' =>
      if existsb (Ascii.eqb c) (chars s') then chars s' else c :: chars s'
  end.

(** [a & b] on two character sets. *)
Definition inter (a b : list ascii) : list ascii :=
  filter (fun c => existsb (Ascii.eqb c) b) a.

(** [len(set(a) & set(b))] *)
Definition overlap (a b : string) : nat :=
  List.length (inter (chars a) (chars b)).

End Str.

(** ** Paths *)

Module Path.

(** [os.path.join(a, b)] (POSIX). *)
Definition join (a b : string) : string :=
  if Str.startswith "/" b then b
  else if String.eqb a "" || Str.endswith "/" a then String.append a b
  else String.append a (String.append "/" b).

(** [os.path.basename(p)]: what follows the last slash. *)
Definition basename (p : string) : string :=
  last (Str.split "/"%char p) "".

End Path.

(** ** Dictionaries in insertion order *)

Module Dict.

Section Ops.
Context {V : Type}.

(** [d.get(k)] *)
Fixpoint get (k : string) (d : list (string * V)) : option V :=
  match d with
  | [] => None
  | (k', v) :: d' => if String.eqb k k' then Some v else get k d'
  end.

(** [k in d] *)
Definition mem (k : string) (d : list (string * V)) : bool :=
  match get k d with Some _ => true | None => false end.

(** [d[k] = v]: an existing key keeps its position, a new key goes last. *)
Fixpoint set (k : string) (v : V) (d : list (string * V))
  : list (string * V) :=
  match d with
  | [] => [(k, v)]
  | (k', v') :: d' =>
      if String.eqb k k' then (k, v) :: d' else (k', v') :: set k v d'
  end.

(** [list(d.keys())] *)
Definition keys (d : list (string * V)) : list string := map fst d.

End Ops.

End Dict.

(** ** Data model *)

(** A parsed JSON value.  A number keeps its literal. *)
Inductive json : Type :=
| JNull
| JBool (b : bool)
| JNumber (literal : string)
| JString (s : string)
| JArray (elements : list json)
| JObject (members : list (string * json)).

(** The dictionary [json.loads] returns for a metadata block. *)
Definition requirements_dict := list (string * json).

(** What a record stores under ['variation']: the module loaded from a
    Python template, or the path of the template file. *)
Inductive variation_handle : Type :=
| PyModule (module_name file_path : string)
| FilePath (item_path : string).

(** The dictionary stored at [variations[engine][chart_type][chart_name]]. *)
Record variation_info : Type := mk_info {
  engine_type : string;
  variation : variation_handle;
  requirements : requirements_dict
}.

Definition name_dict := list (string * variation_info).
Definition type_dict := list (string * name_dict).

(** The module-level [variations]: four fixed keys, in this order. *)
Record registry : Type := mk_registry {
  echarts_py : type_dict;
  echarts_js : type_dict;
  d3_js : type_dict;
  vegalite_py : type_dict
}.

Definition engines : list string :=
  ["echarts_py"; "echarts-js"; "d3-js"; "vegalite_py"].

(** [variations[engine]]; [None] stands for the [KeyError]. *)
Definition variations_get (v : registry) (engine : string)
  : option type_dict :=
  if String.eqb engine "echarts_py" then Some (echarts_py v)
  else if String.eqb engine "echarts-js" then Some (echarts_js v)
  else if String.eqb engine "d3-js" then Some (d3_js v)
  else if String.eqb engine "vegalite_py" then Some (vegalite_py v)
  else None.

(** Replace the dictionary of one engine (an in-place update of
    [variations[engine]]). *)
Definition variations_put (v : registry) (engine : string) (d : type_dict)
  : registry :=
  if String.eqb engine "echarts_py" then
    mk_registry d (echarts_js v) (d3_js v) (vegalite_py v)
  else if String.eqb engine "echarts-js" then
    mk_registry (echarts_py v) d (d3_js v) (vegalite_py v)
  else if String.eqb engine "d3-js" then
    mk_registry (echarts_py v) (echarts_js v) d (vegalite_py v)
  else if String.eqb engine "vegalite_py" then
    mk_registry (echarts_py v) (echarts_js v) (d3_js v) d
  else v.

Definition empty_registry : registry := mk_registry [] [] [] [].

(** The module-level state. *)
Record state : Type := mk_state {
  variations : registry;
  _variations_scanned : bool
}.

(** The state when the module has just been imported. *)
Definition initial_state : state := mk_state empty_registry false.

(** ** The file system seen by the scanner *)

(** One entry of a directory listing. [Other] is an entry for which both
    [os.path.isdir] and [os.path.isfile] answer no. *)
Inductive entry : Type :=
| File (item : string) (content : string)
| Dir (item : string) (listing : list entry)
| Other (item : string).

(** A directory argument of [scan_directory]: [None] when
    [os.path.exists] answers no, else its listing. *)
Definition directory := option (list entry).

(** The four engine directories below the module's own directory. *)
Record file_system : Type := mk_fs {
  echarts_py_dir : directory;
  echarts_js_dir : directory;
  d3_js_dir : directory;
  vegalite_py_dir : directory
}.

(** ** State and exceptions *)

Inductive exn : Type :=
| AttributeError
| KeyError
| ExecError.

Inductive outcome (A : Type) : Type :=
| Ok (a : A)
| Raised (e : exn).
Arguments Ok {A} a.
Arguments Raised {A} e.

Definition M (A : Type) : Type := state -> outcome A * state.

Definition ret {A} (a : A) : M A := fun s => (Ok a, s).

Definition raise {A} (e : exn) : M A := fun s => (Raised e, s).

Definition bind {A B} (m : M A) (k : A -> M B) : M B :=
  fun s => match m s with
           | (Ok a, s') => k a s'
           | (Raised e, s') => (Raised e, s')
           end.

Definition get_state : M state := fun s => (Ok s, s).

Definition put_variations (v : registry) : M unit :=
  fun s => (Ok tt, mk_state v (_variations_scanned s)).

Definition put_scanned (b : bool) : M unit :=
  fun s => (Ok tt, mk_state (variations s) b).

Declare Scope py_scope.
Delimit Scope py_scope with py.
Notation "x <- m ;; k" := (bind m (fun x => k))
  (at level 61, m at next level, right associativity) : py_scope.
Notation "m ;; k" := (bind m (fun _ => k))
  (at level 61, right associativity) : py_scope.
Local Open Scope py_scope.

(** [for x in l: body x] *)
Fixpoint for_each {A} (body : A -> M unit) (l : list A) : M unit :=
  match l with
  | [] => ret tt
  | x :: l' => body x ;; for_each body l'
  end.

(** An outcome computed without touching the state. *)
Definition lift {A} (o : outcome A) : M A := fun s => (o, s).

(** What a resolver returns: [Some (engine, variation)], or [None] for the
    pair [(None, None)]. *)
Definition resolution := option (string * variation_handle).

(** [random.choice(seq)] on a non-empty sequence is
    [seq[randbelow(len(seq))]]; [r] is the generator's draw, reduced
    below the length. *)
Definition random_choice {A} (r : nat) (seq : list A) (default : A) : A :=
  nth (r mod List.length seq) seq default.

(** ** The pattern of the metadata block *)

(** [REQUIREMENTS_PATTERN], the compiled
    [REQUIREMENTS_BEGIN\s*({.*?})\s*REQUIREMENTS_END] with [re.DOTALL], on
    ASCII text.  The greedy [\s*] is followed by a character that is no
    white space, so only its longest run can match; the lazy [.*?] tries
    the shortest text first. *)
Module Pattern.

Definition begin_marker : string := "REQUIREMENTS_BEGIN".
Definition end_marker : string := "REQUIREMENTS_END".

(** [\s] on ASCII: tab, line feed, vertical tab, form feed, carriage
    return, the four separators 28-31, and space. *)
Definition is_space (c : ascii) : bool :=
  let n := nat_of_ascii c in
  (Nat.leb 9 n && Nat.leb n 13) || (Nat.leb 28 n && Nat.leb n 32).

(** What is left after the longest run of white space. *)
Fixpoint skip_spaces (s : string) : string :=
  match s with
  | EmptyString => EmptyString
  | String c s' => if is_space c then skip_spaces s' else s
  end.

(** [s[n:]] *)
Fixpoint drop (n : nat) (s : string) : string :=
  match n, s with
  | O, _ => s
  | S n', String _ s' => drop n' s'
  | S _, EmptyString => EmptyString
  end.

(** [.*?}\s*REQUIREMENTS_END] at the start of [s]: what the lazy star
    and the brace consume, the shortest first. *)
Fixpoint lazy_close (s : string) : option string :=
  match s with
  | EmptyString => None
  | String c s' =>
      if Ascii.eqb c "}" && String.prefix end_marker (skip_spaces s')
      then Some (String c EmptyString)
      else option_map (String c) (lazy_close s')
  end.

(** The whole pattern at the start of [s]: group 1 of the match. *)
Definition match_here (s : string) : option string :=
  if String.prefix begin_marker s then
    match skip_spaces (drop (String.length begin_marker) s) with
    | String c rest =>
        if Ascii.eqb c "{"
        then option_map (String c) (lazy_close rest)
        else None
    | EmptyString => None
    end
  else None.

(** [REQUIREMENTS_PATTERN.search(s)] followed by [match.group(1)]: the
    leftmost position at which the pattern matches. *)
Fixpoint search (s : string) : option string :=
  match s with
  | EmptyString => match_here EmptyString
  | String _ s' =>
      match match_here s with
      | Some group1 => Some group1
      | None => search s'
      end
  end.

(** A text of white space only. *)
Fixpoint all_space (s : string) : bool :=
  match s with
  | EmptyString => true
  | String c s' => is_space c && all_space s'
  end.

(** [block s g]: at some place [s] holds the begin marker, white space,
    the text [g] in braces, white space, the end marker. *)
Definition block (s g : string) : Prop :=
  exists before w1 body w2 after,
    all_space w1 = true /\ all_space w2 = true /\
    g = String "{" (String.append body "}") /\
    s = String.append before
          (String.append begin_marker
             (String.append w1
                (String "{"
                   (String.append body
                      (String "}"
                         (String.append w2
                            (String.append end_marker after))))))).

Definition has_block (s : string) : Prop := exists g, block s g.

End Pattern.

(** ** Concrete libraries and file systems for the examples *)

Module Fixture.

(** A stand-in for the metadata syntax: fields [key=value] separated by
    semicolons, every value a string; anything else does not parse. *)
Definition field (s : string) : option (string * json) :=
  match Str.split "="%char s with
  | [k; v] => Some (k, JString v)
  | _ => None
  end.

Fixpoint fields (l : list string) : option requirements_dict :=
  match l with
  | [] => Some []
  | s :: l' =>
      match field s, fields l' with
      | Some f, Some fs => Some (f :: fs)
      | _, _ => None
      end
  end.

Definition loads (s : string) : option requirements_dict :=
  fields (Str.split ";"%char s).

(** The whole text of a file is its metadata block. *)
Definition search (content : string) : option string := Some content.

(** Every Python template runs. *)
Definition exec (file_path content : string) : bool := true.

Definition dir : string := "/variation".

(** The end-to-end example of the specification. *)
Definition bars : file_system :=
  mk_fs (Some [File "bar_basic.py" "chart_type=bar;chart_name=basic_bar";
               File "bar_stacked.py" "chart_type=bar;chart_name=stacked_bar"])
        None None None.

(** A type declared with capitals, in a sub-directory, no chart name. *)
Definition capitals : file_system :=
  mk_fs None
        (Some [Dir "bars" [File "Bar_Basic.js" "chart_type=Bar"]])
        None None.

(** A type only a vegalite template declares, nothing else. *)
Definition vegalite_only : file_system :=
  mk_fs None None None (Some [File "pie.py" "chart_type=pie"]).

(** The same, next to an echarts-js type that contains its name. *)
Definition vegalite_and_longer : file_system :=
  mk_fs None
        (Some [File "barchart.js" "chart_type=barchart"])
        None
        (Some [File "bar.py" "chart_type=bar"]).

(** File names with more than one dot, and a file without [chart_type]. *)
Definition dotted : file_system :=
  mk_fs None
        (Some [File "bar_basic.js" "chart_type=bar";
               File "bar.basic.js" "chart_type=bar";
               File "notes.js" "chart_name=notes"])
        None None.

(** [dotted] without the file that has no [chart_type]. *)
Definition dotted_without_notes : file_system :=
  mk_fs None
        (Some [File "bar_basic.js" "chart_type=bar";
               File "bar.basic.js" "chart_type=bar"])
        None None.

(** The two candidates of the overlap example, the loser met first. *)
Definition radar_and_barchart : file_system :=
  mk_fs None
        (Some [File "radar.js" "chart_type=radar;chart_name=radar"])
        (Some [File "barchart.js" "chart_type=bar;chart_name=barchart"])
        None.

(** Two candidates of equal overlap with the query [bar]. *)
Definition tied : file_system :=
  mk_fs None
        (Some [File "bar_a.js" "chart_type=bar;chart_name=bar_a";
               File "bar_b.js" "chart_type=bar;chart_name=bar_b"])
        None None.

(** An earlier engine has a longer type, a later engine has the
    requested type itself. *)
Definition longer_first : file_system :=
  mk_fs None
        (Some [File "wide.js" "chart_type=barchart;chart_name=wide"])
        (Some [File "plain.js" "chart_type=bar;chart_name=plain";
               File "stacked.js" "chart_type=bar;chart_name=stacked"])
        None.

End Fixture.

(** ** Templates that fail *)

Module Faulty.

(** A stand-in for [json.loads] that knows one number: the text
    [chart_type:3] is the object with the number 3 under [chart_type];
    every other text is read as by [Fixture.loads]. *)
Definition loads (s : string) : option requirements_dict :=
  if String.eqb s "chart_type:3" then Some [("chart_type", JNumber "3")]
  else Fixture.loads s.

(** A Python template raises when run exactly when its text holds the
    word [raise]. *)
Definition exec (file_path content : string) : bool :=
  negb (Str.contains "raise" content).

(** A file with a number for chart type between two templates. *)
Definition number_between : list entry :=
  [File "first.js" "chart_type=bar";
   File "three.js" "chart_type:3";
   File "last.js" "chart_type=line"].

Definition with_number : file_system :=
  mk_fs None (Some number_between) None None.

(** A Python template that raises when run. *)
Definition with_raise : file_system :=
  mk_fs (Some [File "boom.py" "chart_type=pie;chart_name=raises"])
        None None None.

End Faulty.

(** ** The registry *)

Section Registry.

(** [os.path.dirname(os.path.abspath(__file__))] *)
Variable variation_dir : string.

(** [REQUIREMENTS_PATTERN.search(content)] followed by [match.group(1)];
    [None] when the pattern does not match. *)
Variable requirements_search : string -> option string.

(** [json.loads] on the matched group, which starts with a brace, so a
    value it returns is a dictionary; [None] stands for
    [json.JSONDecodeError]. *)
Variable json_loads : string -> option requirements_dict.

(** [spec.loader.exec_module(module)] for the file at a path with a
    content: [false] when running the template raises.  Running a
    template is taken to leave [variations] alone. *)
Variable exec_module : string -> string -> bool.

(** [load_python_variation(file_path)] *)
Definition load_python_variation (file_path content : string)
  : M variation_handle :=
  let module_name := Str.remove ".py" (Path.basename file_path) in
  if exec_module file_path content
  then ret (PyModule module_name file_path)
  else raise ExecError.

(** [extract_requirements(file_path)], on the text read from the file. *)
Definition extract_requirements (content : string)
  : option requirements_dict :=
  match requirements_search content with
  | Some group1 =>
      match json_loads group1 with
      | Some requirements => Some requirements
      | None => None
      end
  | None => None
  end.

(** [x.lower()] on a JSON value: only a string has the method. *)
Definition lower_method (x : json) : M string :=
  match x with
  | JString s => ret (Str.lower s)
  | _ => raise AttributeError
  end.

(** [variations[engine_type]] *)
Definition types_of (engine_type : string) : M type_dict :=
  s <- get_state ;;
  match variations_get (variations s) engine_type with
  | Some types => ret types
  | None => raise KeyError
  end.

Definition set_types (engine_type : string) (types : type_dict) : M unit :=
  s <- get_state ;;
  put_variations (variations_put (variations s) engine_type types).

(** The name a file registers under when its metadata has no
    [chart_name]: [os.path.basename(item_path).split('.')[0]]. *)
Definition default_chart_name (item_path : string) : string :=
  hd "" (Str.split "."%char (Path.basename item_path)).

(** Lines 71-95 of [scan_directory]: extract the requirements of one
    template file and register it. *)
Definition register (item_path engine_type content : string) : M unit :=
  match extract_requirements content with
  | Some ((_ :: _) as requirements) =>
      match Dict.get "chart_type" requirements with
      | Some declared_type =>
          chart_type <- lower_method declared_type ;;
          chart_name <- lower_method
            (match Dict.get "chart_name" requirements with
             | Some declared_name => declared_name
             | None => JString (default_chart_name item_path)
             end) ;;
          types <- types_of engine_type ;;
          (if Dict.mem chart_type types then ret tt
           else set_types engine_type (Dict.set chart_type [] types)) ;;
          variation <-
            (if String.eqb engine_type "echarts_py"
             then load_python_variation item_path content
             else ret (FilePath item_path)) ;;
          types <- types_of engine_type ;;
          match Dict.get chart_type types with
          | Some names =>
              set_types engine_type
                (Dict.set chart_type
                   (Dict.set chart_name
                      (mk_info engine_type variation requirements) names)
                   types)
          | None => raise KeyError
          end
      | None => ret tt
      end
  | _ => ret tt
  end.

(** The body of the loop of [scan_directory] for one entry of the
    listing of [dir_path]; a sub-directory is scanned in place. *)
Fixpoint scan_item (dir_path engine_type file_extension : string)
         (it : entry) {struct it} : M unit :=
  match it with
  | Dir item listing =>
      let item_path := Path.join dir_path item in
      (fix scan_listing (l : list entry) : M unit :=
         match l with
         | [] => ret tt
         | x :: l' =>
             scan_item item_path engine_type file_extension x ;;
             scan_listing l'
         end) listing
  | File item content =>
      let item_path := Path.join dir_path item in
      if Str.endswith file_extension item then
        if String.eqb file_extension ".py" && Str.startswith "__" item
        then ret tt
        else register item_path engine_type content
      else ret tt
  | Other _ => ret tt
  end.

(** [scan_directory(dir_path, engine_type, file_extension)] *)
Definition scan_directory (dir_path engine_type file_extension : string)
           (d : directory) : M unit :=
  match d with
  | None => ret tt
  | Some listing =>
      for_each (scan_item dir_path engine_type file_extension) listing
  end.

(** [scan_variations(force)] *)
Definition scan_variations (fs : file_system) (force : bool) : M registry :=
  s <- get_state ;;
  if _variations_scanned s && negb force then ret (variations s)
  else
    set_types "vegalite_py" [] ;;
    set_types "echarts_py" [] ;;
    set_types "echarts-js" [] ;;
    set_types "d3-js" [] ;;
    scan_directory (Path.join variation_dir "echarts_py")
                   "echarts_py" ".py" (echarts_py_dir fs) ;;
    scan_directory (Path.join variation_dir "echarts-js")
                   "echarts-js" ".js" (echarts_js_dir fs) ;;
    scan_directory (Path.join variation_dir "d3-js")
                   "d3-js" ".js" (d3_js_dir fs) ;;
    scan_directory (Path.join variation_dir "vegalite_py")
                   "vegalite_py" ".py" (vegalite_py_dir fs) ;;
    put_scanned true ;;
    s <- get_state ;;
    ret (variations s).

(** [if not _variations_scanned: scan_variations()] *)
Definition ensure_scanned (fs : file_system) : M unit :=
  s <- get_state ;;
  if negb (_variations_scanned s)
  then scan_variations fs false ;; ret tt
  else ret tt.

(** The four statements shared by both passes of
    [get_variation_for_chart_type]: list the chart names of a bucket
    and, if there is one, return a randomly chosen record.  [Ok None]
    means that the loop goes on. *)
Definition pick (r : nat) (names : name_dict) : outcome resolution :=
  match Dict.keys names with
  | [] => Ok None
  | (first :: _) as chart_names =>
      let selected_name := random_choice r chart_names first in
      match Dict.get selected_name names with
      | Some variation_info =>
          Ok (Some (engine_type variation_info, variation variation_info))
      | None => Raised KeyError
      end
  end.

Definition default_preference : list string :=
  ["echarts_py"; "echarts-js"; "d3-js"].

(** The first loop of [get_variation_for_chart_type].  [Ok (Some _)] is
    a [return] inside the loop, [Ok None] is the loop running to its
    end. *)
Fixpoint exact_pass (v : registry) (chart_type : string) (r : nat)
         (engine_preference : list string) : outcome resolution :=
  match engine_preference with
  | [] => Ok None
  | engine :: rest =>
      match variations_get v engine with
      | None => Raised KeyError
      | Some types =>
          match Dict.get chart_type types with
          | Some names =>
              match pick r names with
              | Ok None => exact_pass v chart_type r rest
              | returned => returned
              end
          | None => exact_pass v chart_type r rest
          end
      end
  end.

(** The inner loop of the partial pass, over the chart types of one
    engine in insertion order; the bucket of a type is the one bound to
    it in the dictionary being iterated. *)
Fixpoint partial_types (chart_type : string) (r : nat) (types : type_dict)
  : outcome resolution :=
  match types with
  | [] => Ok None
  | (variation_type, names) :: rest =>
      if Str.contains chart_type variation_type
         || Str.contains variation_type chart_type
      then match pick r names with
           | Ok None => partial_types chart_type r rest
           | returned => returned
           end
      else partial_types chart_type r rest
  end.

(** The second loop of [get_variation_for_chart_type]. *)
Fixpoint partial_pass (v : registry) (chart_type : string) (r : nat)
         (engine_preference : list string) : outcome resolution :=
  match engine_preference with
  | [] => Ok None
  | engine :: rest =>
      match variations_get v engine with
      | None => Raised KeyError
      | Some types =>
          match partial_types chart_type r types with
          | Ok None => partial_pass v chart_type r rest
          | returned => returned
          end
      end
  end.

(** [get_variation_for_chart_type(chart_type, engine_preference)];
    [r] is the draw of the one [random.choice] a call can reach. *)
Definition get_variation_for_chart_type (fs : file_system)
           (chart_type : string) (engine_preference : option (list string))
           (r : nat) : M resolution :=
  ensure_scanned fs ;;
  let chart_type := Str.lower chart_type in
  let engine_preference :=
    match engine_preference with
    | None => default_preference
    | Some preference => preference
    end in
  s <- get_state ;;
  exact <- lift (exact_pass (variations s) chart_type r engine_preference) ;;
  match exact with
  | Some found => ret (Some found)
  | None =>
      partial <- lift (partial_pass (variations s) chart_type r
                                    engine_preference) ;;
      match partial with
      | Some found => ret (Some found)
      | None => ret None
      end
  end.

(** [variations.items()] in the order of the module-level literal. *)
Definition registry_items (v : registry) : list (string * type_dict) :=
  [("echarts_py", echarts_py v); ("echarts-js", echarts_js v);
   ("d3-js", d3_js v); ("vegalite_py", vegalite_py v)].

(** The first loop of [get_variation_for_chart_name] inside one engine. *)
Fixpoint exact_name_types (chart_name : string) (types : type_dict)
  : resolution :=
  match types with
  | [] => None
  | (_, chart_dict) :: rest =>
      match Dict.get chart_name chart_dict with
      | Some variation_info =>
          Some (engine_type variation_info, variation variation_info)
      | None => exact_name_types chart_name rest
      end
  end.

(** The first loop of [get_variation_for_chart_name]. *)
Fixpoint exact_name_pass (chart_name : string)
         (items : list (string * type_dict)) : resolution :=
  match items with
  | [] => None
  | (_, types) :: rest =>
      match exact_name_types chart_name types with
      | Some found => Some found
      | None => exact_name_pass chart_name rest
      end
  end.

(** The body of the innermost loop of the similarity pass, on the pair
    [(max_overlap, best_result)]; the record of a name is the one bound
    to it in the dictionary being iterated. *)
Definition similarity_step (chart_name : string)
           (best : nat * resolution) (binding : string * variation_info)
  : nat * resolution :=
  let '(max_overlap, best_result) := best in
  let '(name, variation_info) := binding in
  let overlap := Str.overlap chart_name name in
  if Nat.ltb max_overlap overlap
  then (overlap,
        Some (engine_type variation_info, variation variation_info))
  else (max_overlap, best_result).

(** The three nested loops of the similarity pass. *)
Definition similarity_pass (chart_name : string)
           (items : list (string * type_dict)) : nat * resolution :=
  fold_left
    (fun best engine_item =>
       fold_left
         (fun best type_item =>
            fold_left (similarity_step chart_name) (snd type_item) best)
         (snd engine_item) best)
    items (0, None).

(** [get_variation_for_chart_name(chart_name)]; the optional
    [engine_preference] of the source is never read. *)
Definition get_variation_for_chart_name (fs : file_system)
           (chart_name : string) : M resolution :=
  ensure_scanned fs ;;
  let chart_name := Str.lower chart_name in
  s <- get_state ;;
  match exact_name_pass chart_name (registry_items (variations s)) with
  | Some found => ret (Some found)
  | None =>
      match snd (similarity_pass chart_name
                                 (registry_items (variations s))) with
      | Some best_result => ret (Some best_result)
      | None => ret None
      end
  end.

(** *** Notions used by the statements *)

(** A string [s.lower()] leaves alone. *)
Definition is_lower (s : string) : Prop := Str.lower s = s.

(** [variations[engine][chart_type]], when both keys are there. *)
Definition bucket (v : registry) (engine chart_type : string)
  : option name_dict :=
  match variations_get v engine with
  | Some types => Dict.get chart_type types
  | None => None
  end.

(** [variations[engine][chart_type][chart_name]], when the keys are
    there. *)
Definition lookup (v : registry) (engine chart_type chart_name : string)
  : option variation_info :=
  match bucket v engine chart_type with
  | Some names => Dict.get chart_name names
  | None => None
  end.

(** The first engine of a preference list that has [chart_type] as a
    key, with its bucket. *)
Fixpoint first_bucket (v : registry) (chart_type : string)
         (engine_preference : list string) : option (string * name_dict) :=
  match engine_preference with
  | [] => None
  | engine :: rest =>
      match bucket v engine chart_type with
      | Some names => Some (engine, names)
      | None => first_bucket v chart_type rest
      end
  end.

(** Every (chart name, record) binding of the index, in the order the
    loops of [get_variation_for_chart_name] meet them. *)
Definition candidates (v : registry) : list (string * variation_info) :=
  flat_map (fun engine_item => flat_map snd (snd engine_item))
           (registry_items v).

(** The chart types registered under one engine. *)
Definition registered_types (v : registry) (engine : string)
  : list string :=
  match variations_get v engine with
  | Some types => Dict.keys types
  | None => []
  end.

(** The shape the scanner gives to the dictionary of one engine: one
    binding per key, lowercase keys, and every record tagged with the
    engine it is stored under. *)
Definition names_ok (engine : string) (names : name_dict) : Prop :=
  NoDup (Dict.keys names) /\
  Forall (fun binding =>
            is_lower (fst binding) /\ engine_type (snd binding) = engine)
         names.

Definition types_ok (engine : string) (types : type_dict) : Prop :=
  NoDup (Dict.keys types) /\
  Forall (fun type_item =>
            is_lower (fst type_item) /\ names_ok engine (snd type_item))
         types.

Definition registry_ok (v : registry) : Prop :=
  Forall (fun engine_item => types_ok (fst engine_item) (snd engine_item))
         (registry_items v).

(** No chart type with an empty bucket. *)
Definition buckets_nonempty (v : registry) : Prop :=
  Forall (fun engine_item =>
            Forall (fun type_item => snd type_item <> [])
                   (snd engine_item))
         (registry_items v).

(** The directory of an engine in the file system. *)
Definition fs_get (fs : file_system) (engine : string) : option directory :=
  if String.eqb engine "echarts_py" then Some (echarts_py_dir fs)
  else if String.eqb engine "echarts-js" then Some (echarts_js_dir fs)
  else if String.eqb engine "d3-js" then Some (d3_js_dir fs)
  else if String.eqb engine "vegalite_py" then Some (vegalite_py_dir fs)
  else None.

Definition fs_put (fs : file_system) (engine : string) (d : directory)
  : file_system :=
  if String.eqb engine "echarts_py" then
    mk_fs d (echarts_js_dir fs) (d3_js_dir fs) (vegalite_py_dir fs)
  else if String.eqb engine "echarts-js" then
    mk_fs (echarts_py_dir fs) d (d3_js_dir fs) (vegalite_py_dir fs)
  else if String.eqb engine "d3-js" then
    mk_fs (echarts_py_dir fs) (echarts_js_dir fs) d (vegalite_py_dir fs)
  else if String.eqb engine "vegalite_py" then
    mk_fs (echarts_py_dir fs) (echarts_js_dir fs) (d3_js_dir fs) d
  else fs.

(** The extension [scan_variations] looks for under an engine. *)
Definition extension_of (engine : string) : string :=
  if String.eqb engine "echarts_py" || String.eqb engine "vegalite_py"
  then ".py" else ".js".

(** [in_tree dir_path listing item_path item content]: the walk of
    [listing], the listing of [dir_path], meets the file [item] at
    [item_path] with the text [content]. *)
Inductive in_tree (dir_path : string) (listing : list entry)
  : string -> string -> string -> Prop :=
| in_tree_here item content :
    In (File item content) listing ->
    in_tree dir_path listing (Path.join dir_path item) item content
| in_tree_below sub sub_listing item_path item content :
    In (Dir sub sub_listing) listing ->
    in_tree (Path.join dir_path sub) sub_listing item_path item content ->
    in_tree dir_path listing item_path item content.

(** A file the scanner keeps: extension of the engine, not a
    double-underscore Python file, metadata with a string
    [chart_type]. *)
Definition template (file_extension item content declared_type : string)
  : Prop :=
  Str.endswith file_extension item = true /\
  (String.eqb file_extension ".py" && Str.startswith "__" item = false) /\
  exists requirements,
    extract_requirements content = Some requirements /\
    Dict.get "chart_type" requirements = Some (JString declared_type).

(** A file whose metadata block parses but has no [chart_type]. *)
Definition lacks_chart_type (content : string) : Prop :=
  exists requirements,
    extract_requirements content = Some requirements /\
    Dict.get "chart_type" requirements = None.

(** [without_file l l']: [l'] is the listing [l] with one file lacking
    [chart_type] taken out, at any depth. *)
Inductive without_file : list entry -> list entry -> Prop :=
| without_here before item content after :
    lacks_chart_type content ->
    without_file (before ++ File item content :: after) (before ++ after)
| without_below before sub l l' after :
    without_file l l' ->
    without_file (before ++ Dir sub l :: after)
                 (before ++ Dir sub l' :: after).

(** The states the three public operations can produce from the state
    of a fresh import, whatever the file system holds at each call and
    however a call ends. *)
Inductive reachable : state -> Prop :=
| reach_initial : reachable initial_state
| reach_scan s fs force o s' :
    reachable s -> scan_variations fs force s = (o, s') -> reachable s'
| reach_by_type s fs chart_type preference r o s' :
    reachable s ->
    get_variation_for_chart_type fs chart_type preference r s = (o, s') ->
    reachable s'
| reach_by_name s fs chart_name o s' :
    reachable s ->
    get_variation_for_chart_name fs chart_name s = (o, s') ->
    reachable s'.

(** A triple for the state-and-exception monad: from a state in [P],
    however [m] ends, outcome and final state are in [Q]. *)
Definition triple {A} (P : state -> Prop) (m : M A)
           (Q : outcome A -> state -> Prop) : Prop :=
  forall s o s', P s -> m s = (o, s') -> Q o s'.

(** [P] holds after a call: when it returned and, if [always], also
    when it raised. *)
Definition kept {A} (always : bool) (P : state -> Prop)
           (o : outcome A) (s' : state) : Prop :=
  match o with
  | Ok _ => P s'
  | Raised _ => if always then P s' else True
  end.

(** [m] keeps [P], also when it raises. *)
Definition keeps {A} (P : state -> Prop) (m : M A) : Prop :=
  triple P m (kept true P).

(** [m] keeps [P] when it returns. *)
Definition keeps_on_return {A} (P : state -> Prop) (m : M A) : Prop :=
  triple P m (kept false P).

(** The state [s] with the dictionary of one engine replaced. *)
Definition with_types (s : state) (engine : string) (types : type_dict)
  : state :=
  mk_state (variations_put (variations s) engine types)
           (_variations_scanned s).

(** Lines 81-82 of [scan_directory] on the dictionary of the engine. *)
Definition ensure_bucket (chart_type : string) (types : type_dict)
  : type_dict :=
  if Dict.mem chart_type types then types
  else Dict.set chart_type [] types.

(** Line 91 of [scan_directory] on the dictionary of the engine. *)
Definition store (chart_type chart_name : string) (info : variation_info)
           (types : type_dict) : type_dict :=
  match Dict.get chart_type types with
  | Some names =>
      Dict.set chart_type (Dict.set chart_name info names) types
  | None => types
  end.

(** The handle [scan_directory] stores for a file. *)
Definition handle_of (engine item_path : string) : variation_handle :=
  if String.eqb engine "echarts_py"
  then PyModule (Str.remove ".py" (Path.basename item_path)) item_path
  else FilePath item_path.

(** The engine has the chart type, with at least one chart name. *)
Definition has_type (v : registry) (engine chart_type : string) : Prop :=
  exists names, bucket v engine chart_type = Some names /\ names <> [].

(** The engine has the chart name under the chart type. *)
Definition has_name (v : registry) (engine chart_type chart_name : string)
  : Prop :=
  lookup v engine chart_type chart_name <> None.

(** The state in which [scan_variations] starts the four walks. *)
Definition cleared (s : state) : state :=
  mk_state empty_registry (_variations_scanned s).

(** What the resolvers return for a binding of the index. *)
Definition result_of (binding : string * variation_info) : resolution :=
  Some (engine_type (snd binding), variation (snd binding)).

(** Control reaches the second loop of [get_variation_for_chart_type]
    exactly when the first loop ends without a [return] and without an
    exception. *)
Definition runs_partial_pass (v : registry) (chart_type : string) (r : nat)
           (engine_preference : list string) : bool :=
  match exact_pass v chart_type r engine_preference with
  | Ok None => true
  | _ => false
  end.

(** The list a call resolves against. *)
Definition preference_of (engine_preference : option (list string))
  : list string :=
  match engine_preference with
  | None => default_preference
  | Some preference => preference
  end.

(** The chart name a file registers under: the declared one when the
    metadata has it, the default one otherwise, before lowercasing. *)
Definition declared_name (item_path : string) (reqs : requirements_dict)
  : json :=
  match Dict.get "chart_name" reqs with
  | Some declared => declared
  | None => JString (default_chart_name item_path)
  end.

(** Whether a JSON value has the [lower] method of a string. *)
Definition is_string (j : json) : bool :=
  match j with
  | JString _ => true
  | _ => false
  end.

(** A file on which a call of [.lower()] of lines 75-78 fails: the
    metadata has a [chart_type], and that value, or else the chart name,
    is not a string. *)
Definition lower_fails (item_path content : string) : Prop :=
  exists reqs declared,
    extract_requirements content = Some reqs /\
    Dict.get "chart_type" reqs = Some declared /\
    (is_string declared = false \/
     is_string (declared_name item_path reqs) = false).

(** The test of the partial pass: one of the two chart types is a
    substring of the other. *)
Definition related (chart_type variation_type : string) : bool :=
  Str.contains chart_type variation_type
  || Str.contains variation_type chart_type.

(** No chart type of the dictionary that passes the test of the partial
    pass has a chart name. *)
Definition no_partial_match (chart_type : string) (types : type_dict)
  : Prop :=
  forall variation_type names,
    In (variation_type, names) types ->
    related chart_type variation_type = true -> names = [].

(** Two states with the same index: they differ at most in the flag. *)
Definition same_index (s s' : state) : Prop := variations s = variations s'.

(** A computation that does not look at the flag: from two states with
    the same index it ends with the same outcome, in two states with the
    same index. *)
Definition ignores_flag {A} (m : M A) : Prop :=
  forall s s',
    same_index s s' ->
    fst (m s) = fst (m s') /\ same_index (snd (m s)) (snd (m s')).

(** An entry the loop of [scan_directory] passes over: neither file nor
    directory, an empty directory, a file without the extension, a
    double-underscore file of a Python engine, or a file in which
    [extract_requirements] finds nothing or an empty object. *)
Definition passed_over (file_extension : string) (it : entry) : Prop :=
  match it with
  | Other _ => True
  | Dir _ listing => listing = []
  | File item content =>
      Str.endswith file_extension item = false \/
      String.eqb file_extension ".py" && Str.startswith "__" item = true \/
      extract_requirements content = None \/
      extract_requirements content = Some []
  end.

(** The record under the key [(e, t, n)] is the one the scanner makes of
    a template file in the tree of the engine [e]. *)
Definition comes_from (fs : file_system) (e t n : string)
           (info : variation_info) : Prop :=
  exists listing item_path item content reqs ct cn,
    fs_get fs e = Some (Some listing) /\
    in_tree (Path.join variation_dir e) listing item_path item content /\
    template (extension_of e) item content ct /\
    extract_requirements content = Some reqs /\
    Dict.get "chart_type" reqs = Some (JString ct) /\
    declared_name item_path reqs = JString cn /\
    t = Str.lower ct /\ n = Str.lower cn /\
    info = mk_info e (handle_of e item_path) reqs.

(** Every record of the index comes from a template of the file
    system. *)
Definition index_from (fs : file_system) (v : registry) : Prop :=
  forall e t n info, lookup v e t n = Some info -> comes_from fs e t n info.

(** Every record is tagged with its engine and holds the handle the
    scanner makes for that engine. *)
Definition handles_by_engine (v : registry) : Prop :=
  forall e t n info,
    lookup v e t n = Some info ->
    engine_type info = e /\
    exists item_path, variation info = handle_of e item_path.


(** What a call of [get_variation_for_chart_type] may answer on an
    index: a record stored under a listed engine and a chart type that
    passes the test of the partial pass (the requested type passes it),
    or nothing when every such bucket of the listed engines is empty. *)
Definition answers_from (v : registry) (preference : list string)
           (chart_type : string) (res : resolution) : Prop :=
  match res with
  | Some (e, handle) =>
      In e preference /\
      exists t n info,
        related chart_type t = true /\
        lookup v e t n = Some info /\
        engine_type info = e /\ variation info = handle
  | None =>
      forall e t names,
        In e preference ->
        related chart_type t = true ->
        bucket v e t = Some names -> names = []
  end.
(** ** Strings and dictionaries *)

Lemma lower_char_idem c :
  Str.lower_char (Str.lower_char c) = Str.lower_char c.
Proof. destruct c as [[] [] [] [] [] [] [] []]; reflexivity. Qed.

Lemma lower_idem s : Str.lower (Str.lower s) = Str.lower s.
Proof.
  induction s as [|c s IH]; simpl; [reflexivity|].
  now rewrite lower_char_idem, IH.
Qed.

Lemma lower_is_lower s : is_lower (Str.lower s).
Proof. apply lower_idem. Qed.

Section DictFacts.
Context {V : Type}.
Implicit Types (d : list (string * V)) (k : string) (v : V).

Lemma get_set_same k v d : Dict.get k (Dict.set k v d) = Some v.
Proof.
  induction d as [|[k' v'] d IH]; simpl.
  - now rewrite String.eqb_refl.
  - destruct (String.eqb k k') eqn:E; simpl.
    + now rewrite String.eqb_refl.
    + now rewrite E.
Qed.

Lemma get_set_other k k' v d :
  k <> k' -> Dict.get k' (Dict.set k v d) = Dict.get k' d.
Proof.
  intros Hne. induction d as [|[k0 v0] d IH]; simpl.
  - destruct (String.eqb_spec k' k); congruence.
  - destruct (String.eqb_spec k k0) as [->|Hk]; simpl.
    + destruct (String.eqb_spec k' k0); congruence.
    + destruct (String.eqb_spec k' k0); congruence.
Qed.

Lemma get_In k d v : Dict.get k d = Some v -> In (k, v) d.
Proof.
  induction d as [|[k0 v0] d IH]; simpl; [discriminate|].
  destruct (String.eqb_spec k k0) as [->|Hk]; intros H.
  - left. congruence.
  - right. auto.
Qed.

Lemma get_Some_keys k d v : Dict.get k d = Some v -> In k (Dict.keys d).
Proof.
  intros H. apply get_In in H.
  unfold Dict.keys. change k with (fst (k, v)). now apply in_map.
Qed.

Lemma keys_get k d : In k (Dict.keys d) -> exists v, Dict.get k d = Some v.
Proof.
  induction d as [|[k0 v0] d IH]; simpl; [tauto|].
  intros [E|H].
  - exists v0. destruct (String.eqb_spec k k0); congruence.
  - destruct (String.eqb_spec k k0); eauto.
Qed.

Lemma get_None_keys k d : Dict.get k d = None -> ~ In k (Dict.keys d).
Proof.
  intros H Hin. apply keys_get in Hin as [v Hv]. congruence.
Qed.

Lemma In_get k v d : NoDup (Dict.keys d) -> In (k, v) d -> Dict.get k d = Some v.
Proof.
  induction d as [|[k0 v0] d IH]; simpl; [tauto|].
  intros Hnd [Heq|Hin].
  - inversion Heq; subst. now rewrite String.eqb_refl.
  - inversion Hnd as [|? ? Hnotin Hnd']; subst.
    destruct (String.eqb_spec k k0) as [E|Hk]; [|auto].
    exfalso. apply Hnotin. rewrite <- E.
    exact (in_map fst _ _ Hin).
Qed.

Lemma set_new k v d : Dict.get k d = None -> Dict.set k v d = d ++ [(k, v)].
Proof.
  induction d as [|[k0 v0] d IH]; simpl; [reflexivity|].
  destruct (String.eqb k k0); [discriminate|].
  intros H. now rewrite IH.
Qed.

Lemma keys_set_present k v v0 d :
  Dict.get k d = Some v0 -> Dict.keys (Dict.set k v d) = Dict.keys d.
Proof.
  induction d as [|[k0 v1] d IH]; simpl; [discriminate|].
  destruct (String.eqb_spec k k0) as [->|Hk]; simpl; intros H.
  - reflexivity.
  - now rewrite IH.
Qed.

Lemma In_set k v d b : In b (Dict.set k v d) -> b = (k, v) \/ In b d.
Proof.
  induction d as [|[k0 v0] d IH]; simpl.
  - intros [H|[]]; auto.
  - destruct (String.eqb k k0); simpl; intros [H|H]; auto.
    destruct (IH H); auto.
Qed.

Lemma NoDup_keys_set k v d :
  NoDup (Dict.keys d) -> NoDup (Dict.keys (Dict.set k v d)).
Proof.
  intros Hnd. destruct (Dict.get k d) as [v0|] eqn:E.
  - now rewrite (keys_set_present _ _ _ _ E).
  - rewrite (set_new _ _ _ E). unfold Dict.keys in *.
    rewrite map_app. simpl.
    apply NoDup_app; [assumption|repeat constructor; simpl; tauto|].
    intros x Hx [<-|[]]. now apply get_None_keys in E.
Qed.

Lemma Forall_set (P : string * V -> Prop) k v d :
  P (k, v) -> Forall P d -> Forall P (Dict.set k v d).
Proof.
  intros Hkv Hd. apply Forall_forall. intros b Hb.
  apply In_set in Hb as [->|Hb]; [assumption|].
  rewrite Forall_forall in Hd. auto.
Qed.

Lemma set_not_nil k v d : Dict.set k v d <> [].
Proof.
  destruct d as [|[k0 v0] d]; simpl; [discriminate|].
  destruct (String.eqb k k0); discriminate.
Qed.

Lemma get_set_Some k k' v d :
  Dict.get k' d <> None -> Dict.get k' (Dict.set k v d) <> None.
Proof.
  intros H. destruct (String.eqb_spec k k') as [->|Hne].
  - rewrite get_set_same. discriminate.
  - now rewrite get_set_other.
Qed.

End DictFacts.

(** ** The four engines *)

Ltac engine_cases :=
  unfold variations_get, variations_put, fs_get, fs_put;
  repeat match goal with
         | |- context [String.eqb ?a ?b] =>
             destruct (String.eqb_spec a b); subst; simpl;
             try congruence; try discriminate
         end.

Lemma engines_variations_get v e :
  In e engines -> exists types, variations_get v e = Some types.
Proof.
  simpl. intros [<-|[<-|[<-|[<-|[]]]]]; eexists; reflexivity.
Qed.

Lemma variations_get_put_same v e d types :
  variations_get v e = Some types ->
  variations_get (variations_put v e d) e = Some d.
Proof. engine_cases. Qed.

Lemma variations_get_put_other v e e' d :
  e <> e' ->
  variations_get (variations_put v e d) e' = variations_get v e'.
Proof. intros H. engine_cases. Qed.

Lemma variations_put_unknown v e d :
  variations_get v e = None -> variations_put v e d = v.
Proof. engine_cases. Qed.

Lemma variations_put_put v e d d' :
  variations_put (variations_put v e d) e d' = variations_put v e d'.
Proof. engine_cases. Qed.

Lemma variations_put_get v e types :
  variations_get v e = Some types -> variations_put v e types = v.
Proof. destruct v. engine_cases. Qed.

Lemma registry_items_get v e types :
  In (e, types) (registry_items v) <-> variations_get v e = Some types.
Proof.
  unfold registry_items. simpl. split.
  - intros [H|[H|[H|[H|[]]]]]; inversion H; subst; reflexivity.
  - engine_cases; intros H; inversion H; subst; auto 6.
Qed.

(** ** Rules for triples *)

Lemma triple_bind {A B} (m : M A) (k : A -> M B) P R Q :
  triple P m (fun o s => match o with
                         | Ok a => R a s
                         | Raised e => Q (Raised e) s
                         end) ->
  (forall a, triple (R a) (k a) Q) ->
  triple P (bind m k) Q.
Proof.
  intros Hm Hk s o s' HP. unfold bind.
  destruct (m s) as [[a|e] s1] eqn:E; intros H.
  - eapply Hk; [|exact H]. exact (Hm _ _ _ HP E).
  - inversion H; subst. exact (Hm _ _ _ HP E).
Qed.

Lemma kept_bind {A B} always P (m : M A) (k : A -> M B) :
  triple P m (kept always P) ->
  (forall a, triple P (k a) (kept always P)) ->
  triple P (bind m k) (kept always P).
Proof.
  intros Hm Hk s o s' HP. unfold bind.
  destruct (m s) as [[a|e] s1] eqn:E; intros H.
  - eapply Hk; [|exact H]. exact (Hm _ _ _ HP E).
  - inversion H; subst. exact (Hm _ _ _ HP E).
Qed.

Lemma kept_ret {A} always P (a : A) : triple P (ret a) (kept always P).
Proof. intros s o s' HP H. inversion H; subst. exact HP. Qed.

Lemma kept_get_state always P : triple P get_state (kept always P).
Proof. intros s o s' HP H. inversion H; subst. exact HP. Qed.

Lemma kept_lift {A} always P (x : outcome A) :
  triple P (lift x) (kept always P).
Proof.
  intros s o s' HP H. inversion H; subst.
  destruct o; simpl; [assumption|now destruct always].
Qed.

Lemma kept_for_each {A} always P (body : A -> M unit) l :
  (forall x, In x l -> triple P (body x) (kept always P)) ->
  triple P (for_each body l) (kept always P).
Proof.
  induction l as [|x l IH]; simpl; intros H.
  - apply kept_ret.
  - apply kept_bind; [apply H; auto|]. intros _. apply IH. auto.
Qed.

(** ** The walk of a directory tree *)

Lemma entry_tree_ind (P : entry -> Prop) :
  (forall item content, P (File item content)) ->
  (forall item listing, Forall P listing -> P (Dir item listing)) ->
  (forall item, P (Other item)) ->
  forall it, P it.
Proof.
  intros HF HD HO. fix IH 1. intros [item content|item listing|item].
  - apply HF.
  - apply HD. induction listing as [|x l IHl]; constructor; auto.
  - apply HO.
Qed.

Lemma scan_item_dir dir_path engine ext item listing :
  scan_item dir_path engine ext (Dir item listing)
  = scan_directory (Path.join dir_path item) engine ext (Some listing).
Proof.
  simpl. induction listing as [|x l IH]; simpl; [reflexivity|].
  now rewrite IH.
Qed.

Lemma for_each_app {A} (body : A -> M unit) l1 l2 s :
  for_each body (l1 ++ l2) s = (for_each body l1 ;; for_each body l2) s.
Proof.
  revert s. induction l1 as [|x l1 IH]; intros s; simpl.
  - reflexivity.
  - unfold bind in *. destruct (body x s) as [[[]|e] s1]; [|reflexivity].
    now rewrite IH.
Qed.

(** An invariant of the registration of a file is an invariant of the
    walk. *)
Lemma scan_item_kept always P engine ext :
  (forall item_path content,
      triple P (register item_path engine content) (kept always P)) ->
  forall it dir_path,
    triple P (scan_item dir_path engine ext it) (kept always P).
Proof.
  intros Hreg it.
  induction it as [item content|item listing IH|item] using entry_tree_ind;
    intros dir_path.
  - simpl. destruct (Str.endswith ext item); [|apply kept_ret].
    destruct (String.eqb ext ".py" && Str.startswith "__" item);
      [apply kept_ret|apply Hreg].
  - rewrite scan_item_dir. simpl. apply kept_for_each.
    intros x Hx. rewrite Forall_forall in IH. now apply IH.
  - apply kept_ret.
Qed.

Lemma scan_directory_kept always P engine ext dir_path d :
  (forall item_path content,
      triple P (register item_path engine content) (kept always P)) ->
  triple P (scan_directory dir_path engine ext d) (kept always P).
Proof.
  intros Hreg. destruct d as [listing|]; simpl; [|apply kept_ret].
  apply kept_for_each. intros x _. now apply scan_item_kept.
Qed.

(** ** Running the monad *)

Lemma bind_ret {A B} (a : A) (k : A -> M B) s : bind (ret a) k s = k a s.
Proof. reflexivity. Qed.

Lemma bind_run {A B} (m : M A) (k : A -> M B) s a s1 :
  m s = (Ok a, s1) -> bind m k s = k a s1.
Proof. intros H. unfold bind. now rewrite H. Qed.

Lemma bind_run_raised {A B} (m : M A) (k : A -> M B) s e s1 :
  m s = (Raised e, s1) -> bind m k s = (Raised e, s1).
Proof. intros H. unfold bind. now rewrite H. Qed.

Lemma bind_inv {A B} (m : M A) (k : A -> M B) s o s' :
  bind m k s = (o, s') ->
  (exists a s1, m s = (Ok a, s1) /\ k a s1 = (o, s'))
  \/ (exists e, m s = (Raised e, s') /\ o = Raised e).
Proof.
  unfold bind. destruct (m s) as [[a|e] s1]; intros H.
  - left. eauto.
  - right. inversion H; subst. eauto.
Qed.

Lemma types_of_run s e types :
  variations_get (variations s) e = Some types ->
  types_of e s = (Ok types, s).
Proof. intros H. unfold types_of, bind, get_state. now rewrite H. Qed.

Lemma types_of_unknown s e :
  variations_get (variations s) e = None ->
  types_of e s = (Raised KeyError, s).
Proof. intros H. unfold types_of, bind, get_state. now rewrite H. Qed.

Lemma set_types_run s e types :
  set_types e types s = (Ok tt, with_types s e types).
Proof. reflexivity. Qed.

Lemma with_types_same s e types :
  variations_get (variations s) e = Some types -> with_types s e types = s.
Proof.
  intros H. unfold with_types. rewrite (variations_put_get _ _ _ H).
  now destruct s.
Qed.

Lemma with_types_twice s e a b :
  with_types (with_types s e a) e b = with_types s e b.
Proof. unfold with_types. simpl. now rewrite variations_put_put. Qed.

Lemma with_types_get s e types d :
  variations_get (variations s) e = Some types ->
  variations_get (variations (with_types s e d)) e = Some d.
Proof. intros H. simpl. now apply variations_get_put_same with types. Qed.

Lemma ensure_bucket_get t types :
  exists names, Dict.get t (ensure_bucket t types) = Some names /\
                (Dict.get t types = None -> names = []) /\
                (forall n, Dict.get t types = Some n -> names = n).
Proof.
  unfold ensure_bucket, Dict.mem.
  destruct (Dict.get t types) as [names|] eqn:E.
  - exists names. rewrite E. repeat split; congruence.
  - exists []. rewrite get_set_same. repeat split; congruence.
Qed.

(** ** What registering one file does *)

Lemma register_run item_path e content s reqs ct cn types :
  extract_requirements content = Some reqs ->
  Dict.get "chart_type" reqs = Some (JString ct) ->
  match Dict.get "chart_name" reqs with
  | Some declared_name => declared_name
  | None => JString (default_chart_name item_path)
  end = JString cn ->
  variations_get (variations s) e = Some types ->
  register item_path e content s =
  if String.eqb e "echarts_py" && negb (exec_module item_path content)
  then (Raised ExecError,
        with_types s e (ensure_bucket (Str.lower ct) types))
  else (Ok tt,
        with_types s e
          (store (Str.lower ct) (Str.lower cn)
                 (mk_info e (handle_of e item_path) reqs)
                 (ensure_bucket (Str.lower ct) types))).
Proof.
  intros Ex Ect Ecn Eg. unfold register. rewrite Ex.
  destruct reqs as [|b reqs]; [discriminate|].
  rewrite Ect, Ecn. simpl lower_method. rewrite !bind_ret.
  rewrite (bind_run _ _ _ _ _ (types_of_run _ _ _ Eg)).
  assert (Es : (if Dict.mem (Str.lower ct) types then ret tt
                else set_types e (Dict.set (Str.lower ct) [] types)) s
               = (Ok tt, with_types s e
                           (ensure_bucket (Str.lower ct) types))).
  { unfold ensure_bucket.
    destruct (Dict.mem (Str.lower ct) types); [|reflexivity].
    now rewrite with_types_same. }
  rewrite (bind_run _ _ _ _ _ Es).
  pose proof (with_types_get _ _ _ (ensure_bucket (Str.lower ct) types) Eg)
    as Eg1.
  destruct (ensure_bucket_get (Str.lower ct) types) as (names & En & _).
  unfold handle_of, load_python_variation, store.
  destruct (String.eqb e "echarts_py"); simpl andb.
  - destruct (exec_module item_path content); simpl negb; cbv iota.
    + rewrite bind_ret.
      rewrite (bind_run _ _ _ _ _ (types_of_run _ _ _ Eg1)).
      rewrite En, set_types_run, with_types_twice. reflexivity.
    + reflexivity.
  - rewrite bind_ret.
    rewrite (bind_run _ _ _ _ _ (types_of_run _ _ _ Eg1)).
    rewrite En, set_types_run, with_types_twice. reflexivity.
Qed.

Lemma register_effect item_path e content s o s' :
  register item_path e content s = (o, s') ->
  s' = s
  \/ (exists types t,
        variations_get (variations s) e = Some types /\ is_lower t /\
        o = Raised ExecError /\
        s' = with_types s e (ensure_bucket t types))
  \/ (exists types t n info,
        variations_get (variations s) e = Some types /\
        is_lower t /\ is_lower n /\ engine_type info = e /\ o = Ok tt /\
        s' = with_types s e (store t n info (ensure_bucket t types))).
Proof.
  destruct (extract_requirements content) as [reqs|] eqn:Ex;
    [|unfold register; rewrite Ex; intros H; inversion H; auto].
  destruct (Dict.get "chart_type" reqs) as [declared|] eqn:Ect;
    [|unfold register; rewrite Ex; destruct reqs; [|rewrite Ect];
      intros H; inversion H; auto].
  destruct declared as [| | |ct| |];
    try (unfold register; rewrite Ex; destruct reqs; [|rewrite Ect];
         intros H; inversion H; auto; fail).
  destruct (match Dict.get "chart_name" reqs with
            | Some declared_name => declared_name
            | None => JString (default_chart_name item_path)
            end) as [| | |cn| |] eqn:Ecn;
    try (unfold register; rewrite Ex; destruct reqs; [|rewrite Ect, Ecn];
         intros H; inversion H; auto; fail).
  destruct (variations_get (variations s) e) as [types|] eqn:Eg.
  - rewrite (register_run _ _ _ _ _ _ _ _ Ex Ect Ecn Eg).
    destruct (String.eqb e "echarts_py" && negb (exec_module item_path content));
      intros H; inversion H; subst; right.
    + left. exists types, (Str.lower ct). auto using lower_is_lower.
    + right. exists types, (Str.lower ct), (Str.lower cn).
      eexists. repeat split; auto using lower_is_lower.
  - unfold register. rewrite Ex. destruct reqs; [discriminate|].
    rewrite Ect, Ecn. simpl lower_method. rewrite !bind_ret.
    rewrite (bind_run_raised _ _ _ _ _ (types_of_unknown _ _ Eg)).
    intros H; inversion H; auto.
Qed.

(** ** Invariants of the registration of one file *)

Lemma registry_ok_get v :
  registry_ok v <->
  forall e types, variations_get v e = Some types -> types_ok e types.
Proof.
  unfold registry_ok. rewrite Forall_forall. split.
  - intros H e types Hg. apply registry_items_get in Hg.
    exact (H _ Hg).
  - intros H [e types] Hin. apply registry_items_get in Hin.
    simpl. auto.
Qed.

Lemma set_set {V} k (v v0 : V) d :
  Dict.set k v (Dict.set k v0 d) = Dict.set k v d.
Proof.
  induction d as [|[k1 v1] d IH]; simpl.
  - now rewrite String.eqb_refl.
  - destruct (String.eqb k k1) eqn:E; simpl.
    + now rewrite String.eqb_refl.
    + now rewrite E, IH.
Qed.

(** Lines 81-91 together: the record goes into the bucket of its type,
    created empty when the type is new. *)
Lemma store_ensure t n info types :
  store t n info (ensure_bucket t types)
  = Dict.set t (Dict.set n info
                  (match Dict.get t types with
                   | Some names => names
                   | None => []
                   end)) types.
Proof.
  unfold store, ensure_bucket, Dict.mem.
  destruct (Dict.get t types) as [names|] eqn:E.
  - now rewrite E.
  - now rewrite get_set_same, set_set.
Qed.

Lemma names_ok_nil e : names_ok e [].
Proof. split; constructor. Qed.

Lemma types_ok_bucket e types t names :
  types_ok e types -> Dict.get t types = Some names -> names_ok e names.
Proof.
  intros [_ H] Hg. apply get_In in Hg. rewrite Forall_forall in H.
  exact (proj2 (H _ Hg)).
Qed.

Lemma types_ok_set e types t names :
  types_ok e types -> is_lower t -> names_ok e names ->
  types_ok e (Dict.set t names types).
Proof.
  intros [Hnd H] Ht Hn. split.
  - now apply NoDup_keys_set.
  - apply Forall_set; [split|]; assumption.
Qed.

Lemma names_ok_set e names n info :
  names_ok e names -> is_lower n -> engine_type info = e ->
  names_ok e (Dict.set n info names).
Proof.
  intros [Hnd H] Hn He. split.
  - now apply NoDup_keys_set.
  - apply Forall_set; [split|]; assumption.
Qed.

Lemma types_ok_ensure e types t :
  types_ok e types -> is_lower t -> types_ok e (ensure_bucket t types).
Proof.
  intros H Ht. unfold ensure_bucket.
  destruct (Dict.mem t types); [assumption|].
  apply types_ok_set; auto using names_ok_nil.
Qed.

Lemma types_ok_store e types t n info :
  types_ok e types -> is_lower t -> is_lower n -> engine_type info = e ->
  types_ok e (store t n info (ensure_bucket t types)).
Proof.
  intros H Ht Hn He. rewrite store_ensure.
  apply types_ok_set; [assumption..|].
  apply names_ok_set; [|assumption..].
  destruct (Dict.get t types) eqn:E; [|apply names_ok_nil].
  eapply types_ok_bucket; eassumption.
Qed.

Lemma registry_ok_put v e types d :
  registry_ok v -> variations_get v e = Some types -> types_ok e d ->
  registry_ok (variations_put v e d).
Proof.
  rewrite !registry_ok_get. intros H Hg Hd e' types' Hg'.
  destruct (String.eqb_spec e e') as [<-|Hne].
  - rewrite (variations_get_put_same _ _ _ _ Hg) in Hg'. congruence.
  - rewrite variations_get_put_other in Hg' by assumption. auto.
Qed.

Lemma register_keeps_registry_ok always item_path e content :
  triple (fun s => registry_ok (variations s))
         (register item_path e content)
         (kept always (fun s => registry_ok (variations s))).
Proof.
  intros s o s' Hok H.
  assert (registry_ok (variations s')) as Hs'.
  { apply register_effect in H
      as [->|[(types & t & Hg & Ht & _ & ->)
             |(types & t & n & info & Hg & Ht & Hn & He & _ & ->)]].
    - assumption.
    - simpl. eapply registry_ok_put; eauto.
      apply types_ok_ensure; [|assumption].
      now apply (proj1 (registry_ok_get _) Hok e).
    - simpl. eapply registry_ok_put; eauto.
      apply types_ok_store; try assumption.
      now apply (proj1 (registry_ok_get _) Hok e). }
  destruct o; simpl; [assumption|now destruct always].
Qed.

Lemma buckets_nonempty_get v :
  buckets_nonempty v <->
  forall e types,
    variations_get v e = Some types ->
    Forall (fun type_item => snd type_item <> []) types.
Proof.
  unfold buckets_nonempty. rewrite Forall_forall. split.
  - intros H e types Hg. apply registry_items_get in Hg.
    exact (H _ Hg).
  - intros H [e types] Hin. apply registry_items_get in Hin.
    simpl. eauto.
Qed.

Lemma buckets_nonempty_put v e d :
  buckets_nonempty v ->
  Forall (fun type_item => snd type_item <> []) d ->
  buckets_nonempty (variations_put v e d).
Proof.
  rewrite !buckets_nonempty_get. intros H Hd e' types' Hg'.
  destruct (String.eqb_spec e e') as [<-|Hne].
  - destruct (variations_get v e) as [types|] eqn:Hg.
    + rewrite (variations_get_put_same _ _ _ _ Hg) in Hg'. congruence.
    + rewrite (variations_put_unknown _ _ _ Hg) in Hg'. congruence.
  - rewrite variations_get_put_other in Hg' by assumption. eauto.
Qed.

Lemma register_keeps_nonempty item_path e content :
  keeps_on_return (fun s => buckets_nonempty (variations s))
                  (register item_path e content).
Proof.
  intros s o s' Hne H.
  apply register_effect in H
    as [->|[(types & t & Hg & Ht & -> & ->)
           |(types & t & n & info & Hg & Ht & Hn & He & -> & ->)]].
  - now destruct o.
  - exact I.
  - simpl. apply buckets_nonempty_put; [assumption|].
    rewrite store_ensure. apply Forall_set.
    + simpl. apply set_not_nil.
    + exact (proj1 (buckets_nonempty_get _) Hne _ _ Hg).
Qed.

Lemma bucket_with_types s e d e0 t0 types :
  variations_get (variations s) e = Some types ->
  bucket (variations (with_types s e d)) e0 t0
  = if String.eqb e e0 then Dict.get t0 d
    else bucket (variations s) e0 t0.
Proof.
  intros Hg. unfold bucket. simpl.
  destruct (String.eqb_spec e e0) as [<-|Hne].
  - now rewrite (variations_get_put_same _ _ _ _ Hg).
  - now rewrite variations_get_put_other.
Qed.

Lemma has_name_has_type v e t n : has_name v e t n -> has_type v e t.
Proof.
  unfold has_name, has_type, lookup.
  destruct (bucket v e t) as [names|]; [|congruence].
  intros H. exists names. split; [reflexivity|].
  intros ->. now apply H.
Qed.

Lemma register_keeps_has_name always item_path e content e0 t0 n0 :
  triple (fun s => has_name (variations s) e0 t0 n0)
         (register item_path e content)
         (kept always (fun s => has_name (variations s) e0 t0 n0)).
Proof.
  intros s o s' Hn H.
  assert (has_name (variations s') e0 t0 n0) as Hs'.
  { apply register_effect in H
      as [->|[(types & t & Hg & Ht & _ & ->)
             |(types & t & n & info & Hg & _ & _ & _ & _ & ->)]];
      [assumption|..];
      unfold has_name, lookup in *;
      rewrite (bucket_with_types _ _ _ _ _ _ Hg);
      destruct (String.eqb_spec e e0) as [<-|Hne]; try assumption;
      unfold bucket in Hn; rewrite Hg in Hn.
    - unfold ensure_bucket, Dict.mem.
      destruct (Dict.get t types) eqn:E; [assumption|].
      rewrite get_set_other; [assumption|].
      intros <-. now rewrite E in Hn.
    - rewrite store_ensure.
      destruct (String.eqb_spec t t0) as [<-|Hne].
      + rewrite get_set_same.
        destruct (Dict.get t types); [|congruence].
        now apply get_set_Some.
      + now rewrite get_set_other. }
  destruct o; simpl; [assumption|now destruct always].
Qed.

(** Registering under one engine leaves the other engines alone. *)
Lemma register_frame always item_path e content e0 types0 :
  e <> e0 ->
  triple (fun s => variations_get (variations s) e0 = Some types0)
         (register item_path e content)
         (kept always
               (fun s => variations_get (variations s) e0 = Some types0)).
Proof.
  intros Hne s o s' Hg0 H.
  assert (variations_get (variations s') e0 = Some types0) as Hs'.
  { apply register_effect in H
      as [->|[(types & t & Hg & Ht & _ & ->)
             |(types & t & n & info & Hg & _ & _ & _ & _ & ->)]];
      [assumption|..]; simpl; now rewrite variations_get_put_other. }
  destruct o; simpl; [assumption|now destruct always].
Qed.

Lemma register_returns item_path e content s s' reqs ct :
  extract_requirements content = Some reqs ->
  Dict.get "chart_type" reqs = Some (JString ct) ->
  register item_path e content s = (Ok tt, s') ->
  exists cn types,
    match Dict.get "chart_name" reqs with
    | Some declared_name => declared_name
    | None => JString (default_chart_name item_path)
    end = JString cn /\
    variations_get (variations s) e = Some types /\
    s' = with_types s e
           (store (Str.lower ct) (Str.lower cn)
                  (mk_info e (handle_of e item_path) reqs)
                  (ensure_bucket (Str.lower ct) types)).
Proof.
  intros Ex Ect.
  destruct (match Dict.get "chart_name" reqs with
            | Some declared_name => declared_name
            | None => JString (default_chart_name item_path)
            end) as [| | |cn| |] eqn:Ecn;
    try (unfold register; rewrite Ex; destruct reqs; [discriminate|];
         rewrite Ect, Ecn; intros H; inversion H; fail).
  destruct (variations_get (variations s) e) as [types|] eqn:Eg.
  - rewrite (register_run _ _ _ _ _ _ _ _ Ex Ect Ecn Eg).
    destruct (String.eqb e "echarts_py"
              && negb (exec_module item_path content));
      intros H; inversion H; subst. eauto.
  - unfold register. rewrite Ex. destruct reqs; [discriminate|].
    rewrite Ect, Ecn. simpl lower_method. rewrite !bind_ret.
    rewrite (bind_run_raised _ _ _ _ _ (types_of_unknown _ _ Eg)).
    intros H; inversion H.
Qed.

Lemma has_type_has_name v e t : has_type v e t -> exists n, has_name v e t n.
Proof.
  intros (names & Hb & Hne). destruct names as [|[n info] names];
    [congruence|].
  exists n. unfold has_name, lookup. rewrite Hb. simpl.
  rewrite String.eqb_refl. discriminate.
Qed.

Lemma register_keeps_has_type always item_path e content e0 t0 :
  triple (fun s => has_type (variations s) e0 t0)
         (register item_path e content)
         (kept always (fun s => has_type (variations s) e0 t0)).
Proof.
  intros s o s' Ht H. apply has_type_has_name in Ht as [n Hn].
  pose proof (register_keeps_has_name true item_path e content e0 t0 n
                s o s' Hn H) as K.
  assert (has_type (variations s') e0 t0) as Hs'
      by (apply has_name_has_type with n; now destruct o).
  destruct o; simpl; [assumption|now destruct always].
Qed.

Lemma register_establishes ext item item_path e content ct :
  template ext item content ct ->
  triple (fun _ => True) (register item_path e content)
         (kept false (fun s => has_type (variations s) e (Str.lower ct))).
Proof.
  intros (_ & _ & reqs & Ex & Ect) s o s' _ H.
  destruct o as [[]|]; [|exact I]. simpl.
  destruct (register_returns _ _ _ _ _ _ _ Ex Ect H)
    as (cn & types & _ & Hg & ->).
  unfold has_type. rewrite (bucket_with_types _ _ _ _ _ _ Hg).
  rewrite String.eqb_refl, store_ensure, get_set_same.
  eexists. split; [reflexivity|apply set_not_nil].
Qed.

Lemma for_each_establishes {A} (body : A -> M unit) (Q : state -> Prop)
      x l :
  In x l ->
  triple (fun _ => True) (body x) (kept false Q) ->
  (forall y, triple Q (body y) (kept false Q)) ->
  triple (fun _ => True) (for_each body l) (kept false Q).
Proof.
  intros Hin Hx Hkeep. induction l as [|y l IH]; [destruct Hin|].
  simpl. destruct Hin as [->|Hin].
  - apply triple_bind with (R := fun _ => Q).
    + intros s o s' HP E. specialize (Hx s o s' HP E). now destruct o.
    + intros _. apply kept_for_each. auto.
  - apply triple_bind with (R := fun _ _ => True).
    + intros s o s' _ _. now destruct o.
    + intros _. now apply IH.
Qed.

(** A template met by the walk of a directory has its chart type in the
    index when the walk returns. *)
Lemma walk_registers e ext ct dir_path listing item_path item content :
  in_tree dir_path listing item_path item content ->
  template ext item content ct ->
  triple (fun _ => True)
         (scan_directory dir_path e ext (Some listing))
         (kept false (fun s => has_type (variations s) e (Str.lower ct))).
Proof.
  intros Hin Htpl. simpl.
  induction Hin as [dir_path listing item content Hin
                   |dir_path listing sub sub_listing item_path item content
                      Hin _ IH].
  - apply for_each_establishes with (x := File item content);
      [assumption| |].
    + pose proof Htpl as (He & Hd & _). simpl. rewrite He, Hd.
      now apply register_establishes with ext item.
    + intros y. apply scan_item_kept. intros p c.
      apply register_keeps_has_type.
  - apply for_each_establishes with (x := Dir sub sub_listing);
      [assumption| |].
    + rewrite scan_item_dir. exact (IH Htpl).
    + intros y. apply scan_item_kept. intros p c.
      apply register_keeps_has_type.
Qed.

(** ** The whole scan *)

Lemma scan_variations_memo fs s :
  _variations_scanned s = true ->
  scan_variations fs false s = (Ok (variations s), s).
Proof.
  intros H. unfold scan_variations, bind, get_state. now rewrite H.
Qed.

Lemma scan_variations_run fs force s :
  _variations_scanned s = false \/ force = true ->
  scan_variations fs force s
  = (scan_directory (Path.join variation_dir "echarts_py")
                    "echarts_py" ".py" (echarts_py_dir fs) ;;
     scan_directory (Path.join variation_dir "echarts-js")
                    "echarts-js" ".js" (echarts_js_dir fs) ;;
     scan_directory (Path.join variation_dir "d3-js")
                    "d3-js" ".js" (d3_js_dir fs) ;;
     scan_directory (Path.join variation_dir "vegalite_py")
                    "vegalite_py" ".py" (vegalite_py_dir fs) ;;
     put_scanned true ;;
     s1 <- get_state ;;
     ret (variations s1)) (cleared s).
Proof.
  intros H. unfold scan_variations.
  rewrite (bind_run _ _ _ _ _ (eq_refl : get_state s = (Ok s, s))).
  replace (_variations_scanned s && negb force) with false
    by (destruct H as [-> | ->]; [reflexivity|now rewrite andb_false_r]).
  rewrite 4 (bind_run _ _ _ _ _ (set_types_run _ _ _)).
  reflexivity.
Qed.

Lemma scan_variations_inv fs force s v s' :
  _variations_scanned s = false \/ force = true ->
  scan_variations fs force s = (Ok v, s') ->
  exists s1 s2 s3 s4,
    scan_directory (Path.join variation_dir "echarts_py")
                   "echarts_py" ".py" (echarts_py_dir fs) (cleared s)
    = (Ok tt, s1) /\
    scan_directory (Path.join variation_dir "echarts-js")
                   "echarts-js" ".js" (echarts_js_dir fs) s1
    = (Ok tt, s2) /\
    scan_directory (Path.join variation_dir "d3-js")
                   "d3-js" ".js" (d3_js_dir fs) s2
    = (Ok tt, s3) /\
    scan_directory (Path.join variation_dir "vegalite_py")
                   "vegalite_py" ".py" (vegalite_py_dir fs) s3
    = (Ok tt, s4) /\
    v = variations s4 /\ s' = mk_state (variations s4) true.
Proof.
  intros Hrun H. rewrite (scan_variations_run _ _ _ Hrun) in H.
  apply bind_inv in H as [([] & s1 & H1 & H)|(e & H & He)];
    [|discriminate].
  apply bind_inv in H as [([] & s2 & H2 & H)|(e & H & He)];
    [|discriminate].
  apply bind_inv in H as [([] & s3 & H3 & H)|(e & H & He)];
    [|discriminate].
  apply bind_inv in H as [([] & s4 & H4 & H)|(e & H & He)];
    [|discriminate].
  exists s1, s2, s3, s4. inversion H. repeat split; assumption.
Qed.

(** A property of the index that holds of the empty index and that the
    registration of a file keeps, holds after [scan_variations] however
    it ends. *)
Lemma scan_variations_kept (P : registry -> Prop) fs force :
  P empty_registry ->
  (forall item_path e content,
      keeps (fun s => P (variations s)) (register item_path e content)) ->
  keeps (fun s => P (variations s)) (scan_variations fs force).
Proof.
  intros Hempty Hreg s o s' HP H.
  destruct (_variations_scanned s && negb force) eqn:E.
  - unfold scan_variations in H.
    rewrite (bind_run _ _ _ _ _ (eq_refl : get_state s = (Ok s, s))) in H.
    rewrite E in H. inversion H; subst. exact HP.
  - rewrite scan_variations_run in H
      by (destruct (_variations_scanned s), force; auto; discriminate).
    match type of H with
    | ?m _ = _ =>
        assert (K : triple (fun s => P (variations s)) m
                           (kept true (fun s => P (variations s))))
    end; [|exact (K (cleared s) o s' Hempty H)].
    repeat (apply kept_bind;
            [apply scan_directory_kept; intros; apply Hreg|intros _]).
    apply kept_bind; [|intros _; apply kept_bind;
                                 [apply kept_get_state|intros; apply kept_ret]].
    intros s0 o0 s0' HP0 H0. inversion H0; subst. exact HP0.
Qed.

Lemma registry_ok_empty : registry_ok empty_registry.
Proof.
  unfold registry_ok, registry_items. simpl.
  repeat constructor.
Qed.

Lemma buckets_nonempty_empty : buckets_nonempty empty_registry.
Proof. unfold buckets_nonempty. simpl. repeat constructor. Qed.

(** A scan that returns leaves the flag set. *)
Lemma scan_variations_sets_flag fs force s v s' :
  scan_variations fs force s = (Ok v, s') ->
  _variations_scanned s' = true /\ v = variations s'.
Proof.
  intros H. destruct (_variations_scanned s && negb force) eqn:E.
  - unfold scan_variations in H.
    rewrite (bind_run _ _ _ _ _ (eq_refl : get_state s = (Ok s, s))) in H.
    rewrite E in H. inversion H; subst.
    apply andb_true_iff in E. tauto.
  - apply scan_variations_inv in H
      as (s1 & s2 & s3 & s4 & _ & _ & _ & _ & -> & ->);
      [auto|destruct (_variations_scanned s), force; auto; discriminate].
Qed.

(** A template under the directory of an engine has its chart type in
    the index of that engine when the scan returns. *)
Lemma scan_registers fs force s v s' e listing item_path item content ct :
  _variations_scanned s = false \/ force = true ->
  scan_variations fs force s = (Ok v, s') ->
  fs_get fs e = Some (Some listing) ->
  in_tree (Path.join variation_dir e) listing item_path item content ->
  template (extension_of e) item content ct ->
  has_type v e (Str.lower ct).
Proof.
  intros Hrun H Hfs Hin Htpl.
  apply scan_variations_inv in H
    as (s1 & s2 & s3 & s4 & H1 & H2 & H3 & H4 & -> & _); [|assumption].
  pose (Q := fun s : state => has_type (variations s) e (Str.lower ct)).
  assert (Hkeep : forall dir_path e' ext d sa sb,
             Q sa -> scan_directory dir_path e' ext d sa = (Ok tt, sb) ->
             Q sb).
  { intros dir_path e' ext d sa sb Ha Hs.
    refine (scan_directory_kept false Q e' ext dir_path d _ sa _ sb Ha Hs).
    intros. apply register_keeps_has_type. }
  assert (Hest : forall sa sb,
             scan_directory (Path.join variation_dir e) e (extension_of e)
                            (Some listing) sa = (Ok tt, sb) -> Q sb).
  { intros sa sb Hs.
    exact (walk_registers e (extension_of e) ct _ _ _ _ _ Hin Htpl
                          sa _ sb I Hs). }
  change (Q s4). unfold fs_get in Hfs.
  repeat match type of Hfs with
         | context [String.eqb ?a ?b] =>
             destruct (String.eqb_spec a b); subst
         end; inversion Hfs as [Hd]; rewrite Hd in *; eauto.
Qed.

(** ** The resolver by chart type *)

Lemma ensure_scanned_run fs s :
  _variations_scanned s = true -> ensure_scanned fs s = (Ok tt, s).
Proof.
  intros H. unfold ensure_scanned, bind, get_state. now rewrite H.
Qed.

(** On a scanned state the resolver is its two loops. *)
Lemma by_type_run fs chart_type preference r s :
  _variations_scanned s = true ->
  get_variation_for_chart_type fs chart_type preference r s
  = (let pref := match preference with
                 | None => default_preference
                 | Some l => l
                 end in
     match exact_pass (variations s) (Str.lower chart_type) r pref with
     | Ok (Some found) => Ok (Some found)
     | Ok None =>
         match partial_pass (variations s) (Str.lower chart_type) r pref with
         | Ok (Some found) => Ok (Some found)
         | Ok None => Ok None
         | Raised e => Raised e
         end
     | Raised e => Raised e
     end, s).
Proof.
  intros H. unfold get_variation_for_chart_type.
  rewrite (bind_run _ _ _ _ _ (ensure_scanned_run fs s H)).
  unfold bind, get_state, lift, ret. cbv zeta.
  destruct (exact_pass _ _ _ _) as [[found|]|e]; try reflexivity.
  destruct (partial_pass _ _ _ _) as [[found|]|e]; reflexivity.
Qed.

Lemma pick_nil r : pick r [] = Ok None.
Proof. reflexivity. Qed.

Lemma pick_spec r names :
  names <> [] ->
  exists n info,
    nth_error (Dict.keys names) (r mod List.length names) = Some n /\
    Dict.get n names = Some info /\
    pick r names = Ok (Some (engine_type info, variation info)).
Proof.
  intros Hne. unfold pick, random_choice.
  destruct (Dict.keys names) as [|first rest] eqn:Ek.
  - destruct names; [congruence|discriminate].
  - rewrite <- Ek.
    assert (Hlen : List.length (Dict.keys names) = List.length names)
      by apply length_map.
    assert (Hlt : r mod List.length (Dict.keys names)
                  < List.length (Dict.keys names)).
    { apply Nat.mod_upper_bound. rewrite Ek. discriminate. }
    rewrite Hlen in *.
    set (i := r mod List.length names) in *.
    assert (Hin : In (nth i (Dict.keys names) first) (Dict.keys names))
      by (apply nth_In; lia).
    destruct (keys_get _ _ Hin) as [info Hinfo].
    exists (nth i (Dict.keys names) first), info. rewrite Hinfo.
    repeat split. apply nth_error_nth'. lia.
Qed.

(** With one binding per key the chosen record is the one at the drawn
    position. *)
Lemma pick_position r names n info :
  NoDup (Dict.keys names) ->
  nth_error names (r mod List.length names) = Some (n, info) ->
  pick r names = Ok (Some (engine_type info, variation info)).
Proof.
  intros Hnd Hnth.
  assert (Hne : names <> []) by (intros ->; now destruct (r mod _)).
  destruct (pick_spec r names Hne) as (n' & info' & Hk & Hg & ->).
  unfold Dict.keys in Hk. rewrite nth_error_map, Hnth in Hk.
  simpl in Hk. inversion Hk; subst.
  apply nth_error_In in Hnth. apply (In_get _ _ _ Hnd) in Hnth.
  congruence.
Qed.

Lemma exact_pass_skip v t r pre rest :
  (forall e, In e pre ->
             exists types, variations_get v e = Some types /\
                           (Dict.get t types = None \/
                            Dict.get t types = Some [])) ->
  exact_pass v t r (pre ++ rest) = exact_pass v t r rest.
Proof.
  induction pre as [|e pre IH]; intros H; [reflexivity|].
  rewrite <- app_comm_cons. cbn [exact_pass].
  destruct (H e (or_introl eq_refl)) as (types & Hg & [Hb | Hb]).
  - rewrite Hg, Hb. apply IH. intros; apply H; now right.
  - rewrite Hg, Hb. rewrite pick_nil. apply IH. intros; apply H; now right.
Qed.

Lemma exact_pass_hit v t r e rest names :
  bucket v e t = Some names -> names <> [] ->
  exact_pass v t r (e :: rest) = pick r names.
Proof.
  unfold bucket. intros Hb Hne. simpl.
  destruct (variations_get v e) as [types|]; [|discriminate].
  rewrite Hb. destruct (pick_spec r names Hne) as (n & info & _ & _ & ->).
  reflexivity.
Qed.

Lemma partial_types_none t r types :
  (forall vt, In vt (Dict.keys types) ->
              Str.contains t vt = false /\ Str.contains vt t = false) ->
  partial_types t r types = Ok None.
Proof.
  induction types as [|[vt names] types IH]; intros H; simpl;
    [reflexivity|].
  destruct (H vt (or_introl eq_refl)) as [-> ->]. simpl.
  apply IH. intros; apply H; now right.
Qed.

Lemma partial_pass_none v t r pref :
  (forall e, In e pref -> In e engines) ->
  (forall e vt, In e pref -> In vt (registered_types v e) ->
                Str.contains t vt = false /\ Str.contains vt t = false) ->
  partial_pass v t r pref = Ok None.
Proof.
  induction pref as [|e pref IH]; intros Hv H; simpl; [reflexivity|].
  destruct (engines_variations_get v e (Hv e (or_introl eq_refl)))
    as [types Hg].
  rewrite Hg, partial_types_none.
  - apply IH; intros; [apply Hv|eapply H]; simpl; eauto.
  - intros vt Hvt. apply (H e vt (or_introl eq_refl)).
    unfold registered_types. now rewrite Hg.
Qed.

Lemma exact_pass_none v t r pref :
  (forall e, In e pref -> In e engines) ->
  (forall e, In e pref -> ~ In t (registered_types v e)) ->
  exact_pass v t r pref = Ok None.
Proof.
  intros Hv H. rewrite <- (app_nil_r pref). apply exact_pass_skip.
  intros e He. destruct (engines_variations_get v e (Hv e He))
    as [types Hg].
  exists types. split; [assumption|left].
  destruct (Dict.get t types) eqn:E; [|reflexivity].
  exfalso. apply (H e He). unfold registered_types. rewrite Hg.
  eapply get_Some_keys; eassumption.
Qed.

(** With no empty bucket the exact pass answers from the first engine
    that has the type. *)
Lemma exact_pass_first_bucket v t r pref e names :
  (forall e, In e pref -> In e engines) ->
  buckets_nonempty v ->
  first_bucket v t pref = Some (e, names) ->
  In e pref /\ names <> [] /\ bucket v e t = Some names /\
  exact_pass v t r pref = pick r names.
Proof.
  intros Hv Hne. induction pref as [|e0 pref IH];
    cbn [first_bucket exact_pass]; [discriminate|].
  destruct (bucket v e0 t) as [names0|] eqn:Eb.
  - intros H; inversion H; subst.
    assert (names <> []) as Hn.
    { unfold bucket in Eb.
      destruct (variations_get v e) as [types|] eqn:Eg; [|discriminate].
      pose proof (proj1 (buckets_nonempty_get v) Hne _ _ Eg) as F.
      rewrite Forall_forall in F. exact (F _ (get_In _ _ _ Eb)). }
    repeat split; auto; [now left|].
    change (exact_pass v t r (e :: pref) = pick r names).
    now apply exact_pass_hit.
  - intros H. destruct IH as (Hin & Hn & Hb & Hx); auto.
    { intros; apply Hv; now right. }
    repeat split; auto; [now right|].
    destruct (engines_variations_get v e0 (Hv e0 (or_introl eq_refl)))
      as [types Hg].
    unfold bucket in Eb. rewrite Hg in *. rewrite Eb. assumption.
Qed.

Lemma has_type_first_bucket v t pref e :
  In e pref -> has_type v e t ->
  exists e' names, first_bucket v t pref = Some (e', names).
Proof.
  intros Hin (names & Hb & _). induction pref as [|e0 pref IH];
    [destruct Hin|]. simpl.
  destruct (bucket v e0 t) as [names0|] eqn:Eb; [eauto|].
  destruct Hin as [->|Hin]; [congruence|auto].
Qed.

(** ** The resolver by chart name *)

Lemma by_name_run fs chart_name s :
  _variations_scanned s = true ->
  get_variation_for_chart_name fs chart_name s
  = (Ok (match exact_name_pass (Str.lower chart_name)
                               (registry_items (variations s)) with
         | Some found => Some found
         | None => snd (similarity_pass (Str.lower chart_name)
                                        (registry_items (variations s)))
         end), s).
Proof.
  intros H. unfold get_variation_for_chart_name.
  rewrite (bind_run _ _ _ _ _ (ensure_scanned_run fs s H)).
  unfold bind, get_state, ret. cbv zeta.
  destruct (exact_name_pass _ _) as [found|]; [reflexivity|].
  now destruct (snd (similarity_pass _ _)).
Qed.

Lemma fold_left_flat_map {A B C} (f : A -> C -> A) (g : B -> list C) l a :
  fold_left f (flat_map g l) a
  = fold_left (fun acc x => fold_left f (g x) acc) l a.
Proof.
  revert a. induction l as [|x l IH]; intros a; simpl; [reflexivity|].
  now rewrite fold_left_app, IH.
Qed.

Lemma fold_left_pointwise {A B} (f g : A -> B -> A) l a :
  (forall acc x, f acc x = g acc x) -> fold_left f l a = fold_left g l a.
Proof.
  intros H. revert a. induction l as [|x l IH]; intros a; simpl;
    [reflexivity|].
  now rewrite H, IH.
Qed.

(** The three loops meet the candidates one after the other. *)
Lemma similarity_pass_candidates q v :
  similarity_pass q (registry_items v)
  = fold_left (similarity_step q) (candidates v) (0, None).
Proof.
  unfold similarity_pass, candidates.
  rewrite fold_left_flat_map.
  apply fold_left_pointwise. intros best [e types]. simpl.
  now rewrite fold_left_flat_map.
Qed.

(** The loop either leaves the pair alone, when no candidate beats
    [max_overlap], or ends on the first candidate of greatest overlap. *)
Lemma similarity_fold q l m b :
  (Forall (fun c => Str.overlap q (fst c) <= m) l /\
   fold_left (similarity_step q) l (m, b) = (m, b))
  \/ exists before c after,
      l = before ++ c :: after /\
      m < Str.overlap q (fst c) /\
      Forall (fun c' => Str.overlap q (fst c') < Str.overlap q (fst c))
             before /\
      Forall (fun c' => Str.overlap q (fst c') <= Str.overlap q (fst c))
             after /\
      fold_left (similarity_step q) l (m, b)
      = (Str.overlap q (fst c), result_of c).
Proof.
  revert m b. induction l as [|[n info] l IH]; intros m b.
  - left. split; [constructor|reflexivity].
  - cbn [fold_left].
    replace (similarity_step q (m, b) (n, info))
      with (if Nat.ltb m (Str.overlap q n)
            then (Str.overlap q n, result_of (n, info)) else (m, b))
      by reflexivity.
    destruct (Nat.ltb_spec m (Str.overlap q n)) as [Hlt|Hge].
    + right.
      destruct (IH (Str.overlap q n) (result_of (n, info)))
        as [[Hall Hf]|(before & c & after & -> & Hm & Hb & Ha & Hf)].
      * exists [], (n, info), l. repeat split; auto.
      * exists ((n, info) :: before), c, after.
        repeat split; auto; try (simpl in *; lia);
          try (constructor; [simpl in *; lia|assumption]).
    + destruct (IH m b)
        as [[Hall Hf]|(before & c & after & -> & Hm & Hb & Ha & Hf)].
      * left. split; [constructor; [simpl; lia|assumption]|assumption].
      * right. exists ((n, info) :: before), c, after.
        repeat split; auto; try (simpl in *; lia);
          try (constructor; [simpl in *; lia|assumption]).
Qed.

Lemma exact_name_types_none q types :
  (forall c, In c (flat_map snd types) -> fst c <> q) ->
  exact_name_types q types = None.
Proof.
  induction types as [|[t names] types IH]; intros H; simpl;
    [reflexivity|].
  destruct (Dict.get q names) as [info|] eqn:E.
  - exfalso. apply (H (q, info)); [|reflexivity].
    simpl. apply in_or_app. left. now apply get_In.
  - apply IH. intros c Hc. apply H. simpl. apply in_or_app. now right.
Qed.

Lemma exact_name_pass_none q items :
  (forall c, In c (flat_map (fun it => flat_map snd (snd it)) items) ->
             fst c <> q) ->
  exact_name_pass q items = None.
Proof.
  induction items as [|[e types] items IH]; intros H; simpl;
    [reflexivity|].
  rewrite exact_name_types_none.
  - apply IH. intros c Hc. apply H. simpl. apply in_or_app. now right.
  - intros c Hc. apply H. simpl. apply in_or_app. now left.
Qed.

(** ** Character sets *)

Lemma existsb_eqb_In c l : existsb (Ascii.eqb c) l = true <-> In c l.
Proof.
  rewrite existsb_exists. split.
  - intros (x & Hx & E). apply Ascii.eqb_eq in E. now subst.
  - intros H. exists c. split; [assumption|apply Ascii.eqb_refl].
Qed.

Lemma chars_In c s :
  In c (Str.chars s) <-> In c (list_ascii_of_string s).
Proof.
  revert c. induction s as [|a s IH]; intros c; simpl; [tauto|].
  destruct (existsb (Ascii.eqb a) (Str.chars s)) eqn:E.
  - apply existsb_eqb_In in E. apply IH in E. rewrite IH.
    split; [tauto|]. intros [E'|H]; subst; assumption.
  - simpl. rewrite IH. tauto.
Qed.

Lemma chars_NoDup s : NoDup (Str.chars s).
Proof.
  induction s as [|a s IH]; simpl; [constructor|].
  destruct (existsb (Ascii.eqb a) (Str.chars s)) eqn:E; [assumption|].
  constructor; [|assumption].
  intros H. apply existsb_eqb_In in H. congruence.
Qed.

Lemma inter_In c a b : In c (Str.inter a b) <-> In c a /\ In c b.
Proof.
  unfold Str.inter. rewrite filter_In, existsb_eqb_In. tauto.
Qed.

Lemma inter_NoDup a b : NoDup a -> NoDup (Str.inter a b).
Proof. apply NoDup_filter. Qed.

(** The score counts each character that occurs in both names once. *)
Lemma overlap_counts a b :
  exists common,
    NoDup common /\
    (forall c, In c common <->
               In c (list_ascii_of_string a) /\
               In c (list_ascii_of_string b)) /\
    Str.overlap a b = List.length common.
Proof.
  exists (Str.inter (Str.chars a) (Str.chars b)). split; [|split].
  - apply inter_NoDup, chars_NoDup.
  - intros c. rewrite inter_In, !chars_In. tauto.
  - reflexivity.
Qed.

Lemma overlap_sym a b : Str.overlap a b = Str.overlap b a.
Proof.
  unfold Str.overlap.
  apply Nat.le_antisymm; apply NoDup_incl_length;
    try (apply inter_NoDup, chars_NoDup);
    intros c Hc; apply inter_In in Hc; apply inter_In; tauto.
Qed.

(** ** Memoized scan *)

(** C7. Memoized scan.  On a state whose flag is set every call of
    [scan_variations] with [force = False] returns the index it finds and
    leaves the state as it is, whatever the file system then holds; and
    once a scan has returned the flag is set, so a second
    [scan_variations(False)] returns the same index as the first and
    neither clears nor walks. *)
Theorem scan_variations_memoized :
  (forall fs s,
      _variations_scanned s = true ->
      scan_variations fs false s = (Ok (variations s), s)) /\
  (forall fs force s v s1,
      scan_variations fs force s = (Ok v, s1) ->
      _variations_scanned s1 = true /\
      forall fs', scan_variations fs' false s1 = (Ok v, s1)).
Proof.
  split.
  - apply scan_variations_memo.
  - intros fs force s v s1 H.
    destruct (scan_variations_sets_flag _ _ _ _ _ H) as [Hflag ->].
    split; [assumption|].
    intros fs'. now apply scan_variations_memo.
Qed.

(** ** Files and directories that contribute nothing *)

Lemma bind_cong {A B} (m m' : M A) (k k' : A -> M B) s :
  m s = m' s -> (forall a s1, k a s1 = k' a s1) ->
  bind m k s = bind m' k' s.
Proof.
  intros Hm Hk. unfold bind. rewrite <- Hm.
  destruct (m s) as [[a|e] s1]; [apply Hk|reflexivity].
Qed.

Lemma scan_item_lacking dir_path e ext item content s :
  lacks_chart_type content ->
  scan_item dir_path e ext (File item content) s = (Ok tt, s).
Proof.
  intros (reqs & Ex & Ect). simpl.
  destruct (Str.endswith ext item); [|reflexivity].
  destruct (String.eqb ext ".py" && Str.startswith "__" item);
    [reflexivity|].
  unfold register. rewrite Ex. destruct reqs; [reflexivity|].
  now rewrite Ect.
Qed.

Lemma for_each_without e ext l l' :
  without_file l l' ->
  forall dir_path s,
    for_each (scan_item dir_path e ext) l s
    = for_each (scan_item dir_path e ext) l' s.
Proof.
  induction 1 as [before item content after Hlack
                 |before sub l l' after _ IH]; intros dir_path s.
  - rewrite !for_each_app. apply bind_cong; [reflexivity|].
    intros _ s1. cbn [for_each].
    now rewrite (bind_run _ _ _ _ _
                   (scan_item_lacking dir_path e ext item content s1 Hlack)).
  - rewrite !for_each_app. apply bind_cong; [reflexivity|].
    intros _ s1. cbn [for_each]. apply bind_cong; [|reflexivity].
    rewrite !scan_item_dir. simpl. apply IH.
Qed.

(** C9. Missing-field skip.  For a file whose metadata block parses but
    has no [chart_type], the loop body of [scan_directory] returns
    without touching the index; the walk of a listing, and so the whole
    scan, ends exactly as it does on the same tree with that file taken
    out, at whatever depth the file lies: the index holds nothing that
    comes from the file, and the files after it are scanned as before. *)
Theorem file_without_chart_type_is_skipped :
  (forall dir_path e ext item content s,
      lacks_chart_type content ->
      scan_item dir_path e ext (File item content) s = (Ok tt, s)) /\
  (forall dir_path e ext l l' s,
      without_file l l' ->
      scan_directory dir_path e ext (Some l) s
      = scan_directory dir_path e ext (Some l') s) /\
  (forall fs e l l' force s,
      fs_get fs e = Some (Some l) ->
      without_file l l' ->
      scan_variations fs force s
      = scan_variations (fs_put fs e (Some l')) force s).
Proof.
  split; [|split].
  - intros. now apply scan_item_lacking.
  - intros. simpl. now apply for_each_without.
  - intros fs e l l' force s Hfs Hw.
    assert (Hd : forall dir_path e' ext s1,
               scan_directory dir_path e' ext (Some l) s1
               = scan_directory dir_path e' ext (Some l') s1)
      by (intros; simpl; now apply for_each_without).
    unfold scan_variations.
    apply bind_cong; [reflexivity|]. intros s0 s1.
    destruct (_variations_scanned s0 && negb force); [reflexivity|].
    do 4 (apply bind_cong; [reflexivity|]; intros _ ?).
    destruct fs as [d1 d2 d3 d4]. unfold fs_get, fs_put in *. simpl.
    repeat match type of Hfs with
           | context [String.eqb ?a ?b] =>
               destruct (String.eqb_spec a b); subst
           end; inversion Hfs; subst; simpl;
      repeat (apply bind_cong; [first [reflexivity|apply Hd]|intros _ ?]);
      reflexivity.
Qed.

(** C10. Directory-missing containment.  When the directory of an engine
    does not exist, [scan_directory] returns at once and changes nothing;
    the scan ends exactly as it does when that directory exists and is
    empty, so it goes on to the other engines; and however a scan that
    runs ends, the index of the engine is empty. *)
Theorem missing_directory_contributes_nothing :
  forall fs e,
    fs_get fs e = Some None ->
    (forall dir_path ext s,
        scan_directory dir_path e ext None s = (Ok tt, s)) /\
    (forall force s,
        scan_variations fs force s
        = scan_variations (fs_put fs e (Some [])) force s) /\
    (forall force s o s',
        _variations_scanned s = false \/ force = true ->
        scan_variations fs force s = (o, s') ->
        variations_get (variations s') e = Some []).
Proof.
  intros fs e Hfs. split; [|split].
  - reflexivity.
  - intros force s. destruct fs as [d1 d2 d3 d4].
    unfold fs_get, fs_put in *. simpl in *.
    repeat match type of Hfs with
           | context [String.eqb ?a ?b] =>
               destruct (String.eqb_spec a b); subst
           end; inversion Hfs; subst; reflexivity.
  - intros force s o s' Hrun H.
    rewrite (scan_variations_run _ _ _ Hrun) in H.
    pose (P := fun s : state => variations_get (variations s) e = Some []).
    assert (Hother : forall dir_path e' ext d,
               e' <> e ->
               triple P (scan_directory dir_path e' ext d) (kept true P)).
    { intros. apply scan_directory_kept. intros.
      now apply register_frame. }
    assert (Hend : triple P (put_scanned true ;; s1 <- get_state ;;
                             ret (variations s1)) (kept true P)).
    { apply kept_bind; [|intros _; apply kept_bind;
                                 [apply kept_get_state|intros; apply kept_ret]].
      intros s0 o0 s0' HP0 H0. inversion H0; subst. exact HP0. }
    assert (P (cleared s)) as Hstart.
    { unfold P, cleared. simpl. unfold fs_get in Hfs. unfold variations_get.
      repeat match type of Hfs with
             | context [String.eqb ?a ?b] =>
                 destruct (String.eqb_spec a b); subst
             end; try reflexivity; discriminate. }
    assert (P s') as Hs'.
    { match type of H with
      | ?m _ = _ => assert (K : triple P m (kept true P))
      end; [|now pose proof (K _ _ _ Hstart H) as K'; destruct o].
      destruct fs as [d1 d2 d3 d4]. unfold fs_get in Hfs. simpl in Hfs, H |- *.
      repeat match type of Hfs with
             | context [String.eqb ?a ?b] =>
                 destruct (String.eqb_spec a b); subst
             end; inversion Hfs; subst;
        repeat (apply kept_bind;
                [first [apply Hother; discriminate|apply kept_ret]|intros _]);
        apply Hend. }
    exact Hs'.
Qed.


(** ** Resolution by chart type *)

(** A scan that runs ends in a state with a property of the index that
    the empty index has and registration keeps, whatever the index was
    before. *)
Lemma scan_variations_ran (P : registry -> Prop) always fs force s o s' :
  _variations_scanned s = false \/ force = true ->
  P empty_registry ->
  (forall item_path e content,
      triple (fun s => P (variations s)) (register item_path e content)
             (kept always (fun s => P (variations s)))) ->
  scan_variations fs force s = (o, s') ->
  kept always (fun s => P (variations s)) o s'.
Proof.
  intros Hrun Hempty Hreg H.
  rewrite (scan_variations_run _ _ _ Hrun) in H.
  match type of H with
  | ?m _ = _ =>
      assert (K : triple (fun s => P (variations s)) m
                         (kept always (fun s => P (variations s))))
  end; [|exact (K (cleared s) o s' Hempty H)].
  repeat (apply kept_bind;
          [apply scan_directory_kept; intros; apply Hreg|intros _]).
  apply kept_bind; [|intros _; apply kept_bind;
                               [apply kept_get_state|intros; apply kept_ret]].
  intros s0 o0 s0' HP0 H0. inversion H0; subst. exact HP0.
Qed.

Lemma bucket_names_ok v e t names :
  registry_ok v -> bucket v e t = Some names -> names_ok e names.
Proof.
  intros Hok Hb. unfold bucket in Hb.
  destruct (variations_get v e) as [types|] eqn:Hg; [|discriminate].
  eapply types_ok_bucket; [|eassumption].
  now apply (proj1 (registry_ok_get _) Hok).
Qed.

(** C5. Exact match precedes partial match.  On a scanned state, let [e]
    be the first engine of the preference list that has the lowercased
    chart type with a bucket that is not empty (every engine listed
    before it is an engine of the registry and lacks the type or has an
    empty bucket for it).  Then the first loop returns: the record is the
    one the draw selects among the chart names of that bucket, the second
    loop is not entered, and this is the result of the call. *)
Theorem exact_match_precedes_partial_match :
  forall fs chart_type preference before e after r s names,
    _variations_scanned s = true ->
    preference_of preference = before ++ e :: after ->
    (forall e', In e' before ->
                exists types,
                  variations_get (variations s) e' = Some types /\
                  (Dict.get (Str.lower chart_type) types = None \/
                   Dict.get (Str.lower chart_type) types = Some [])) ->
    bucket (variations s) e (Str.lower chart_type) = Some names ->
    names <> [] ->
    exists n info,
      nth_error (Dict.keys names) (r mod List.length names) = Some n /\
      Dict.get n names = Some info /\
      exact_pass (variations s) (Str.lower chart_type) r
                 (preference_of preference)
      = Ok (Some (engine_type info, variation info)) /\
      runs_partial_pass (variations s) (Str.lower chart_type) r
                        (preference_of preference) = false /\
      get_variation_for_chart_type fs chart_type preference r s
      = (Ok (Some (engine_type info, variation info)), s).
Proof.
  intros fs chart_type preference before e after r s names
         Hflag Hpref Hbefore Hb Hne.
  destruct (pick_spec r names Hne) as (n & info & Hn & Hg & Hpick).
  exists n, info.
  assert (Hx : exact_pass (variations s) (Str.lower chart_type) r
                          (preference_of preference)
               = Ok (Some (engine_type info, variation info))).
  { rewrite Hpref, (exact_pass_skip _ _ _ _ _ Hbefore).
    now rewrite (exact_pass_hit _ _ _ _ _ _ Hb Hne). }
  repeat split; try assumption.
  - unfold runs_partial_pass. now rewrite Hx.
  - rewrite (by_type_run _ _ _ _ _ Hflag). cbv zeta.
    fold (preference_of preference). now rewrite Hx.
Qed.


(** On a scanned state in the shape the scanner gives, a chart type that
    some engine of the preference list has is resolved from the first
    such engine, by position in its bucket. *)
Lemma by_type_of_registered s1 preference e t :
  _variations_scanned s1 = true ->
  registry_ok (variations s1) ->
  buckets_nonempty (variations s1) ->
  (forall x, In x (preference_of preference) -> In x engines) ->
  In e (preference_of preference) ->
  has_type (variations s1) e t ->
  exists e' names,
    first_bucket (variations s1) t (preference_of preference)
    = Some (e', names) /\
    In e' (preference_of preference) /\
    names <> [] /\
    NoDup (Dict.keys names) /\
    forall fs' chart_type r,
      Str.lower chart_type = t ->
      exists n info,
        nth_error names (r mod List.length names) = Some (n, info) /\
        engine_type info = e' /\
        get_variation_for_chart_type fs' chart_type preference r s1
        = (Ok (Some (e', variation info)), s1).
Proof.
  intros Hflag Hok Hfull Hvalid He Htype.
  destruct (has_type_first_bucket _ _ _ _ He Htype) as (e' & names & Hfirst).
  exists e', names.
  destruct (exact_pass_first_bucket _ t 0 _ _ _ Hvalid Hfull Hfirst)
    as (He' & Hne & Hb & _).
  destruct (bucket_names_ok _ _ _ _ Hok Hb) as [Hnd Htags].
  repeat split; try assumption.
  intros fs' chart_type r Hlower.
  destruct (nth_error names (r mod List.length names)) as [[n info]|] eqn:Hnth.
  - exists n, info. split; [reflexivity|].
    assert (He'' : engine_type info = e').
    { rewrite Forall_forall in Htags.
      exact (proj2 (Htags _ (nth_error_In _ _ Hnth))). }
    split; [assumption|].
    rewrite (by_type_run _ _ _ _ _ Hflag). cbv zeta.
    fold (preference_of preference).
    destruct (exact_pass_first_bucket _ t r _ _ _ Hvalid Hfull Hfirst)
      as (_ & _ & _ & Hx).
    rewrite Hlower, Hx, (pick_position _ _ _ _ Hnd Hnth).
    now rewrite He''.
  - exfalso. apply nth_error_None in Hnth.
    assert (List.length names <> 0)
      by (destruct names; [congruence|discriminate]).
    pose proof (Nat.mod_upper_bound r (List.length names)). lia.
Qed.

Lemma default_preference_engines x :
  In x default_preference -> In x engines.
Proof. unfold default_preference, engines. simpl. tauto. Qed.

(** What a scan that ran and returned leaves behind. *)
Lemma scan_variations_result fs force s v s1 :
  _variations_scanned s = false \/ force = true ->
  scan_variations fs force s = (Ok v, s1) ->
  v = variations s1 /\ _variations_scanned s1 = true /\
  registry_ok v /\ buckets_nonempty v.
Proof.
  intros Hrun Hscan.
  destruct (scan_variations_sets_flag _ _ _ _ _ Hscan) as [Hflag Hv].
  repeat split; try assumption; rewrite Hv.
  - refine (scan_variations_ran registry_ok true _ _ _ _ _ Hrun
              registry_ok_empty _ Hscan).
    intros. apply register_keeps_registry_ok.
  - refine (scan_variations_ran buckets_nonempty false _ _ _ _ _ Hrun
              buckets_nonempty_empty _ Hscan).
    intros. apply register_keeps_nonempty.
Qed.

(** C1, as the code has it.  Take a template file under the directory of
    one of the three engines of the default preference, with a metadata
    block that declares a string [chart_type], and a scan that returned.
    Some engine of the default preference then has the lowercased type;
    for the first one, [e'], the bucket is not empty and has one binding
    per chart name, and a later call with that chart type and no
    preference returns, for every draw [r], the engine [e'] and the handle
    of the record at position [r mod len] of the bucket: equally many
    draws for each chart name.  (A type that only a vegalite_py template
    declares is outside the default preference.) *)
Theorem resolve_by_type_after_scan :
  forall fs force s v s1 e listing item_path item content ct,
    _variations_scanned s = false \/ force = true ->
    scan_variations fs force s = (Ok v, s1) ->
    In e default_preference ->
    fs_get fs e = Some (Some listing) ->
    in_tree (Path.join variation_dir e) listing item_path item content ->
    template (extension_of e) item content ct ->
    exists e' names,
      first_bucket v (Str.lower ct) default_preference = Some (e', names) /\
      In e' default_preference /\
      names <> [] /\
      NoDup (Dict.keys names) /\
      forall fs' r,
      exists n info,
        nth_error names (r mod List.length names) = Some (n, info) /\
        engine_type info = e' /\
        get_variation_for_chart_type fs' ct None r s1
        = (Ok (Some (e', variation info)), s1).
Proof.
  intros fs force s v s1 e listing item_path item content ct
         Hrun Hscan He Hfs Hin Htpl.
  pose proof (scan_registers _ _ _ _ _ _ _ _ _ _ _ Hrun Hscan Hfs Hin Htpl)
    as Htype.
  destruct (scan_variations_result _ _ _ _ _ Hrun Hscan)
    as (-> & Hflag & Hok & Hfull).
  destruct (by_type_of_registered _ None _ _ Hflag Hok Hfull
                                  default_preference_engines He Htype)
    as (e' & names & Hfirst & He' & Hne & Hnd & Hdraw).
  exists e', names. repeat split; try assumption.
  intros fs' r. exact (Hdraw fs' ct r eq_refl).
Qed.

(** C2, as the code has it.  Without a preference the call resolves
    against [echarts_py], [echarts-js], [d3-js], never against
    [vegalite_py].  For a chart type registered only under [vegalite_py],
    when moreover no chart type registered under the three default
    engines contains it or is contained in it, the call returns
    [(None, None)] although the index has records for the type. *)
Theorem vegalite_only_type_is_not_found :
  forall fs chart_type r s,
    _variations_scanned s = true ->
    In (Str.lower chart_type) (registered_types (variations s) "vegalite_py") ->
    (forall e, In e default_preference ->
               ~ In (Str.lower chart_type) (registered_types (variations s) e)) ->
    (forall e vt,
        In e default_preference ->
        In vt (registered_types (variations s) e) ->
        Str.contains (Str.lower chart_type) vt = false /\
        Str.contains vt (Str.lower chart_type) = false) ->
    preference_of None = ["echarts_py"; "echarts-js"; "d3-js"] /\
    get_variation_for_chart_type fs chart_type None r s = (Ok None, s).
Proof.
  intros fs chart_type r s Hflag _ Honly Hapart.
  split; [reflexivity|].
  assert (Hvalid : forall x, In x default_preference -> In x engines)
    by (unfold default_preference, engines; simpl; tauto).
  rewrite (by_type_run _ _ _ _ _ Hflag). cbv zeta.
  rewrite (exact_pass_none _ _ _ _ Hvalid Honly).
  now rewrite (partial_pass_none _ _ _ _ Hvalid Hapart).
Qed.

(** ** Resolution by chart name *)

Lemma by_name_similarity fs chart_name s :
  _variations_scanned s = true ->
  (forall c, In c (candidates (variations s)) ->
             fst c <> Str.lower chart_name) ->
  get_variation_for_chart_name fs chart_name s
  = (Ok (snd (fold_left (similarity_step (Str.lower chart_name))
                        (candidates (variations s))
                        (@pair nat resolution 0 None))), s).
Proof.
  intros Hflag Hnone. rewrite (by_name_run _ _ _ Hflag).
  rewrite exact_name_pass_none by exact Hnone.
  now rewrite similarity_pass_candidates.
Qed.

(** C3, as the code has it.  On a scanned state and for a query with no
    exact match, the similarity pass returns [(None, None)] exactly when
    no registered chart name shares a character with the lowercased
    query, which includes the index without chart names; when some
    registered name shares at least one character with it, the call
    returns the record of a registered candidate whose overlap no other
    candidate exceeds. *)
Theorem by_name_finds_a_candidate_that_overlaps :
  forall fs chart_name s,
    _variations_scanned s = true ->
    (forall c, In c (candidates (variations s)) ->
               fst c <> Str.lower chart_name) ->
    ((forall c, In c (candidates (variations s)) ->
                Str.overlap (Str.lower chart_name) (fst c) = 0) ->
     get_variation_for_chart_name fs chart_name s = (Ok None, s)) /\
    ((exists c, In c (candidates (variations s)) /\
                0 < Str.overlap (Str.lower chart_name) (fst c)) ->
     exists best,
       In best (candidates (variations s)) /\
       (forall c, In c (candidates (variations s)) ->
                  Str.overlap (Str.lower chart_name) (fst c)
                  <= Str.overlap (Str.lower chart_name) (fst best)) /\
       get_variation_for_chart_name fs chart_name s
       = (Ok (result_of best), s)).
Proof.
  intros fs chart_name s Hflag Hnone.
  rewrite (by_name_similarity _ _ _ Hflag Hnone).
  destruct (similarity_fold (Str.lower chart_name)
                            (candidates (variations s)) 0 None)
    as [[Hall Hf]|(before & best & after & Hsplit & Hpos & Hb & Ha & Hf)].
    all: rewrite Hf; rewrite Forall_forall in *.
  - split; [reflexivity|].
    intros (c & Hc & Hlt). specialize (Hall c Hc). lia.
  - split.
    + intros Hzero.
      assert (In best (candidates (variations s)))
        by (rewrite Hsplit; apply in_or_app; right; now left).
      specialize (Hzero best H). lia.
    + intros _. exists best. rewrite Hsplit. repeat split.
      * apply in_or_app. right. now left.
      * intros c Hc. apply in_app_or in Hc as [Hc|[<-|Hc]].
        -- specialize (Hb c Hc). lia.
        -- lia.
        -- exact (Ha c Hc).
Qed.

(** C4, as the code has it.  The score of a candidate is the number of
    distinct characters that occur both in the lowercased query and in
    the candidate's name, the same whichever of the two comes first.  On
    a scanned state and for a query with no exact match, either no
    candidate scores above zero and the call returns [(None, None)], or
    it returns the record of the candidate [c] such that every candidate
    met before [c] scores strictly less and every candidate met after
    [c] scores at most as much: the strictly greatest score wins and a
    tie keeps the earliest candidate, except the tie at zero, which
    keeps none. *)
Theorem similarity_pass_keeps_first_greatest_overlap :
  forall fs chart_name s,
    _variations_scanned s = true ->
    (forall c, In c (candidates (variations s)) ->
               fst c <> Str.lower chart_name) ->
    (forall name,
        Str.overlap (Str.lower chart_name) name
        = Str.overlap name (Str.lower chart_name) /\
        exists common,
          NoDup common /\
          (forall ch, In ch common <->
                      In ch (list_ascii_of_string (Str.lower chart_name)) /\
                      In ch (list_ascii_of_string name)) /\
          Str.overlap (Str.lower chart_name) name = List.length common) /\
    ((Forall (fun c => Str.overlap (Str.lower chart_name) (fst c) = 0)
             (candidates (variations s)) /\
      get_variation_for_chart_name fs chart_name s = (Ok None, s))
     \/ exists before c after,
         candidates (variations s) = before ++ c :: after /\
         0 < Str.overlap (Str.lower chart_name) (fst c) /\
         Forall (fun c' => Str.overlap (Str.lower chart_name) (fst c')
                           < Str.overlap (Str.lower chart_name) (fst c))
                before /\
         Forall (fun c' => Str.overlap (Str.lower chart_name) (fst c')
                           <= Str.overlap (Str.lower chart_name) (fst c))
                after /\
         get_variation_for_chart_name fs chart_name s
         = (Ok (result_of c), s)).
Proof.
  intros fs chart_name s Hflag Hnone. split.
  - intros name. split; [apply overlap_sym|apply overlap_counts].
  - rewrite (by_name_similarity _ _ _ Hflag Hnone).
    destruct (similarity_fold (Str.lower chart_name)
                              (candidates (variations s)) 0 None)
      as [[Hall Hf]|(before & c & after & Hsplit & Hpos & Hb & Ha & Hf)];
      rewrite Hf.
    + left. split; [|reflexivity].
      eapply Forall_impl; [|exact Hall]. simpl. intros; lia.
    + right. exists before, c, after. repeat split; assumption.
Qed.

(** ** Lowercase keys *)

Lemma ensure_scanned_kept (P : registry -> Prop) fs :
  P empty_registry ->
  (forall item_path e content,
      keeps (fun s => P (variations s)) (register item_path e content)) ->
  keeps (fun s => P (variations s)) (ensure_scanned fs).
Proof.
  intros Hempty Hreg. unfold ensure_scanned.
  apply kept_bind; [apply kept_get_state|]. intros s0.
  destruct (negb (_variations_scanned s0)); [|apply kept_ret].
  apply kept_bind; [|intros; apply kept_ret].
  now apply scan_variations_kept.
Qed.

Lemma by_type_kept (P : registry -> Prop) fs chart_type preference r :
  P empty_registry ->
  (forall item_path e content,
      keeps (fun s => P (variations s)) (register item_path e content)) ->
  keeps (fun s => P (variations s))
        (get_variation_for_chart_type fs chart_type preference r).
Proof.
  intros Hempty Hreg. unfold get_variation_for_chart_type.
  apply kept_bind; [now apply ensure_scanned_kept|]. intros _.
  apply kept_bind; [apply kept_get_state|]. intros s0.
  apply kept_bind; [apply kept_lift|]. intros [found|]; [apply kept_ret|].
  apply kept_bind; [apply kept_lift|].
  intros [found|]; apply kept_ret.
Qed.

Lemma by_name_kept (P : registry -> Prop) fs chart_name :
  P empty_registry ->
  (forall item_path e content,
      keeps (fun s => P (variations s)) (register item_path e content)) ->
  keeps (fun s => P (variations s))
        (get_variation_for_chart_name fs chart_name).
Proof.
  intros Hempty Hreg. unfold get_variation_for_chart_name.
  apply kept_bind; [now apply ensure_scanned_kept|]. intros _.
  apply kept_bind; [apply kept_get_state|]. intros s0.
  destruct (exact_name_pass _ _); [apply kept_ret|].
  destruct (snd (similarity_pass _ _)); apply kept_ret.
Qed.

Lemma kept_always {A} (P : state -> Prop) (o : outcome A) s :
  kept true P o s -> P s.
Proof. now destruct o. Qed.

(** Every state the public operations produce has an index in the shape
    the scanner gives. *)
Lemma reachable_registry_ok s : reachable s -> registry_ok (variations s).
Proof.
  assert (Hreg : forall item_path e content,
             keeps (fun s => registry_ok (variations s))
                   (register item_path e content))
    by (intros; apply register_keeps_registry_ok).
  induction 1 as [|s fs force o s' _ IH H
                  |s fs chart_type preference r o s' _ IH H
                  |s fs chart_name o s' _ IH H].
  - apply registry_ok_empty.
  - exact (kept_always _ _ _
             (scan_variations_kept registry_ok fs force registry_ok_empty
                                   Hreg s o s' IH H)).
  - exact (kept_always _ _ _
             (by_type_kept registry_ok fs chart_type preference r
                           registry_ok_empty Hreg s o s' IH H)).
  - exact (kept_always _ _ _
             (by_name_kept registry_ok fs chart_name
                           registry_ok_empty Hreg s o s' IH H)).
Qed.

(** ** The default chart name *)

Lemma split_nonempty c s : Str.split c s <> [].
Proof.
  destruct s as [|x s]; simpl; [discriminate|].
  destruct (Ascii.eqb x c); [discriminate|].
  destruct (Str.split c s); discriminate.
Qed.

Lemma split_append c p q :
  Str.split c (String.append p (String c q)) = Str.split c p ++ Str.split c q.
Proof.
  induction p as [|x p IH]; simpl.
  - now rewrite Ascii.eqb_refl.
  - destruct (Ascii.eqb x c); simpl; rewrite IH; [reflexivity|].
    pose proof (split_nonempty c p) as Hp.
    destruct (Str.split c p) as [|h t]; [congruence|reflexivity].
Qed.

Lemma split_without c s :
  ~ In c (list_ascii_of_string s) -> Str.split c s = [s].
Proof.
  induction s as [|x s IH]; simpl; intros H; [reflexivity|].
  destruct (Ascii.eqb_spec x c) as [->|Hne]; [tauto|].
  rewrite IH by tauto. reflexivity.
Qed.

Lemma last_append {A} (l1 l2 : list A) d :
  l2 <> [] -> last (l1 ++ l2) d = last l2 d.
Proof.
  intros H. induction l1 as [|x l1 IH]; simpl; [reflexivity|].
  rewrite IH. destruct (l1 ++ l2) eqn:E; [|reflexivity].
  apply app_eq_nil in E. tauto.
Qed.

Lemma in_string_append c a b :
  In c (list_ascii_of_string (String.append a b)) ->
  In c (list_ascii_of_string a) \/ In c (list_ascii_of_string b).
Proof.
  induction a as [|x a IH]; simpl; [tauto|].
  intros [H|H]; [tauto|]. destruct (IH H); tauto.
Qed.

(** Where the default is the base name without its extension: a file
    name with exactly one dot. *)
Lemma default_chart_name_one_dot dir_path base ext :
  ~ In "/"%char (list_ascii_of_string base) ->
  ~ In "."%char (list_ascii_of_string base) ->
  ~ In "/"%char (list_ascii_of_string ext) ->
  default_chart_name
    (String.append dir_path
       (String "/" (String.append base (String "." ext))))
  = base.
Proof.
  intros Hslash Hdot Hext. unfold default_chart_name, Path.basename.
  rewrite split_append, last_append by apply split_nonempty.
  rewrite (split_without "/").
  - cbn [last]. rewrite split_append, (split_without "." base) by assumption.
    reflexivity.
  - intros H. apply in_string_append in H as [H|H]; [tauto|].
    simpl in H. destruct H as [H|H]; [discriminate|tauto].
Qed.


(** ** More of the scanner *)

Lemma lookup_with_types s e d e0 t0 n0 types :
  variations_get (variations s) e = Some types ->
  lookup (variations (with_types s e d)) e0 t0 n0
  = if String.eqb e e0
    then match Dict.get t0 d with
         | Some names => Dict.get n0 names
         | None => None
         end
    else lookup (variations s) e0 t0 n0.
Proof.
  intros Hg. unfold lookup. rewrite (bucket_with_types _ _ _ _ _ _ Hg).
  now destruct (String.eqb e e0).
Qed.

(** What a registration that returns does to the lookups. *)
Lemma register_lookup_frame item_path e content s s' reqs ct :
  extract_requirements content = Some reqs ->
  Dict.get "chart_type" reqs = Some (JString ct) ->
  register item_path e content s = (Ok tt, s') ->
  exists cn,
    declared_name item_path reqs = JString cn /\
    lookup (variations s') e (Str.lower ct) (Str.lower cn)
    = Some (mk_info e (handle_of e item_path) reqs) /\
    _variations_scanned s' = _variations_scanned s /\
    forall e' t' n',
      (e', t', n') <> (e, Str.lower ct, Str.lower cn) ->
      lookup (variations s') e' t' n' = lookup (variations s) e' t' n'.
Proof.
  intros Ex Ect H.
  destruct (register_returns _ _ _ _ _ _ _ Ex Ect H)
    as (cn & types & Hcn & Hg & ->).
  exists cn. split; [exact Hcn|]. split; [|split; [reflexivity|]].
  - rewrite (lookup_with_types _ _ _ _ _ _ _ Hg), String.eqb_refl.
    now rewrite store_ensure, !get_set_same.
  - intros e' t' n' Hne.
    rewrite (lookup_with_types _ _ _ _ _ _ _ Hg).
    destruct (String.eqb_spec e e') as [<-|He]; [|reflexivity].
    unfold lookup, bucket. rewrite Hg, store_ensure.
    destruct (String.eqb_spec (Str.lower ct) t') as [<-|Ht].
    + rewrite get_set_same.
      assert (Hn : Str.lower cn <> n') by (intros <-; now apply Hne).
      rewrite (get_set_other _ _ _ _ Hn).
      now destruct (Dict.get (Str.lower ct) types).
    + now rewrite (get_set_other _ _ _ _ Ht).
Qed.

(** X1. Registering a template and looking it up.  When the
    registration of a file with a string [chart_type] returns, the index
    holds, under the engine, the lowercased type and the lowercased
    name, exactly the record of this file (engine, handle, metadata),
    whatever was there before; every other key of the index, and the
    flag, are as they were. *)
Theorem register_then_lookup :
  forall item_path e content s s' reqs ct,
    extract_requirements content = Some reqs ->
    Dict.get "chart_type" reqs = Some (JString ct) ->
    register item_path e content s = (Ok tt, s') ->
    exists cn,
      declared_name item_path reqs = JString cn /\
      lookup (variations s') e (Str.lower ct) (Str.lower cn)
      = Some (mk_info e (handle_of e item_path) reqs) /\
      _variations_scanned s' = _variations_scanned s /\
      forall e' t' n',
        (e', t', n') <> (e, Str.lower ct, Str.lower cn) ->
        lookup (variations s') e' t' n' = lookup (variations s) e' t' n'.
Proof. intros. eapply register_lookup_frame; eassumption. Qed.

Lemma scan_item_file dir_path e ext item content :
  Str.endswith ext item = true ->
  String.eqb ext ".py" && Str.startswith "__" item = false ->
  scan_item dir_path e ext (File item content)
  = register (Path.join dir_path item) e content.
Proof. intros He Hd. simpl. now rewrite He, Hd. Qed.

(** X2. The last file wins.  When the walk of a listing returns and the
    last entry of the listing is a template, the record found under that
    template's engine, type and name is the record of that last file,
    also when files scanned before it registered under the same key. *)
Theorem last_file_of_a_listing_wins :
  forall dir_path e ext before item content ct s s',
    template ext item content ct ->
    scan_directory dir_path e ext (Some (before ++ [File item content])) s
    = (Ok tt, s') ->
    exists reqs cn,
      extract_requirements content = Some reqs /\
      declared_name (Path.join dir_path item) reqs = JString cn /\
      lookup (variations s') e (Str.lower ct) (Str.lower cn)
      = Some (mk_info e (handle_of e (Path.join dir_path item)) reqs).
Proof.
  intros dir_path e ext before item content ct s s'
         (He & Hd & reqs & Ex & Ect) H.
  simpl in H. rewrite for_each_app in H.
  apply bind_inv in H as [([] & s1 & _ & H)|(x & _ & Hx)]; [|discriminate].
  cbn [for_each] in H. rewrite (scan_item_file _ _ _ _ _ He Hd) in H.
  apply bind_inv in H as [([] & s2 & Hreg & H)|(x & _ & Hx)]; [|discriminate].
  inversion H; subst s2.
  destruct (register_lookup_frame _ _ _ _ _ _ _ Ex Ect Hreg)
    as (cn & Hcn & Hl & _).
  exists reqs, cn. auto.
Qed.

(** ** Exceptions during a scan *)

Lemma register_lower_fails item_path e content s :
  lower_fails item_path content ->
  register item_path e content s = (Raised AttributeError, s).
Proof.
  intros (reqs & declared & Ex & Ect & Hbad). unfold register. rewrite Ex.
  destruct reqs as [|b reqs]; [discriminate|]. rewrite Ect.
  destruct declared; try reflexivity.
  unfold declared_name in Hbad.
  destruct Hbad as [Hbad|Hbad]; [discriminate|].
  simpl lower_method at 1. rewrite bind_ret.
  destruct (match Dict.get "chart_name" (b :: reqs) with
            | Some declared => declared
            | None => JString (default_chart_name item_path)
            end); try reflexivity. discriminate.
Qed.

(** X3. Metadata that is not text stops the walk.  When the walk comes
    to a file of the engine's extension whose [chart_type] (or, failing
    that, whose chart name) is not a string, it raises [AttributeError]
    there: the index is what the entries before the file made of it, and
    the entries after the file are not scanned. *)
Theorem non_string_metadata_aborts_the_walk :
  forall dir_path e ext before item content after s s1,
    Str.endswith ext item = true ->
    String.eqb ext ".py" && Str.startswith "__" item = false ->
    lower_fails (Path.join dir_path item) content ->
    scan_directory dir_path e ext (Some before) s = (Ok tt, s1) ->
    scan_directory dir_path e ext (Some (before ++ File item content :: after))
                   s
    = (Raised AttributeError, s1).
Proof.
  intros dir_path e ext before item content after s s1 He Hd Hbad Hbefore.
  simpl in *. rewrite for_each_app, (bind_run _ _ _ _ _ Hbefore).
  cbn [for_each]. rewrite (scan_item_file _ _ _ _ _ He Hd).
  now rewrite (bind_run_raised _ _ _ _ _
                 (register_lower_fails _ e _ s1 Hbad)).
Qed.

Lemma register_keeps_scanned always item_path e content b :
  triple (fun s => _variations_scanned s = b)
         (register item_path e content)
         (kept always (fun s => _variations_scanned s = b)).
Proof.
  intros s o s' Hb H.
  assert (_variations_scanned s' = b) as Hs'.
  { apply register_effect in H
      as [->|[(types & t & Hg & Ht & _ & ->)
             |(types & t & n & info & Hg & _ & _ & _ & _ & ->)]];
      assumption. }
  destruct o; simpl; [assumption|now destruct always].
Qed.

Lemma variations_get_unknown v v' e :
  variations_get v e = None -> variations_get v' e = None.
Proof.
  unfold variations_get.
  repeat match goal with
         | |- context [String.eqb ?a ?b] =>
             destruct (String.eqb_spec a b); subst; simpl; try discriminate
         end.
  reflexivity.
Qed.

Lemma unknown_engine v e : ~ In e engines -> variations_get v e = None.
Proof.
  intros H. destruct (variations_get v e) as [types|] eqn:E; [|reflexivity].
  exfalso. apply H. unfold variations_get in E. unfold engines. simpl.
  repeat match type of E with
         | context [String.eqb ?a ?b] =>
             destruct (String.eqb_spec a b); subst; auto
         end.
  discriminate.
Qed.

(** X4. A walk stays within its engine.  However the walk of a
    directory for one engine ends, the flag and the dictionaries of the
    other engines are as they were. *)
Theorem walk_touches_one_engine :
  forall dir_path e ext d s o s',
    scan_directory dir_path e ext d s = (o, s') ->
    _variations_scanned s' = _variations_scanned s /\
    forall e', e' <> e ->
               variations_get (variations s') e'
               = variations_get (variations s) e'.
Proof.
  intros dir_path e ext d s o s' H. split.
  - pose (P := fun st : state => _variations_scanned st = _variations_scanned s).
    refine (kept_always P o s'
              (scan_directory_kept true P e ext dir_path d _ s o s' eq_refl H)).
    intros. apply register_keeps_scanned.
  - intros e' Hne.
    destruct (variations_get (variations s) e') as [types|] eqn:Hg.
    + pose (P := fun st : state => variations_get (variations st) e' = Some types).
      refine (kept_always P o s'
                (scan_directory_kept true P e ext dir_path d _ s o s' Hg H)).
      intros. apply register_frame. congruence.
    + now apply variations_get_unknown with (variations s).
Qed.

(** X5. A scan that raises.  When [scan_variations] raises, the flag is
    as it was before the call.  So when the flag was set (a forced
    rescan of a scanned state), the index left half rebuilt stays in use:
    the resolvers answer from it without scanning, whatever the file
    system holds. *)
Theorem raising_scan_leaves_the_flag :
  forall fs force s x s',
    scan_variations fs force s = (Raised x, s') ->
    _variations_scanned s' = _variations_scanned s /\
    (_variations_scanned s = true ->
     forall fs1 fs2 chart preference r,
       get_variation_for_chart_type fs1 chart preference r s'
       = get_variation_for_chart_type fs2 chart preference r s' /\
       get_variation_for_chart_name fs1 chart s'
       = get_variation_for_chart_name fs2 chart s').
Proof.
  intros fs force s x s' H.
  assert (Hflag : _variations_scanned s' = _variations_scanned s).
  { destruct (_variations_scanned s && negb force) eqn:E.
    - unfold scan_variations in H.
      rewrite (bind_run _ _ _ _ _ (eq_refl : get_state s = (Ok s, s))) in H.
      rewrite E in H. discriminate.
    - rewrite scan_variations_run in H
        by (destruct (_variations_scanned s), force; auto; discriminate).
      assert (Hw : forall dir_path e ext d sa o sb,
                 _variations_scanned sa = _variations_scanned s ->
                 scan_directory dir_path e ext d sa = (o, sb) ->
                 _variations_scanned sb = _variations_scanned s).
      { intros dir_path e ext d sa o sb Ha Hs.
        pose (P := fun st : state =>
                     _variations_scanned st = _variations_scanned s).
        refine (kept_always P o sb
                  (scan_directory_kept true P e ext dir_path d _ sa o sb
                                       Ha Hs)).
        intros. apply register_keeps_scanned. }
      apply bind_inv in H as [([] & s1 & H1 & H)|(y & H1 & _)];
        [|exact (Hw _ _ _ _ (cleared s) _ _ eq_refl H1)].
      pose proof (Hw _ _ _ _ (cleared s) _ _ eq_refl H1) as F1.
      apply bind_inv in H as [([] & s2 & H2 & H)|(y & H2 & _)];
        [|exact (Hw _ _ _ _ _ _ _ F1 H2)].
      pose proof (Hw _ _ _ _ _ _ _ F1 H2) as F2.
      apply bind_inv in H as [([] & s3 & H3 & H)|(y & H3 & _)];
        [|exact (Hw _ _ _ _ _ _ _ F2 H3)].
      pose proof (Hw _ _ _ _ _ _ _ F2 H3) as F3.
      apply bind_inv in H as [([] & s4 & H4 & H)|(y & H4 & _)];
        [|exact (Hw _ _ _ _ _ _ _ F3 H4)].
      discriminate. }
  split; [exact Hflag|].
  intros Hset fs1 fs2 chart preference r.
  rewrite Hset in Hflag.
  now rewrite !(by_type_run _ _ _ _ _ Hflag), !(by_name_run _ _ _ Hflag).
Qed.

(** X6. A template module that raises.  When running an echarts_py
    template raises and its chart type is new to the index, the
    registration raises after line 82 has run: the index is left with
    that chart type bound to an empty bucket, every other bucket as it
    was, and the first loop of the resolver passes over the empty
    bucket. *)
Theorem failing_module_leaves_an_empty_bucket :
  forall item_path content s reqs ct cn,
    extract_requirements content = Some reqs ->
    Dict.get "chart_type" reqs = Some (JString ct) ->
    declared_name item_path reqs = JString cn ->
    exec_module item_path content = false ->
    Dict.get (Str.lower ct) (echarts_py (variations s)) = None ->
    exists s',
      register item_path "echarts_py" content s = (Raised ExecError, s') /\
      bucket (variations s') "echarts_py" (Str.lower ct) = Some [] /\
      (forall e t, (e, t) <> ("echarts_py", Str.lower ct) ->
                   bucket (variations s') e t = bucket (variations s) e t) /\
      forall r rest,
        exact_pass (variations s') (Str.lower ct) r ("echarts_py" :: rest)
        = exact_pass (variations s') (Str.lower ct) r rest.
Proof.
  intros item_path content s reqs ct cn Ex Ect Ecn Hexec Hnew.
  assert (Hg : variations_get (variations s) "echarts_py"
               = Some (echarts_py (variations s))) by reflexivity.
  eexists. split; [|split; [|split]].
  - rewrite (register_run _ _ _ _ _ _ _ _ Ex Ect Ecn Hg), Hexec.
    reflexivity.
  - rewrite (bucket_with_types _ _ _ _ _ _ Hg), String.eqb_refl.
    unfold ensure_bucket, Dict.mem. rewrite Hnew. apply get_set_same.
  - intros e t Hne. rewrite (bucket_with_types _ _ _ _ _ _ Hg).
    destruct (String.eqb_spec "echarts_py" e) as [<-|He]; [|reflexivity].
    unfold bucket. rewrite Hg. unfold ensure_bucket, Dict.mem. rewrite Hnew.
    apply get_set_other. intros <-. now apply Hne.
  - intros r rest.
    apply (exact_pass_skip _ _ _ ["echarts_py"] rest).
    intros e [<-|[]]. eexists. split; [reflexivity|]. right.
    change (bucket (variations (with_types s "echarts_py"
                      (ensure_bucket (Str.lower ct) (echarts_py (variations s)))))
                   "echarts_py" (Str.lower ct) = Some []).
    rewrite (bucket_with_types _ _ _ _ _ _ Hg), String.eqb_refl.
    unfold ensure_bucket, Dict.mem. rewrite Hnew. apply get_set_same.
Qed.

(** ** More of the resolvers *)

(** X7. The scan on first use.  A resolver call is an unforced
    [scan_variations] followed by the same call: on a state never
    scanned it scans and then resolves on what the scan left, an
    exception of the scan is the exception of the call, and on a scanned
    state it resolves at once and leaves the state as it is. *)
Theorem resolvers_scan_on_first_use :
  forall fs chart preference r s,
    get_variation_for_chart_type fs chart preference r s
    = (scan_variations fs false ;;
       get_variation_for_chart_type fs chart preference r) s /\
    get_variation_for_chart_name fs chart s
    = (scan_variations fs false ;; get_variation_for_chart_name fs chart) s /\
    (_variations_scanned s = true ->
     snd (get_variation_for_chart_type fs chart preference r s) = s /\
     snd (get_variation_for_chart_name fs chart s) = s).
Proof.
  intros fs chart preference r s.
  assert (Hens : forall A (k : M A),
             (ensure_scanned fs ;; k) s
             = (scan_variations fs false ;; ensure_scanned fs ;; k) s).
  { intros A k. destruct (_variations_scanned s) eqn:Hflag.
    - rewrite (bind_run _ _ _ _ _ (scan_variations_memo fs s Hflag)).
      reflexivity.
    - assert (Hfirst : ensure_scanned fs s
                       = match scan_variations fs false s with
                         | (Ok _, s1) => (Ok tt, s1)
                         | (Raised x, s1) => (Raised x, s1)
                         end).
      { unfold ensure_scanned, bind, get_state. rewrite Hflag. simpl.
        now destruct (scan_variations fs false s) as [[v|x] s1]. }
      destruct (scan_variations fs false s) as [[v|x] s1] eqn:Hscan.
      + rewrite (bind_run _ _ _ _ _ Hfirst).
        rewrite (bind_run (scan_variations fs false) _ _ _ _ Hscan).
        destruct (scan_variations_sets_flag _ _ _ _ _ Hscan) as [Hset _].
        now rewrite (bind_run _ _ _ _ _ (ensure_scanned_run fs s1 Hset)).
      + rewrite (bind_run_raised _ _ _ _ _ Hfirst).
        now rewrite (bind_run_raised (scan_variations fs false) _ _ _ _ Hscan). }
  split; [|split].
  - unfold get_variation_for_chart_type. apply Hens.
  - unfold get_variation_for_chart_name. apply Hens.
  - intros Hflag.
    now rewrite (by_type_run _ _ _ _ _ Hflag), (by_name_run _ _ _ Hflag).
Qed.

(** X8. An unknown engine in the preference list.  On a scanned state,
    when the preference list names something that is not one of the four
    engines and no engine listed before it has the chart type with a
    chart name, the call raises [KeyError], also when an engine listed
    after it has the type; the state is left as it is. *)
Theorem unknown_engine_raises_key_error :
  forall fs chart_type before unknown after r s,
    _variations_scanned s = true ->
    ~ In unknown engines ->
    (forall e', In e' before ->
                exists types,
                  variations_get (variations s) e' = Some types /\
                  (Dict.get (Str.lower chart_type) types = None \/
                   Dict.get (Str.lower chart_type) types = Some [])) ->
    get_variation_for_chart_type fs chart_type
                                 (Some (before ++ unknown :: after)) r s
    = (Raised KeyError, s).
Proof.
  intros fs chart_type before unknown after r s Hflag Hunknown Hbefore.
  rewrite (by_type_run _ _ _ _ _ Hflag). cbv zeta.
  rewrite (exact_pass_skip _ _ _ _ _ Hbefore). cbn [exact_pass].
  now rewrite (unknown_engine _ _ Hunknown).
Qed.

Lemma get_find {V} k (d : list (string * V)) :
  Dict.get k d
  = option_map snd (find (fun binding => String.eqb k (fst binding)) d).
Proof.
  induction d as [|[k0 v0] d IH]; simpl; [reflexivity|].
  now destruct (String.eqb k k0).
Qed.

Lemma find_none_app {A} (f : A -> bool) l1 l2 :
  find f l1 = None -> find f (l1 ++ l2) = find f l2.
Proof.
  induction l1 as [|x l1 IH]; simpl; [reflexivity|].
  destruct (f x); [discriminate|exact IH].
Qed.

Lemma find_some_app {A} (f : A -> bool) l1 l2 x :
  find f l1 = Some x -> find f (l1 ++ l2) = Some x.
Proof.
  induction l1 as [|y l1 IH]; simpl; [discriminate|].
  destruct (f y); [auto|exact IH].
Qed.

Lemma exact_name_types_find q types :
  exact_name_types q types
  = match find (fun binding => String.eqb q (fst binding))
               (flat_map snd types) with
    | Some c => result_of c
    | None => None
    end.
Proof.
  induction types as [|[t names] types IH]; simpl; [reflexivity|].
  rewrite get_find.
  destruct (find (fun binding => String.eqb q (fst binding)) names)
    as [c|] eqn:E; simpl.
  - now rewrite (find_some_app _ _ _ _ E).
  - now rewrite (find_none_app _ _ _ E).
Qed.

Lemma exact_name_pass_find q v :
  exact_name_pass q (registry_items v)
  = match find (fun binding => String.eqb q (fst binding)) (candidates v) with
    | Some c => result_of c
    | None => None
    end.
Proof.
  unfold candidates. generalize (registry_items v) as items.
  induction items as [|[e types] items IH]; simpl; [reflexivity|].
  rewrite exact_name_types_find.
  destruct (find (fun binding => String.eqb q (fst binding))
                 (flat_map snd types)) as [c|] eqn:E.
  - now rewrite (find_some_app _ _ _ _ E).
  - now rewrite (find_none_app _ _ _ E).
Qed.

(** X9. Resolution by an exact chart name.  On a scanned state, when
    some record is registered under the lowercased chart name, the call
    returns the first such record in the order echarts_py, echarts-js,
    d3-js, vegalite_py, chart types and chart names in insertion order;
    the similarity pass plays no part, and a record of vegalite_py is
    found like any other. *)
Theorem by_name_returns_first_exact_match :
  forall fs chart_name s before c after,
    _variations_scanned s = true ->
    candidates (variations s) = before ++ c :: after ->
    fst c = Str.lower chart_name ->
    (forall c', In c' before -> fst c' <> Str.lower chart_name) ->
    get_variation_for_chart_name fs chart_name s = (Ok (result_of c), s).
Proof.
  intros fs chart_name s before c after Hflag Hsplit Hc Hbefore.
  rewrite (by_name_run _ _ _ Hflag), exact_name_pass_find, Hsplit.
  rewrite find_none_app.
  - simpl. rewrite Hc, String.eqb_refl. reflexivity.
  - destruct (find _ before) as [c'|] eqn:E; [|reflexivity].
    apply find_some in E as [Hin Heq]. apply String.eqb_eq in Heq.
    exfalso. now apply (Hbefore c').
Qed.

Lemma partial_types_skip t r tb rest :
  no_partial_match t tb ->
  partial_types t r (tb ++ rest) = partial_types t r rest.
Proof.
  induction tb as [|[vt names] tb IH]; intros H; [reflexivity|].
  rewrite <- app_comm_cons. cbn [partial_types]. fold (related t vt).
  assert (Htb : no_partial_match t tb)
    by (intros vt' names' Hin; apply H; now right).
  destruct (related t vt) eqn:E; [|now apply IH].
  rewrite (H vt names (or_introl eq_refl) E), pick_nil. now apply IH.
Qed.

Lemma partial_pass_skip v t r before rest :
  (forall e', In e' before ->
              exists types, variations_get v e' = Some types /\
                            no_partial_match t types) ->
  partial_pass v t r (before ++ rest) = partial_pass v t r rest.
Proof.
  induction before as [|e before IH]; intros H; [reflexivity|].
  rewrite <- app_comm_cons. cbn [partial_pass].
  destruct (H e (or_introl eq_refl)) as (types & Hg & Hno).
  rewrite Hg. rewrite <- (app_nil_r types), (partial_types_skip _ _ _ _ Hno).
  cbn [partial_types]. apply IH. intros; apply H; now right.
Qed.

(** The first engine and chart type that pass the test of the partial
    pass, when the exact pass finds nothing. *)
Lemma partial_first_match :
  forall fs chart_type preference before e after
         types_before variation_type names types_after r s,
    _variations_scanned s = true ->
    preference_of preference = before ++ e :: after ->
    (forall e', In e' (preference_of preference) ->
                exists types,
                  variations_get (variations s) e' = Some types /\
                  (Dict.get (Str.lower chart_type) types = None \/
                   Dict.get (Str.lower chart_type) types = Some [])) ->
    (forall e', In e' before ->
                exists types,
                  variations_get (variations s) e' = Some types /\
                  no_partial_match (Str.lower chart_type) types) ->
    variations_get (variations s) e
    = Some (types_before ++ (variation_type, names) :: types_after) ->
    no_partial_match (Str.lower chart_type) types_before ->
    related (Str.lower chart_type) variation_type = true ->
    names <> [] ->
    exists n info,
      nth_error (Dict.keys names) (r mod List.length names) = Some n /\
      Dict.get n names = Some info /\
      get_variation_for_chart_type fs chart_type preference r s
      = (Ok (Some (engine_type info, variation info)), s).
Proof.
  intros fs chart_type preference before e after
         types_before variation_type names types_after r s
         Hflag Hpref Hexact Hbefore Hg Htb Hrel Hne.
  destruct (pick_spec r names Hne) as (n & info & Hn & Hget & Hpick).
  exists n, info. split; [exact Hn|]. split; [exact Hget|].
  rewrite (by_type_run _ _ _ _ _ Hflag). cbv zeta.
  fold (preference_of preference).
  rewrite <- (app_nil_r (preference_of preference)) at 1.
  rewrite (exact_pass_skip _ _ _ _ _ Hexact). cbn [exact_pass].
  rewrite Hpref, (partial_pass_skip _ _ _ _ _ Hbefore). cbn [partial_pass].
  rewrite Hg, (partial_types_skip _ _ _ _ Htb). cbn [partial_types].
  fold (related (Str.lower chart_type) variation_type).
  now rewrite Hrel, Hpick.
Qed.

(** X10. The partial pass stops at the first match.  On a scanned state
    on which the exact pass finds nothing, the call returns from the
    first engine of the preference list, and in it the first chart type
    in insertion order, that contains the requested type or is contained
    in it and has a chart name: the record the draw selects in that
    bucket.  Engines and chart types after it are not looked at, however
    close they are to the request. *)
Theorem partial_pass_stops_at_first_match :
  forall fs chart_type preference before e after
         types_before variation_type names types_after r s,
    _variations_scanned s = true ->
    preference_of preference = before ++ e :: after ->
    (forall e', In e' (preference_of preference) ->
                exists types,
                  variations_get (variations s) e' = Some types /\
                  (Dict.get (Str.lower chart_type) types = None \/
                   Dict.get (Str.lower chart_type) types = Some [])) ->
    (forall e', In e' before ->
                exists types,
                  variations_get (variations s) e' = Some types /\
                  no_partial_match (Str.lower chart_type) types) ->
    variations_get (variations s) e
    = Some (types_before ++ (variation_type, names) :: types_after) ->
    no_partial_match (Str.lower chart_type) types_before ->
    related (Str.lower chart_type) variation_type = true ->
    names <> [] ->
    exists n info,
      nth_error (Dict.keys names) (r mod List.length names) = Some n /\
      Dict.get n names = Some info /\
      get_variation_for_chart_type fs chart_type preference r s
      = (Ok (Some (engine_type info, variation info)), s).
Proof. intros. eapply partial_first_match; eassumption. Qed.

Lemma contains_empty s : Str.contains "" s = true.
Proof. now destruct s. Qed.

(** X11. The empty chart type.  The empty string is a substring of
    every chart type, so on a scanned state in which no chart type is the
    empty string, a call with the empty chart type and no preference
    returns a record of the first chart type that has a chart name, in
    the order echarts_py, echarts-js, d3-js and insertion order within
    each; with no such chart type in the three engines it returns
    [(None, None)]. *)
Theorem empty_chart_type_matches_the_first_type :
  forall fs r s,
    _variations_scanned s = true ->
    (forall e, In e default_preference ->
               bucket (variations s) e "" = None) ->
    ((forall e types, In e default_preference ->
                      variations_get (variations s) e = Some types ->
                      Forall (fun type_item => snd type_item = []) types) ->
     get_variation_for_chart_type fs "" None r s = (Ok None, s)) /\
    (forall before e after types_before variation_type names types_after,
        default_preference = before ++ e :: after ->
        (forall e' types,
            In e' before ->
            variations_get (variations s) e' = Some types ->
            Forall (fun type_item => snd type_item = []) types) ->
        variations_get (variations s) e
        = Some (types_before ++ (variation_type, names) :: types_after) ->
        Forall (fun type_item => snd type_item = []) types_before ->
        names <> [] ->
        exists n info,
          nth_error (Dict.keys names) (r mod List.length names) = Some n /\
          Dict.get n names = Some info /\
          get_variation_for_chart_type fs "" None r s
          = (Ok (Some (engine_type info, variation info)), s)).
Proof.
  intros fs r s Hflag Hnokey.
  assert (Hexact : forall e', In e' (preference_of None) ->
             exists types,
               variations_get (variations s) e' = Some types /\
               (Dict.get (Str.lower "") types = None \/
                Dict.get (Str.lower "") types = Some [])).
  { intros e' He'.
    destruct (engines_variations_get (variations s) e'
                (default_preference_engines e' He')) as [types Hg].
    exists types. split; [exact Hg|]. left.
    specialize (Hnokey e' He'). unfold bucket in Hnokey.
    now rewrite Hg in Hnokey. }
  assert (Hempty : forall types,
             Forall (fun type_item : string * name_dict =>
                       snd type_item = []) types ->
             no_partial_match "" types).
  { intros types Hall vt names Hin _. rewrite Forall_forall in Hall.
    exact (Hall _ Hin). }
  split.
  - intros Hall.
    rewrite (by_type_run _ _ _ _ _ Hflag). cbv zeta.
    rewrite <- (app_nil_r default_preference) at 1.
    rewrite (exact_pass_skip _ _ _ _ _ Hexact). cbn [exact_pass].
    rewrite <- (app_nil_r default_preference).
    rewrite partial_pass_skip; [reflexivity|].
    intros e' He'.
    destruct (engines_variations_get (variations s) e'
                (default_preference_engines e' He')) as [types Hg].
    exists types. split; [exact Hg|]. apply Hempty. eapply Hall; eassumption.
  - intros before e after types_before variation_type names types_after
           Hsplit Hbefore Hg Htb Hne.
    apply (partial_first_match
             fs "" None before e after types_before variation_type names
             types_after r s Hflag Hsplit Hexact); try assumption.
    + intros e' He'.
      assert (In e' default_preference)
        by (rewrite Hsplit; apply in_or_app; now left).
      destruct (engines_variations_get (variations s) e'
                  (default_preference_engines e' H)) as [types Hg'].
      exists types. split; [exact Hg'|]. apply Hempty.
      eapply Hbefore; eassumption.
    + now apply Hempty.
    + unfold related. simpl Str.lower. now rewrite contains_empty.
Qed.

(** ** Rebuilding the index *)

Lemma ignores_flag_ret {A} (a : A) : ignores_flag (ret a).
Proof. intros s s' H. split; [reflexivity|exact H]. Qed.

Lemma ignores_flag_raise {A} x : ignores_flag (@raise A x).
Proof. intros s s' H. split; [reflexivity|exact H]. Qed.

Lemma ignores_flag_bind {A B} (m : M A) (k : A -> M B) :
  ignores_flag m -> (forall a, ignores_flag (k a)) ->
  ignores_flag (bind m k).
Proof.
  intros Hm Hk s s' H. unfold bind.
  destruct (Hm s s' H) as [Ho Hs].
  destruct (m s) as [[a|x] s1], (m s') as [[a'|x'] s1']; simpl in *;
    try discriminate.
  - inversion Ho; subst. now apply Hk.
  - inversion Ho; subst. split; [reflexivity|assumption].
Qed.

Lemma ignores_flag_types_of e : ignores_flag (types_of e).
Proof.
  intros s s' H. unfold types_of, bind, get_state. unfold same_index in H.
  rewrite H. now destruct (variations_get (variations s') e).
Qed.

Lemma ignores_flag_set_types e types : ignores_flag (set_types e types).
Proof.
  intros s s' H. unfold same_index in *. simpl. now rewrite H.
Qed.

Lemma ignores_flag_for_each {A} (body : A -> M unit) l :
  (forall x, In x l -> ignores_flag (body x)) ->
  ignores_flag (for_each body l).
Proof.
  induction l as [|x l IH]; simpl; intros H.
  - apply ignores_flag_ret.
  - apply ignores_flag_bind; [apply H; auto|]. intros _. apply IH. auto.
Qed.

Lemma ignores_flag_register item_path e content :
  ignores_flag (register item_path e content).
Proof.
  unfold register.
  destruct (extract_requirements content) as [[|b reqs]|];
    try apply ignores_flag_ret.
  destruct (Dict.get "chart_type" (b :: reqs)) as [declared|];
    [|apply ignores_flag_ret].
  apply ignores_flag_bind;
    [destruct declared; first [apply ignores_flag_ret|apply ignores_flag_raise]|].
  intros chart_type. apply ignores_flag_bind.
  { destruct (match Dict.get "chart_name" (b :: reqs) with
              | Some declared_name => declared_name
              | None => JString (default_chart_name item_path)
              end);
      first [apply ignores_flag_ret|apply ignores_flag_raise]. }
  intros chart_name.
  apply ignores_flag_bind; [apply ignores_flag_types_of|]. intros types.
  apply ignores_flag_bind.
  { destruct (Dict.mem chart_type types);
      [apply ignores_flag_ret|apply ignores_flag_set_types]. }
  intros _. apply ignores_flag_bind.
  { destruct (String.eqb e "echarts_py"); [|apply ignores_flag_ret].
    unfold load_python_variation.
    destruct (exec_module item_path content);
      [apply ignores_flag_ret|apply ignores_flag_raise]. }
  intros variation.
  apply ignores_flag_bind; [apply ignores_flag_types_of|]. intros types'.
  destruct (Dict.get chart_type types');
    [apply ignores_flag_set_types|apply ignores_flag_raise].
Qed.

Lemma ignores_flag_scan_item e ext it :
  forall dir_path, ignores_flag (scan_item dir_path e ext it).
Proof.
  induction it as [item content|item listing IH|item] using entry_tree_ind;
    intros dir_path.
  - simpl. destruct (Str.endswith ext item); [|apply ignores_flag_ret].
    destruct (String.eqb ext ".py" && Str.startswith "__" item);
      [apply ignores_flag_ret|apply ignores_flag_register].
  - rewrite scan_item_dir. simpl. apply ignores_flag_for_each.
    intros x Hx. rewrite Forall_forall in IH. now apply IH.
  - apply ignores_flag_ret.
Qed.

Lemma ignores_flag_scan_directory dir_path e ext d :
  ignores_flag (scan_directory dir_path e ext d).
Proof.
  destruct d as [listing|]; simpl; [|apply ignores_flag_ret].
  apply ignores_flag_for_each. intros. apply ignores_flag_scan_item.
Qed.

(** Two scans of one file system that both run end with the same
    outcome and the same index. *)
Lemma scans_agree fs force force' s s' :
  _variations_scanned s = false \/ force = true ->
  _variations_scanned s' = false \/ force' = true ->
  fst (scan_variations fs force s) = fst (scan_variations fs force' s') /\
  same_index (snd (scan_variations fs force s))
             (snd (scan_variations fs force' s')).
Proof.
  intros Hrun Hrun'.
  rewrite (scan_variations_run _ _ _ Hrun), (scan_variations_run _ _ _ Hrun').
  match goal with
  | |- fst (?m _) = _ /\ _ => assert (K : ignores_flag m)
  end.
  { repeat (apply ignores_flag_bind;
            [apply ignores_flag_scan_directory|intros _]).
    apply ignores_flag_bind.
    - intros a b H. split; [reflexivity|exact H].
    - intros _ a b H. unfold bind, get_state, ret. simpl.
      split; [now rewrite H|exact H]. }
  apply K. reflexivity.
Qed.

(** X12. A scan rebuilds the index from the file system alone.  Two
    scans of the same file system that both run (forced, or on a state
    never scanned) end with the same outcome and the same index,
    whatever index and flag each started from: nothing of an old index
    survives.  So a forced rescan after a scan that returned, on an
    unchanged file system, returns the same index and leaves the state as
    it is. *)
Theorem scan_rebuilds_from_the_file_system :
  forall fs force s,
    _variations_scanned s = false \/ force = true ->
    (forall force' s',
        _variations_scanned s' = false \/ force' = true ->
        fst (scan_variations fs force s) = fst (scan_variations fs force' s') /\
        variations (snd (scan_variations fs force s))
        = variations (snd (scan_variations fs force' s'))) /\
    (forall v s1,
        scan_variations fs force s = (Ok v, s1) ->
        scan_variations fs true s1 = (Ok v, s1)).
Proof.
  intros fs force s Hrun. split.
  - intros force' s' Hrun'. now apply scans_agree.
  - intros v s1 H.
    destruct (scans_agree fs force true s s1 Hrun (or_intror eq_refl))
      as [Ho Hs].
    rewrite H in Ho, Hs. simpl in Ho, Hs.
    destruct (scan_variations fs true s1) as [o2 s2] eqn:H2.
    simpl in Ho, Hs. subst o2.
    destruct (scan_variations_sets_flag _ _ _ _ _ H) as [F1 V1].
    destruct (scan_variations_sets_flag _ _ _ _ _ H2) as [F2 V2].
    unfold same_index in Hs. f_equal.
    destruct s1, s2; simpl in *. congruence.
Qed.

Lemma scan_item_passed_over dir_path e ext it s :
  passed_over ext it -> scan_item dir_path e ext it s = (Ok tt, s).
Proof.
  destruct it as [item content|item listing|item]; simpl.
  - intros [H|[H|[H|H]]].
    + now rewrite H.
    + destruct (Str.endswith ext item); [|reflexivity]. now rewrite H.
    + destruct (Str.endswith ext item); [|reflexivity].
      destruct (String.eqb ext ".py" && Str.startswith "__" item);
        [reflexivity|]. unfold register. now rewrite H.
    + destruct (Str.endswith ext item); [|reflexivity].
      destruct (String.eqb ext ".py" && Str.startswith "__" item);
        [reflexivity|]. unfold register. now rewrite H.
  - intros ->. reflexivity.
  - reflexivity.
Qed.

(** X13. Entries the walk passes over.  An entry that is neither file
    nor directory, an empty directory, a file whose name lacks the
    extension of the engine, a file of a Python engine whose name starts
    with two underscores, and a file in which no metadata block is found
    or parsed, or whose block is the empty object, change nothing and
    raise nothing: the walk of a listing ends as it does without the
    entry. *)
Theorem walk_passes_over :
  forall dir_path e ext before it after s,
    passed_over ext it ->
    scan_directory dir_path e ext (Some (before ++ it :: after)) s
    = scan_directory dir_path e ext (Some (before ++ after)) s.
Proof.
  intros dir_path e ext before it after s H. simpl.
  rewrite !for_each_app. apply bind_cong; [reflexivity|].
  intros _ s1. cbn [for_each].
  now rewrite (bind_run _ _ _ _ _ (scan_item_passed_over dir_path e ext it s1 H)).
Qed.

(** ** Where the records come from *)

(** The lookups after a registration, however it ends: what was there,
    or the record of the file. *)
Lemma register_lookups item_path e content s o s' e' t' n' info :
  register item_path e content s = (o, s') ->
  lookup (variations s') e' t' n' = Some info ->
  lookup (variations s) e' t' n' = Some info
  \/ (e' = e /\
      exists reqs ct cn,
        extract_requirements content = Some reqs /\
        Dict.get "chart_type" reqs = Some (JString ct) /\
        declared_name item_path reqs = JString cn /\
        t' = Str.lower ct /\ n' = Str.lower cn /\
        info = mk_info e (handle_of e item_path) reqs).
Proof.
  destruct (extract_requirements content) as [reqs|] eqn:Ex;
    [|unfold register; rewrite Ex; intros H; inversion H; auto].
  destruct (Dict.get "chart_type" reqs) as [declared|] eqn:Ect;
    [|unfold register; rewrite Ex; destruct reqs; [|rewrite Ect];
      intros H; inversion H; auto].
  destruct declared as [| | |ct| |];
    try (unfold register; rewrite Ex; destruct reqs; [|rewrite Ect];
         intros H; inversion H; auto; fail).
  destruct (declared_name item_path reqs) as [| | |cn| |] eqn:Ecn;
    try (unfold register; rewrite Ex; destruct reqs; [|rewrite Ect];
         [|unfold declared_name in Ecn; rewrite Ecn];
         intros H; inversion H; auto; fail).
  destruct (variations_get (variations s) e) as [types|] eqn:Eg.
  - rewrite (register_run _ _ _ _ _ _ _ _ Ex Ect Ecn Eg).
    destruct (String.eqb e "echarts_py" && negb (exec_module item_path content));
      intros H; inversion H; subst o s'; clear H;
      rewrite (lookup_with_types _ _ _ _ _ _ _ Eg);
      (destruct (String.eqb_spec e e') as [<-|Hne]; [|now left]);
      unfold lookup, bucket; rewrite Eg.
    + unfold ensure_bucket, Dict.mem.
      destruct (Dict.get (Str.lower ct) types) eqn:E; [now left|].
      destruct (String.eqb_spec (Str.lower ct) t') as [<-|Ht].
      * rewrite get_set_same. discriminate.
      * rewrite (get_set_other _ _ _ _ Ht). now left.
    + rewrite store_ensure.
      destruct (String.eqb_spec (Str.lower ct) t') as [<-|Ht].
      * rewrite get_set_same.
        destruct (String.eqb_spec (Str.lower cn) n') as [<-|Hn].
        -- rewrite get_set_same. intros H; inversion H; subst info.
           right. split; [reflexivity|]. exists reqs, ct, cn. auto 10.
        -- rewrite (get_set_other _ _ _ _ Hn).
           destruct (Dict.get (Str.lower ct) types); [now left|discriminate].
      * rewrite (get_set_other _ _ _ _ Ht). now left.
  - unfold register. rewrite Ex. destruct reqs; [discriminate|].
    unfold declared_name in Ecn.
    rewrite Ect, Ecn. simpl lower_method. rewrite !bind_ret.
    rewrite (bind_run_raised _ _ _ _ _ (types_of_unknown _ _ Eg)).
    intros H; inversion H; auto.
Qed.

Lemma in_tree_incl dir_path l l' item_path item content :
  (forall x, In x l -> In x l') ->
  in_tree dir_path l item_path item content ->
  in_tree dir_path l' item_path item content.
Proof.
  intros Hincl H. destruct H as [item content Hin|sub sl p i c Hin Hsub].
  - apply in_tree_here. auto.
  - eapply in_tree_below; eauto.
Qed.

(** An invariant of the registration of the files of a tree is an
    invariant of the walk of the tree. *)
Lemma scan_item_kept_in_tree always P e ext it :
  forall dir_path,
    (forall item_path item content,
        in_tree dir_path [it] item_path item content ->
        Str.endswith ext item = true ->
        String.eqb ext ".py" && Str.startswith "__" item = false ->
        triple P (register item_path e content) (kept always P)) ->
    triple P (scan_item dir_path e ext it) (kept always P).
Proof.
  induction it as [item content|item listing IH|item] using entry_tree_ind;
    intros dir_path Hreg.
  - simpl. destruct (Str.endswith ext item) eqn:He; [|apply kept_ret].
    destruct (String.eqb ext ".py" && Str.startswith "__" item) eqn:Hd;
      [apply kept_ret|].
    apply (Hreg _ item content); [|assumption..].
    apply in_tree_here. now left.
  - rewrite scan_item_dir. simpl. apply kept_for_each.
    intros x Hx. rewrite Forall_forall in IH. apply (IH x Hx).
    intros p i c Hin. apply Hreg.
    apply in_tree_below with item listing; [now left|].
    apply in_tree_incl with [x]; [|exact Hin].
    intros y [<-|[]]. exact Hx.
  - apply kept_ret.
Qed.

Lemma scan_directory_kept_in_tree always P e ext dir_path d :
  (forall listing item_path item content,
      d = Some listing ->
      in_tree dir_path listing item_path item content ->
      Str.endswith ext item = true ->
      String.eqb ext ".py" && Str.startswith "__" item = false ->
      triple P (register item_path e content) (kept always P)) ->
  triple P (scan_directory dir_path e ext d) (kept always P).
Proof.
  intros Hreg. destruct d as [listing|]; simpl; [|apply kept_ret].
  apply kept_for_each. intros x Hx. apply scan_item_kept_in_tree.
  intros p i c Hin. apply (Hreg listing); [reflexivity|].
  apply in_tree_incl with [x]; [|exact Hin].
  intros y [<-|[]]. exact Hx.
Qed.

Lemma walk_keeps_index_from fs e d :
  fs_get fs e = Some d ->
  triple (fun s => index_from fs (variations s))
         (scan_directory (Path.join variation_dir e) e (extension_of e) d)
         (kept true (fun s => index_from fs (variations s))).
Proof.
  intros Hfs. apply scan_directory_kept_in_tree.
  intros listing p i c -> Hin He Hd s o s' HP H.
  assert (index_from fs (variations s')) as Hs'.
  { intros e' t' n' info Hl.
    destruct (register_lookups _ _ _ _ _ _ _ _ _ _ H Hl)
      as [Hold|(-> & reqs & ct & cn & Ex & Ect & Ecn & -> & -> & ->)].
    - now apply HP.
    - exists listing, p, i, c, reqs, ct, cn.
      repeat split; try assumption. exists reqs. auto. }
  now destruct o.
Qed.

(** X14. Nothing in the index but templates of the file system.
    However a scan that runs ends, every record of the index is the
    record the scanner makes of a template file found in the tree of the
    engine it is stored under: a file of the engine's extension (not a
    double-underscore Python file) whose metadata declares the chart
    type, stored under the lowercased type and name with the handle of
    that file and its metadata. *)
Theorem index_holds_only_templates_of_the_file_system :
  forall fs force s o s',
    _variations_scanned s = false \/ force = true ->
    scan_variations fs force s = (o, s') ->
    forall e t n info,
      lookup (variations s') e t n = Some info ->
      comes_from fs e t n info.
Proof.
  intros fs force s o s' Hrun H.
  rewrite (scan_variations_run _ _ _ Hrun) in H.
  match type of H with
  | ?m _ = _ =>
      assert (K : triple (fun s => index_from fs (variations s)) m
                         (kept true (fun s => index_from fs (variations s))))
  end.
  { apply kept_bind;
      [exact (walk_keeps_index_from fs "echarts_py" _ eq_refl)|intros _].
    apply kept_bind;
      [exact (walk_keeps_index_from fs "echarts-js" _ eq_refl)|intros _].
    apply kept_bind;
      [exact (walk_keeps_index_from fs "d3-js" _ eq_refl)|intros _].
    apply kept_bind;
      [exact (walk_keeps_index_from fs "vegalite_py" _ eq_refl)|intros _].
    apply kept_bind; [|intros _; apply kept_bind;
                                 [apply kept_get_state|intros; apply kept_ret]].
    intros s0 o0 s0' HP0 H0. inversion H0; subst. exact HP0. }
  assert (Hstart : index_from fs (variations (cleared s))).
  { intros e t n info Hl. exfalso.
    unfold lookup, bucket, cleared in Hl. simpl in Hl.
    unfold variations_get in Hl. simpl in Hl.
    repeat match type of Hl with
           | context [String.eqb ?a ?b] => destruct (String.eqb a b)
           end; discriminate. }
  exact (kept_always (fun s => index_from fs (variations s)) o s'
                     (K (cleared s) o s' Hstart H)).
Qed.

Lemma register_keeps_handles always item_path e content :
  triple (fun s => handles_by_engine (variations s))
         (register item_path e content)
         (kept always (fun s => handles_by_engine (variations s))).
Proof.
  intros s o s' HP H.
  assert (handles_by_engine (variations s')) as Hs'.
  { intros e' t' n' info Hl.
    destruct (register_lookups _ _ _ _ _ _ _ _ _ _ H Hl)
      as [Hold|(-> & reqs & ct & cn & _ & _ & _ & _ & _ & ->)].
    - exact (HP _ _ _ _ Hold).
    - split; [reflexivity|]. now exists item_path. }
  destruct o; simpl; [assumption|now destruct always].
Qed.

Lemma handles_by_engine_empty : handles_by_engine empty_registry.
Proof.
  intros e t n info Hl. exfalso. unfold lookup, bucket in Hl.
  unfold variations_get in Hl. simpl in Hl.
  repeat match type of Hl with
         | context [String.eqb ?a ?b] => destruct (String.eqb a b)
         end; discriminate.
Qed.

(** X15. Which handle a record holds.  In every state the public
    operations can produce, a record stored under an engine is tagged
    with that engine, and its handle is a loaded module exactly when the
    engine is echarts_py: the records of echarts-js, d3-js and also of
    vegalite_py, whose templates are Python files, hold the path of the
    file. *)
Theorem handle_is_a_module_only_for_echarts_py :
  forall s e t n info,
    reachable s ->
    lookup (variations s) e t n = Some info ->
    engine_type info = e /\
    match variation info with
    | PyModule _ _ => e = "echarts_py"
    | FilePath _ => e <> "echarts_py"
    end.
Proof.
  intros s e t n info Hreach Hl.
  assert (Hreg : forall item_path e content,
             keeps (fun s => handles_by_engine (variations s))
                   (register item_path e content))
    by (intros; apply register_keeps_handles).
  assert (Hinv : handles_by_engine (variations s)).
  { clear Hl. induction Hreach as [|s fs force o s' _ IH H
                  |s fs chart_type preference r o s' _ IH H
                  |s fs chart_name o s' _ IH H].
    - apply handles_by_engine_empty.
    - exact (kept_always _ _ _
               (scan_variations_kept handles_by_engine fs force
                  handles_by_engine_empty Hreg s o s' IH H)).
    - exact (kept_always _ _ _
               (by_type_kept handles_by_engine fs chart_type preference r
                  handles_by_engine_empty Hreg s o s' IH H)).
    - exact (kept_always _ _ _
               (by_name_kept handles_by_engine fs chart_name
                  handles_by_engine_empty Hreg s o s' IH H)). }
  destruct (Hinv e t n info Hl) as [He [p Hp]].
  split; [exact He|]. rewrite Hp. unfold handle_of.
  destruct (String.eqb_spec e "echarts_py"); assumption.
Qed.

(** ** The module name of a Python template *)

Lemma prefix_cons a p c s :
  String.prefix (String a p) (String c s)
  = if ascii_dec a c then String.prefix p s else false.
Proof. reflexivity. Qed.

Lemma prefix_py_grows c b :
  String.prefix ".py" (String c b) = false ->
  String.prefix ".py" (String c (String.append b ".py")) = false.
Proof.
  rewrite !prefix_cons. destruct (ascii_dec "." c); [|reflexivity].
  destruct b as [|c2 b2].
  { intros _. cbn [String.append]. rewrite prefix_cons.
    now destruct (ascii_dec "p" "."). }
  cbn [String.append]. rewrite !prefix_cons.
  destruct (ascii_dec "p" c2); [|reflexivity].
  destruct b2 as [|c3 b3].
  { intros _. cbn [String.append]. rewrite prefix_cons.
    now destruct (ascii_dec "y" "."). }
  cbn [String.append]. rewrite !prefix_cons.
  destruct (ascii_dec "y" c3); [|reflexivity].
  destruct b3; discriminate.
Qed.

Lemma remove_py_suffix base :
  Str.contains ".py" base = false ->
  Str.remove ".py" (String.append base ".py") = base.
Proof.
  unfold Str.remove. induction base as [|c base IH].
  - intros _. vm_compute. reflexivity.
  - intros H. cbn [Str.contains] in H. apply orb_false_iff in H as [Hp Hc].
    cbn [String.append Str.remove_from].
    rewrite (prefix_py_grows _ _ Hp). now rewrite IH.
Qed.

(** X16. The module name of a Python template.  For a file [base.py]
    below a directory, where [base] holds no slash and no [.py], the
    module [load_python_variation] loads is named [base]: the file name
    without its extension. *)
Theorem module_name_is_the_file_name_without_py :
  forall dir_path base content s,
    ~ In "/"%char (list_ascii_of_string base) ->
    Str.contains ".py" base = false ->
    exec_module
      (String.append dir_path (String "/" (String.append base ".py")))
      content = true ->
    load_python_variation
      (String.append dir_path (String "/" (String.append base ".py")))
      content s
    = (Ok (PyModule base
             (String.append dir_path
                (String "/" (String.append base ".py")))), s).
Proof.
  intros dir_path base content s Hslash Hpy Hexec.
  unfold load_python_variation. rewrite Hexec.
  unfold Path.basename.
  rewrite split_append, last_append by apply split_nonempty.
  rewrite (split_without "/").
  - cbn [last]. now rewrite (remove_py_suffix _ Hpy).
  - intros H. apply in_string_append in H as [H|H]; [contradiction|].
    simpl in H. destruct H as [H|[H|[H|[]]]]; discriminate.
Qed.

(** ** What the resolver by chart type can answer *)

Lemma prefix_refl s : String.prefix s s = true.
Proof.
  induction s as [|c s IH]; [reflexivity|].
  rewrite prefix_cons. now destruct (ascii_dec c c).
Qed.

Lemma contains_refl s : Str.contains s s = true.
Proof. destruct s as [|c s]; cbn [Str.contains]; now rewrite prefix_refl. Qed.

Lemma related_refl t : related t t = true.
Proof. unfold related. now rewrite contains_refl. Qed.

Lemma pick_cases r names :
  (names = [] /\ pick r names = Ok None) \/
  exists n info,
    Dict.get n names = Some info /\
    pick r names = Ok (Some (engine_type info, variation info)).
Proof.
  destruct names as [|b names].
  - left. split; [reflexivity|apply pick_nil].
  - right. destruct (pick_spec r (b :: names)) as (n & info & _ & Hg & Hp);
      [discriminate|]. now exists n, info.
Qed.

Lemma exact_pass_answer v t r pref :
  (forall e, In e pref -> In e engines) ->
  (exact_pass v t r pref = Ok None) \/
  exists e names n info,
    In e pref /\ bucket v e t = Some names /\
    Dict.get n names = Some info /\
    exact_pass v t r pref = Ok (Some (engine_type info, variation info)).
Proof.
  induction pref as [|e rest IH]; intros Hval; [now left|].
  destruct (engines_variations_get v e (Hval e (or_introl eq_refl)))
    as [types Hget].
  assert (Hrest : forall e', In e' rest -> In e' engines)
    by (intros; apply Hval; now right).
  cbn [exact_pass]. rewrite Hget.
  destruct (Dict.get t types) as [names|] eqn:Hb.
  - destruct (pick_cases r names) as [[-> Hp]|(n & info & Hg & Hp)];
      rewrite Hp.
    + destruct (IH Hrest) as [H|(e' & names' & n & info & Hin & H)];
        [now left|right].
      exists e', names', n, info. split; [now right|exact H].
    + right. exists e, names, n, info. unfold bucket. rewrite Hget.
      repeat split; try assumption. now left.
  - destruct (IH Hrest) as [H|(e' & names' & n & info & Hin & H)];
      [now left|right].
    exists e', names', n, info. split; [now right|exact H].
Qed.

Lemma partial_types_answer t r types :
  (partial_types t r types = Ok None /\
   forall vt names, In (vt, names) types -> related t vt = true ->
                    names = []) \/
  exists vt names n info,
    In (vt, names) types /\ related t vt = true /\
    Dict.get n names = Some info /\
    partial_types t r types = Ok (Some (engine_type info, variation info)).
Proof.
  induction types as [|[vt names] rest IH].
  - left. split; [reflexivity|intros ? ? []].
  - cbn [partial_types]. fold (related t vt).
    destruct (related t vt) eqn:Hrel.
    + destruct (pick_cases r names) as [[-> Hp]|(n & info & Hg & Hp)];
        rewrite Hp.
      * destruct IH as [[H Hall]|(vt' & names' & n & info & Hin & H)].
        -- left. split; [exact H|].
           intros vt' names' [Heq|Hin] Hr;
             [now inversion Heq|exact (Hall _ _ Hin Hr)].
        -- right. exists vt', names', n, info. split; [now right|exact H].
      * right. exists vt, names, n, info.
        repeat split; try assumption. now left.
    + destruct IH as [[H Hall]|(vt' & names' & n & info & Hin & H)].
      * left. split; [exact H|].
        intros vt' names' [Heq|Hin] Hr;
          [inversion Heq; subst; congruence|exact (Hall _ _ Hin Hr)].
      * right. exists vt', names', n, info. split; [now right|exact H].
Qed.

Lemma partial_pass_answer v t r pref :
  (forall e, In e pref -> In e engines) ->
  (partial_pass v t r pref = Ok None /\
   forall e types vt names,
     In e pref -> variations_get v e = Some types ->
     In (vt, names) types -> related t vt = true -> names = []) \/
  exists e types vt names n info,
    In e pref /\ variations_get v e = Some types /\
    In (vt, names) types /\ related t vt = true /\
    Dict.get n names = Some info /\
    partial_pass v t r pref = Ok (Some (engine_type info, variation info)).
Proof.
  induction pref as [|e rest IH]; intros Hval.
  { left. split; [reflexivity|intros ? ? ? ? []]. }
  destruct (engines_variations_get v e (Hval e (or_introl eq_refl)))
    as [types Hget].
  assert (Hrest : forall e', In e' rest -> In e' engines)
    by (intros; apply Hval; now right).
  cbn [partial_pass]. rewrite Hget.
  destruct (partial_types_answer t r types)
    as [[Hp Hall]|(vt & names & n & info & Hin & Hrel & Hg & Hp)];
    rewrite Hp.
  - destruct (IH Hrest)
      as [[H Hall']|(e' & types' & vt & names & n & info & Hin & H)].
    + left. split; [exact H|].
      intros e' types' vt names [<-|Hin] Hget' Hin' Hrel.
      * rewrite Hget in Hget'. inversion Hget'; subst types'.
        exact (Hall _ _ Hin' Hrel).
      * exact (Hall' _ _ _ _ Hin Hget' Hin' Hrel).
    + right. exists e', types', vt, names, n, info.
      split; [now right|exact H].
  - right. exists e, types, vt, names, n, info.
    repeat split; try assumption. now left.
Qed.

(** X18. What the resolver by chart type can answer.  On a scanned state
    the public operations can produce, with a preference list of known
    engines, the call returns and leaves the state as it is.  An answer
    is a record of the index, stored under a listed engine (the engine
    returned) and under a chart type that contains the request or is
    contained in it; the answer is [(None, None)] only when every such
    bucket of the listed engines is empty. *)
Theorem by_type_answers_from_the_index :
  forall fs chart_type preference r s,
    reachable s ->
    _variations_scanned s = true ->
    (forall e, In e (preference_of preference) -> In e engines) ->
    exists res,
      get_variation_for_chart_type fs chart_type preference r s
      = (Ok res, s) /\
      answers_from (variations s) (preference_of preference)
                   (Str.lower chart_type) res.
Proof.
  intros fs chart_type preference r s Hreach Hflag Hval.
  pose proof (proj1 (registry_ok_get _) (reachable_registry_ok _ Hreach))
    as Hok.
  rewrite (by_type_run _ _ _ _ _ Hflag). cbv zeta.
  fold (preference_of preference).
  set (pref := preference_of preference) in *.
  set (t := Str.lower chart_type).
  set (v := variations s) in *.
  assert (Hrecord : forall e types vt names n info,
             In e pref -> variations_get v e = Some types ->
             In (vt, names) types -> related t vt = true ->
             Dict.get n names = Some info ->
             answers_from v pref t (Some (engine_type info, variation info))).
  { intros e types vt names n info Hin Hget Hin' Hrel Hg.
    destruct (Hok _ _ Hget) as [Hnd Hall].
    rewrite Forall_forall in Hall.
    destruct (Hall _ Hin') as [_ [_ Hnames]]. cbn [snd] in Hnames.
    rewrite Forall_forall in Hnames.
    destruct (Hnames _ (get_In _ _ _ Hg)) as [_ Htag]. cbn [snd] in Htag.
    cbn [answers_from]. rewrite Htag. split; [exact Hin|].
    exists vt, n, info. repeat split; try assumption.
    unfold lookup, bucket. rewrite Hget.
    now rewrite (In_get _ _ _ Hnd Hin'). }
  destruct (exact_pass_answer v t r pref Hval)
    as [He|(e & names & n & info & Hin & Hb & Hg & He)]; rewrite He.
  - destruct (partial_pass_answer v t r pref Hval)
      as [[Hp Hall]|(e & types & vt & names & n & info
                     & Hin & Hget & Hin' & Hrel & Hg & Hp)]; rewrite Hp.
    + exists None. split; [reflexivity|].
      intros e vt names Hin Hrel Hb. unfold bucket in Hb.
      destruct (variations_get v e) as [types|] eqn:Hget; [|discriminate].
      exact (Hall _ _ _ _ Hin Hget (get_In _ _ _ Hb) Hrel).
    + eexists. split; [reflexivity|].
      exact (Hrecord _ _ _ _ _ _ Hin Hget Hin' Hrel Hg).
  - eexists. split; [reflexivity|].
    unfold bucket in Hb.
    destruct (variations_get v e) as [types|] eqn:Hget; [|discriminate].
    exact (Hrecord _ _ _ _ _ _ Hin Hget (get_In _ _ _ Hb)
                   (related_refl t) Hg).
Qed.

(** ** Every template is indexed *)

Lemma register_establishes_name item_path e content ct reqs :
  extract_requirements content = Some reqs ->
  Dict.get "chart_type" reqs = Some (JString ct) ->
  triple (fun _ => True) (register item_path e content)
         (kept false
               (fun s => exists cn,
                    declared_name item_path reqs = JString cn /\
                    has_name (variations s) e (Str.lower ct)
                             (Str.lower cn))).
Proof.
  intros Ex Ect s o s' _ H.
  destruct o as [[]|]; [|exact I]. simpl.
  destruct (register_lookup_frame _ _ _ _ _ _ _ Ex Ect H)
    as (cn & Hcn & Hl & _).
  exists cn. split; [exact Hcn|]. unfold has_name. rewrite Hl. discriminate.
Qed.

Lemma register_keeps_declared always item_path e content p reqs e0 t0 :
  triple (fun s => exists cn,
              declared_name p reqs = JString cn /\
              has_name (variations s) e0 t0 (Str.lower cn))
         (register item_path e content)
         (kept always
               (fun s => exists cn,
                    declared_name p reqs = JString cn /\
                    has_name (variations s) e0 t0 (Str.lower cn))).
Proof.
  intros s o s' (cn & Hcn & Hn) H.
  pose proof (register_keeps_has_name always item_path e content e0 t0
                (Str.lower cn) s o s' Hn H) as K.
  destruct o; simpl in *; [now exists cn|].
  destruct always; [now exists cn|exact I].
Qed.

Lemma walk_registers_name e ext ct reqs dir_path listing item_path item
      content :
  in_tree dir_path listing item_path item content ->
  Str.endswith ext item = true ->
  String.eqb ext ".py" && Str.startswith "__" item = false ->
  extract_requirements content = Some reqs ->
  Dict.get "chart_type" reqs = Some (JString ct) ->
  triple (fun _ => True)
         (scan_directory dir_path e ext (Some listing))
         (kept false
               (fun s => exists cn,
                    declared_name item_path reqs = JString cn /\
                    has_name (variations s) e (Str.lower ct)
                             (Str.lower cn))).
Proof.
  intros Hin He Hd Ex Ect. simpl.
  induction Hin as [dir_path listing item content Hin
                   |dir_path listing sub sub_listing item_path item content
                      Hin _ IH].
  - apply for_each_establishes with (x := File item content);
      [assumption| |].
    + simpl. rewrite He, Hd.
      now apply register_establishes_name.
    + intros y. apply scan_item_kept. intros p c.
      apply register_keeps_declared.
  - apply for_each_establishes with (x := Dir sub sub_listing);
      [assumption| |].
    + rewrite scan_item_dir. exact (IH He Hd Ex).
    + intros y. apply scan_item_kept. intros p c.
      apply register_keeps_declared.
Qed.

Lemma lookup_candidates v e t n info :
  lookup v e t n = Some info -> In (n, info) (candidates v).
Proof.
  unfold lookup, bucket. intros H.
  destruct (variations_get v e) as [types|] eqn:Hg; [|discriminate].
  destruct (Dict.get t types) as [names|] eqn:Hb; [|discriminate].
  unfold candidates. apply in_flat_map.
  exists (e, types). split; [now apply registry_items_get|].
  cbn [snd]. apply in_flat_map.
  exists (t, names). split; [now apply get_In|].
  cbn [snd]. now apply get_In.
Qed.

(** A template under the directory of an engine is in the index of
    that engine, under its lowercased type and name, when the scan
    returns. *)
Lemma scan_registers_name fs force s v s' e listing item_path item content
      ct reqs :
  _variations_scanned s = false \/ force = true ->
  scan_variations fs force s = (Ok v, s') ->
  fs_get fs e = Some (Some listing) ->
  in_tree (Path.join variation_dir e) listing item_path item content ->
  Str.endswith (extension_of e) item = true ->
  String.eqb (extension_of e) ".py" && Str.startswith "__" item = false ->
  extract_requirements content = Some reqs ->
  Dict.get "chart_type" reqs = Some (JString ct) ->
  exists cn,
    declared_name item_path reqs = JString cn /\
    has_name v e (Str.lower ct) (Str.lower cn).
Proof.
  intros Hrun H Hfs Hin He Hd Ex Ect.
  apply scan_variations_inv in H
    as (s1 & s2 & s3 & s4 & H1 & H2 & H3 & H4 & -> & _); [|assumption].
  pose (Q := fun s : state =>
               exists cn,
                 declared_name item_path reqs = JString cn /\
                 has_name (variations s) e (Str.lower ct) (Str.lower cn)).
  assert (Hkeep : forall dir_path e' ext d sa sb,
             Q sa -> scan_directory dir_path e' ext d sa = (Ok tt, sb) ->
             Q sb).
  { intros dir_path e' ext d sa sb Ha Hs.
    refine (scan_directory_kept false Q e' ext dir_path d _ sa _ sb Ha Hs).
    intros. apply register_keeps_declared. }
  assert (Hest : forall sa sb,
             scan_directory (Path.join variation_dir e) e (extension_of e)
                            (Some listing) sa = (Ok tt, sb) -> Q sb).
  { intros sa sb Hs.
    exact (walk_registers_name e (extension_of e) ct reqs _ _ _ _ _
                               Hin He Hd Ex Ect sa _ sb I Hs). }
  change (Q s4). unfold fs_get in Hfs.
  repeat match type of Hfs with
         | context [String.eqb ?a ?b] =>
             destruct (String.eqb_spec a b); subst
         end; inversion Hfs as [Hdir]; rewrite Hdir in *; eauto.
Qed.

(** On a scanned state, a query whose lowercase form is a chart name of
    the index is answered by the first loop, with the first record
    stored under that name. *)
Lemma by_name_of_lookup fs chart_name s e t info :
  _variations_scanned s = true ->
  lookup (variations s) e t (Str.lower chart_name) = Some info ->
  exists c,
    In c (candidates (variations s)) /\
    fst c = Str.lower chart_name /\
    get_variation_for_chart_name fs chart_name s = (Ok (result_of c), s).
Proof.
  intros Hflag Hl. apply lookup_candidates in Hl.
  rewrite (by_name_run _ _ _ Hflag), exact_name_pass_find.
  destruct (find (fun binding =>
                    String.eqb (Str.lower chart_name) (fst binding))
                 (candidates (variations s))) as [c|] eqn:Hf.
  - apply find_some in Hf as [Hin Heq]. apply String.eqb_eq in Heq.
    exists c. repeat split; [exact Hin|now symmetry].
  - exfalso. pose proof (find_none _ _ Hf _ Hl) as K. cbn [fst] in K.
    now rewrite String.eqb_refl in K.
Qed.

(** X19. Every template is indexed.  When a scan that runs returns, a
    template file anywhere in the tree of one of the four engines has a
    string for chart name, and the index of that engine holds a record
    under the lowercased type and name of the file (its own, or that of
    a file of the same type and name scanned after it); a later call of
    [get_variation_for_chart_name] with the name of the file returns a
    record. *)
Theorem every_template_is_indexed :
  forall fs force s v s' e listing item_path item content ct,
    _variations_scanned s = false \/ force = true ->
    scan_variations fs force s = (Ok v, s') ->
    fs_get fs e = Some (Some listing) ->
    in_tree (Path.join variation_dir e) listing item_path item content ->
    template (extension_of e) item content ct ->
    exists reqs cn,
      extract_requirements content = Some reqs /\
      declared_name item_path reqs = JString cn /\
      has_name v e (Str.lower ct) (Str.lower cn) /\
      forall fs', exists found,
        get_variation_for_chart_name fs' cn s' = (Ok (Some found), s').
Proof.
  intros fs force s v s' e listing item_path item content ct
         Hrun H Hfs Hin (He & Hd & reqs & Ex & Ect).
  destruct (scan_variations_sets_flag _ _ _ _ _ H) as [Hflag Hv].
  destruct (scan_registers_name _ _ _ _ _ _ _ _ _ _ _ _
                                Hrun H Hfs Hin He Hd Ex Ect)
    as (cn & Hcn & Hname).
  exists reqs, cn. repeat split; try assumption.
  intros fs'. unfold has_name in Hname. subst v.
  destruct (lookup (variations s') e (Str.lower ct) (Str.lower cn))
    as [info|] eqn:Hl; [|congruence].
  destruct (by_name_of_lookup fs' cn s' e _ info Hflag Hl)
    as (c & _ & _ & Hres).
  exists (engine_type (snd c), variation (snd c)). exact Hres.
Qed.

(** ** Lowercase keys and case insensitivity *)


End Registry.

(** ** The claims on the fixtures *)

Local Abbreviation fx_scan :=
  (scan_variations Fixture.dir Fixture.search Fixture.loads Fixture.exec).
Local Abbreviation fx_by_type :=
  (get_variation_for_chart_type Fixture.dir Fixture.search Fixture.loads
                                Fixture.exec).
Local Abbreviation fx_by_name :=
  (get_variation_for_chart_name Fixture.dir Fixture.search Fixture.loads
                                Fixture.exec).
Local Abbreviation fx_scanned fs := (snd (fx_scan fs false initial_state)).

(** After a scan of one tree, an unforced scan of another tree returns
    what the first returned. *)
Lemma scan_variations_memoized_witness :
  fx_scan Fixture.vegalite_only false
          (snd (fx_scan Fixture.bars false initial_state))
  = fx_scan Fixture.bars false initial_state.
Proof.
  pose proof (scan_variations_memoized Fixture.dir Fixture.search
                Fixture.loads Fixture.exec) as [_ Htwice].
  destruct (fx_scan Fixture.bars false initial_state) as [o s1] eqn:Hrun.
  assert (Hok : exists v, o = Ok v) by (vm_compute in Hrun; inversion Hrun; eauto).
  destruct Hok as [v ->].
  exact (proj2 (Htwice _ _ _ _ _ Hrun) Fixture.vegalite_only).
Defined.

(** The scan with and without a file that has only a [chart_name]. *)
Lemma file_without_chart_type_witness :
  fx_scan Fixture.dotted true initial_state
  = fx_scan Fixture.dotted_without_notes true initial_state.
Proof.
  refine (proj2 (proj2 (file_without_chart_type_is_skipped
                          Fixture.dir Fixture.search Fixture.loads
                          Fixture.exec))
                Fixture.dotted "echarts-js" _ _ true initial_state
                eq_refl _).
  apply (without_here Fixture.search Fixture.loads
           [File "bar_basic.js" "chart_type=bar";
            File "bar.basic.js" "chart_type=bar"] "notes.js"
           "chart_name=notes" []).
  exists [("chart_name", JString "notes")]. split; reflexivity.
Defined.

(** The d3-js directory is missing: the scan ends as with an empty one. *)
Lemma missing_directory_witness :
  fx_scan Fixture.bars true initial_state
  = fx_scan (fs_put Fixture.bars "d3-js" (Some [])) true initial_state
  /\ variations_get
       (variations (snd (fx_scan Fixture.bars true initial_state))) "d3-js"
     = Some [].
Proof.
  destruct (missing_directory_contributes_nothing
              Fixture.dir Fixture.search Fixture.loads Fixture.exec
              Fixture.bars "d3-js" eq_refl) as (_ & Hsame & Hempty).
  split.
  - apply Hsame.
  - destruct (fx_scan Fixture.bars true initial_state) as [o s'] eqn:Hrun.
    exact (Hempty true initial_state o s' (or_intror eq_refl) Hrun).
Defined.

(** The second loop would answer from echarts-js; the first loop answers
    from d3-js, which has the type itself. *)
Lemma exact_match_witness :
  partial_pass (variations (fx_scanned Fixture.longer_first)) "bar" 1
               default_preference
  = Ok (Some ("echarts-js", FilePath "/variation/echarts-js/wide.js"))
  /\ runs_partial_pass (variations (fx_scanned Fixture.longer_first)) "bar" 1
                       default_preference = false
  /\ fx_by_type Fixture.bars "BAR" None 1 (fx_scanned Fixture.longer_first)
     = (Ok (Some ("d3-js", FilePath "/variation/d3-js/stacked.js")),
        fx_scanned Fixture.longer_first).
Proof.
  edestruct (exact_match_precedes_partial_match
               Fixture.dir Fixture.search Fixture.loads Fixture.exec
               Fixture.bars "BAR" None ["echarts_py"; "echarts-js"] "d3-js" []
               1 (fx_scanned Fixture.longer_first))
    as (n & info & Hn & Hg & _ & Hnp & Hres).
  - reflexivity.
  - reflexivity.
  - intros e' [<-|[<-|[]]]; eexists; (split; [reflexivity|left; reflexivity]).
  - vm_compute. reflexivity.
  - discriminate.
  - vm_compute in Hn. inversion Hn; subst n.
    vm_compute in Hg. inversion Hg; subst info.
    split; [vm_compute; reflexivity|split; [exact Hnp|exact Hres]].
Defined.

(** C1 fails for a type that only a vegalite_py template declares: the
    scan indexes the file, the resolver does not find it. *)
Lemma vegalite_template_is_not_resolved :
  has_type (variations (snd (fx_scan Fixture.vegalite_only false
                                     initial_state)))
           "vegalite_py" "pie"
  /\ fx_by_type Fixture.vegalite_only "pie" None 0
                (snd (fx_scan Fixture.vegalite_only false initial_state))
     = (Ok None, snd (fx_scan Fixture.vegalite_only false initial_state)).
Proof.
  split.
  - eexists. split; [vm_compute; reflexivity|discriminate].
  - vm_compute. reflexivity.
Qed.

(** The end-to-end example: draw [1] selects the second chart name. *)
Lemma resolve_by_type_after_scan_witness :
  fx_by_type Fixture.vegalite_only "bar" None 1
             (snd (fx_scan Fixture.bars false initial_state))
  = (Ok (Some ("echarts_py",
               PyModule "bar_stacked" "/variation/echarts_py/bar_stacked.py")),
     snd (fx_scan Fixture.bars false initial_state)).
Proof.
  set (s1 := snd (fx_scan Fixture.bars false initial_state)).
  assert (Hscan : fx_scan Fixture.bars false initial_state
                  = (Ok (variations s1), s1)) by (vm_compute; reflexivity).
  destruct (resolve_by_type_after_scan
              Fixture.dir Fixture.search Fixture.loads Fixture.exec
              Fixture.bars false initial_state (variations s1) s1
              "echarts_py"
              [File "bar_basic.py" "chart_type=bar;chart_name=basic_bar";
               File "bar_stacked.py" "chart_type=bar;chart_name=stacked_bar"]
              (Path.join (Path.join Fixture.dir "echarts_py") "bar_basic.py")
              "bar_basic.py" "chart_type=bar;chart_name=basic_bar" "bar"
              (or_introl eq_refl) Hscan (or_introl eq_refl) eq_refl)
    as (e' & names & Hfirst & _ & _ & _ & Hdraw).
  - apply in_tree_here. now left.
  - split; [reflexivity|split; [reflexivity|]].
    eexists. split; reflexivity.
  - vm_compute in Hfirst. inversion Hfirst; subst e' names.
    destruct (Hdraw Fixture.vegalite_only 1) as (n & info & Hnth & _ & Hres).
    vm_compute in Hnth. inversion Hnth; subst n info.
    exact Hres.
Defined.

(** C2 fails when a default engine has a chart type that contains the
    requested one: the partial pass answers with it. *)
Lemma vegalite_only_type_resolved_by_partial_match :
  registered_types
    (variations (snd (fx_scan Fixture.vegalite_and_longer false
                              initial_state))) "vegalite_py" = ["bar"]
  /\ registered_types
       (variations (snd (fx_scan Fixture.vegalite_and_longer false
                                 initial_state))) "echarts-js" = ["barchart"]
  /\ fx_by_type Fixture.vegalite_and_longer "bar" None 0
                (snd (fx_scan Fixture.vegalite_and_longer false initial_state))
     = (Ok (Some ("echarts-js",
                  FilePath "/variation/echarts-js/barchart.js")),
        snd (fx_scan Fixture.vegalite_and_longer false initial_state)).
Proof. repeat split; vm_compute; reflexivity. Qed.

(** A type of vegalite_py alone, nothing like it elsewhere. *)
Lemma vegalite_only_type_witness :
  fx_by_type Fixture.bars "PIE" None 0
             (snd (fx_scan Fixture.vegalite_only false initial_state))
  = (Ok None, snd (fx_scan Fixture.vegalite_only false initial_state)).
Proof.
  refine (proj2 (vegalite_only_type_is_not_found
                   Fixture.dir Fixture.search Fixture.loads Fixture.exec
                   Fixture.bars "PIE" 0
                   (snd (fx_scan Fixture.vegalite_only false initial_state))
                   eq_refl _ _ _)).
  - vm_compute. now left.
  - intros e [<-|[<-|[<-|[]]]]; vm_compute; tauto.
  - intros e vt [<-|[<-|[<-|[]]]]; vm_compute; tauto.
Defined.

(** C3 fails for a query that shares no character with any registered
    chart name: two names are registered and the call finds nothing. *)
Lemma by_name_without_overlap_is_not_found :
  map fst (candidates (variations (fx_scanned Fixture.radar_and_barchart)))
  = ["radar"; "barchart"]
  /\ fx_by_name Fixture.bars "xyz" (fx_scanned Fixture.radar_and_barchart)
     = (Ok None, fx_scanned Fixture.radar_and_barchart).
Proof. split; vm_compute; reflexivity. Qed.

(** No overlap: nothing found.  Some overlap: a best candidate. *)
Lemma by_name_overlap_witness :
  fx_by_name Fixture.bars "xyz" (fx_scanned Fixture.radar_and_barchart)
  = (Ok None, fx_scanned Fixture.radar_and_barchart)
  /\ exists best,
      In best (candidates (variations (fx_scanned Fixture.radar_and_barchart)))
      /\ (forall c,
             In c (candidates
                     (variations (fx_scanned Fixture.radar_and_barchart))) ->
             Str.overlap "bar" (fst c) <= Str.overlap "bar" (fst best))
      /\ fx_by_name Fixture.bars "Bar" (fx_scanned Fixture.radar_and_barchart)
         = (Ok (result_of best), fx_scanned Fixture.radar_and_barchart).
Proof.
  split.
  - refine (proj1 (by_name_finds_a_candidate_that_overlaps
                     Fixture.dir Fixture.search Fixture.loads Fixture.exec
                     Fixture.bars "xyz" (fx_scanned Fixture.radar_and_barchart)
                     eq_refl _) _).
    + intros c Hc. vm_compute in Hc.
      destruct Hc as [<-|[<-|[]]]; discriminate.
    + intros c Hc. vm_compute in Hc.
      destruct Hc as [<-|[<-|[]]]; reflexivity.
  - refine (proj2 (by_name_finds_a_candidate_that_overlaps
                     Fixture.dir Fixture.search Fixture.loads Fixture.exec
                     Fixture.bars "Bar" (fx_scanned Fixture.radar_and_barchart)
                     eq_refl _) _).
    + intros c Hc. vm_compute in Hc.
      destruct Hc as [<-|[<-|[]]]; discriminate.
    + eexists. split; [vm_compute; left; reflexivity|vm_compute; lia].
Defined.

(** C4 fails when every candidate scores zero: the two candidates tie,
    none scores strictly more than the other, and the candidate met
    first is not kept; the call finds nothing. *)
Lemma tie_at_zero_keeps_no_candidate :
  map fst (candidates (variations (fx_scanned Fixture.tied)))
  = ["bar_a"; "bar_b"]
  /\ Str.overlap "xyz" "bar_a" = 0
  /\ Str.overlap "xyz" "bar_b" = 0
  /\ fx_by_name Fixture.bars "xyz" (fx_scanned Fixture.tied)
     = (Ok None, fx_scanned Fixture.tied).
Proof. repeat split; vm_compute; reflexivity. Qed.

(** The overlap example with the query in capitals, and a tie above
    zero kept by the candidate met first. *)
Lemma similarity_pass_witness :
  Str.overlap "bar" "barchart" = 3
  /\ Str.overlap "bar" "radar" = 2
  /\ fx_by_name Fixture.bars "BAR" (fx_scanned Fixture.radar_and_barchart)
     = (Ok (Some ("d3-js", FilePath "/variation/d3-js/barchart.js")),
        fx_scanned Fixture.radar_and_barchart)
  /\ Str.overlap "bar" "bar_a" = Str.overlap "bar" "bar_b"
  /\ fx_by_name Fixture.bars "Bar" (fx_scanned Fixture.tied)
     = (Ok (Some ("echarts-js", FilePath "/variation/echarts-js/bar_a.js")),
        fx_scanned Fixture.tied).
Proof.
  split; [reflexivity|]. split; [reflexivity|]. split; [|split].
  - destruct (similarity_pass_keeps_first_greatest_overlap
                Fixture.dir Fixture.search Fixture.loads Fixture.exec
                Fixture.bars "BAR" (fx_scanned Fixture.radar_and_barchart)
                eq_refl)
      as [_ [[Hzero _]|(before & c & after & Hsplit & _ & Hb & Ha & Hres)]].
    + intros c Hc. vm_compute in Hc.
      destruct Hc as [<-|[<-|[]]]; discriminate.
    + exfalso. vm_compute in Hzero.
      inversion Hzero as [|? ? Hx]. discriminate.
    + rewrite Hres. clear Hres. vm_compute in Hsplit.
      destruct before as [|b0 before]; simpl in Hsplit.
      * exfalso. inversion Hsplit; subst c after.
        inversion Ha as [|? ? Hx]. vm_compute in Hx. lia.
      * inversion Hsplit as [[Hb0 Hrest]]. subst b0.
        destruct before as [|b1 before]; simpl in Hrest.
        -- inversion Hrest; subst c after. reflexivity.
        -- exfalso. inversion Hrest as [[Hb1 Htail]].
           destruct before; discriminate.
  - reflexivity.
  - destruct (similarity_pass_keeps_first_greatest_overlap
                Fixture.dir Fixture.search Fixture.loads Fixture.exec
                Fixture.bars "Bar" (fx_scanned Fixture.tied) eq_refl)
      as [_ [[Hzero _]|(before & c & after & Hsplit & _ & Hb & Ha & Hres)]].
    + intros c Hc. vm_compute in Hc.
      destruct Hc as [<-|[<-|[]]]; discriminate.
    + exfalso. vm_compute in Hzero.
      inversion Hzero as [|? ? Hx]. discriminate.
    + rewrite Hres. clear Hres. vm_compute in Hsplit.
      destruct before as [|b0 before]; simpl in Hsplit.
      * inversion Hsplit; subst c after. reflexivity.
      * exfalso. inversion Hsplit as [[Hb0 Hrest]]. subst b0.
        destruct before as [|b1 before]; simpl in Hrest.
        -- inversion Hrest; subst c after.
           inversion Hb as [|? ? Hx]. vm_compute in Hx. lia.
        -- inversion Hrest as [[Hb1 Htail]].
           destruct before; discriminate.
Defined.


(** C6, where the code departs from it.  A file without [chart_name]
    registers under what precedes the first dot of its name:
    [bar_basic.js] registers as [bar_basic], but [bar.basic.js] registers
    as [bar], not as [bar.basic], the base name without its extension. *)
Theorem default_chart_name_stops_at_first_dot :
  default_chart_name (Path.join "/variation/echarts-js" "bar_basic.js")
  = "bar_basic"
  /\ default_chart_name (Path.join "/variation/echarts-js" "bar.basic.js")
     = "bar"
  /\ option_map
       (map (fun binding => (fst binding, variation (snd binding))))
       (bucket (variations (snd (fx_scan Fixture.dotted false initial_state)))
               "echarts-js" "bar")
     = Some [("bar_basic", FilePath "/variation/echarts-js/bar_basic.js");
             ("bar", FilePath "/variation/echarts-js/bar.basic.js")].
Proof. repeat split; vm_compute; reflexivity. Qed.

(** ** The metadata block *)

Lemma append_assoc a b c :
  String.append (String.append a b) c = String.append a (String.append b c).
Proof. induction a as [|x a IH]; simpl; [reflexivity|now rewrite IH]. Qed.

Lemma prefix_append p r : String.prefix p (String.append p r) = true.
Proof.
  induction p as [|a p IH]; simpl; [now destruct r|].
  destruct (ascii_dec a a); [exact IH|congruence].
Qed.

Lemma prefix_split p s :
  String.prefix p s = true ->
  s = String.append p (Pattern.drop (String.length p) s).
Proof.
  revert s. induction p as [|a p IH]; intros s; [reflexivity|].
  destruct s as [|c s]; [discriminate|]. cbn [String.prefix].
  destruct (ascii_dec a c) as [->|]; [|discriminate].
  intros H. simpl. now rewrite <- IH.
Qed.

Lemma drop_append p r : Pattern.drop (String.length p) (String.append p r) = r.
Proof. induction p as [|a p IH]; simpl; [reflexivity|exact IH]. Qed.

Lemma skip_spaces_split s :
  exists w, Pattern.all_space w = true /\
            s = String.append w (Pattern.skip_spaces s).
Proof.
  induction s as [|c s IH]; simpl.
  - exists EmptyString. auto.
  - destruct (Pattern.is_space c) eqn:E.
    + destruct IH as (w & Hw & Hs). exists (String c w). simpl.
      rewrite E, Hw. split; [reflexivity|]. now rewrite <- Hs.
    + exists EmptyString. auto.
Qed.

Lemma skip_spaces_append w c r :
  Pattern.all_space w = true -> Pattern.is_space c = false ->
  Pattern.skip_spaces (String.append w (String c r)) = String c r.
Proof.
  intros Hw Hc. induction w as [|x w IH]; simpl in *.
  - now rewrite Hc.
  - apply andb_true_iff in Hw as [Hx Hw]. rewrite Hx. auto.
Qed.

Lemma lazy_close_sound s g :
  Pattern.lazy_close s = Some g ->
  exists body w after,
    Pattern.all_space w = true /\
    g = String.append body "}" /\
    s = String.append body
          (String "}" (String.append w
                         (String.append Pattern.end_marker after))).
Proof.
  revert g. induction s as [|c s IH]; intros g; simpl; [discriminate|].
  destruct (Ascii.eqb c "}" && String.prefix Pattern.end_marker
                                             (Pattern.skip_spaces s)) eqn:E.
  - intros H; inversion H; subst g.
    apply andb_true_iff in E as [Hc Hp]. apply Ascii.eqb_eq in Hc. subst c.
    destruct (skip_spaces_split s) as (w & Hw & Hs).
    exists EmptyString, w, (Pattern.drop (String.length Pattern.end_marker)
                                         (Pattern.skip_spaces s)).
    split; [exact Hw|]. split; [reflexivity|].
    pose proof (prefix_split _ _ Hp) as Hk.
    rewrite Hs at 1. rewrite Hk at 1. reflexivity.
  - destruct (Pattern.lazy_close s) as [g'|]; [|discriminate].
    intros H; inversion H; subst g.
    destruct (IH g' eq_refl) as (body & w & after & Hw & -> & ->).
    exists (String c body), w, after. auto.
Qed.

Lemma lazy_close_complete body w after :
  Pattern.all_space w = true ->
  Pattern.lazy_close
    (String.append body
       (String "}" (String.append w
                      (String.append Pattern.end_marker after))))
  <> None.
Proof.
  intros Hw.
  assert (Hskip : Pattern.skip_spaces
                    (String.append w (String.append Pattern.end_marker after))
                  = String.append Pattern.end_marker after)
    by exact (skip_spaces_append w "R" _ Hw eq_refl).
  pose proof (prefix_append Pattern.end_marker after) as Hpre.
  remember (String.append Pattern.end_marker after) as tail.
  induction body as [|c body IH]; simpl.
  - rewrite Hskip, Hpre. discriminate.
  - destruct (Ascii.eqb c "}" && _); [discriminate|].
    destruct (Pattern.lazy_close _); [discriminate|contradiction].
Qed.

Lemma match_here_sound s g :
  Pattern.match_here s = Some g -> Pattern.block s g.
Proof.
  unfold Pattern.match_here.
  destruct (String.prefix Pattern.begin_marker s) eqn:Hp; [|discriminate].
  destruct (skip_spaces_split
              (Pattern.drop (String.length Pattern.begin_marker) s))
    as (w1 & Hw1 & Hs).
  destruct (Pattern.skip_spaces _) as [|c rest]; [discriminate|].
  destruct (Ascii.eqb_spec c "{") as [->|]; [|discriminate].
  destruct (Pattern.lazy_close rest) as [g'|] eqn:Hl; [|discriminate].
  intros H; inversion H; subst g.
  destruct (lazy_close_sound _ _ Hl) as (body & w2 & after & Hw2 & -> & ->).
  exists EmptyString, w1, body, w2, after.
  split; [exact Hw1|]. split; [exact Hw2|]. split; [reflexivity|].
  pose proof (prefix_split _ _ Hp) as Hk. rewrite Hs in Hk. exact Hk.
Qed.

Lemma search_sound s g : Pattern.search s = Some g -> Pattern.block s g.
Proof.
  induction s as [|c s IH]; simpl.
  - apply match_here_sound.
  - destruct (Pattern.match_here (String c s)) as [g'|] eqn:E.
    + intros H; inversion H; subst g'. exact (match_here_sound _ _ E).
    + intros H. destruct (IH H)
        as (before & w1 & body & w2 & after & Hw1 & Hw2 & Hg & ->).
      exists (String c before), w1, body, w2, after. auto.
Qed.

Lemma match_here_complete w1 body w2 after :
  Pattern.all_space w1 = true -> Pattern.all_space w2 = true ->
  Pattern.match_here
    (String.append Pattern.begin_marker
       (String.append w1
          (String "{"
             (String.append body
                (String "}"
                   (String.append w2
                      (String.append Pattern.end_marker after)))))))
  <> None.
Proof.
  intros Hw1 Hw2. unfold Pattern.match_here.
  rewrite prefix_append, drop_append.
  rewrite (skip_spaces_append w1 "{" _ Hw1 eq_refl), Ascii.eqb_refl.
  pose proof (lazy_close_complete body w2 after Hw2) as H.
  destruct (Pattern.lazy_close _); [simpl; discriminate|contradiction].
Qed.

Lemma search_complete before t :
  Pattern.match_here t <> None ->
  Pattern.search (String.append before t) <> None.
Proof.
  intros H. induction before as [|c before IH]; simpl.
  - destruct t as [|c t]; [exact H|]. cbn [Pattern.search].
    destruct (Pattern.match_here (String c t)); [exact H|congruence].
  - destruct (Pattern.match_here (String c (String.append before t)));
      [intros K; discriminate K|exact IH].
Qed.

(** X17. Finding the metadata block.  On ASCII text the pattern finds a
    group exactly when the text holds, at some place, the begin marker,
    white space, a text in braces, white space and the end marker; the
    group it returns is such a text in braces, braces included.  So
    [extract_requirements] returns metadata only for a file that holds
    such a block, and then what [json.loads] makes of the text in
    braces. *)
Theorem metadata_block_is_found :
  forall (json_loads : string -> option requirements_dict),
    (forall s, Pattern.search s <> None <-> Pattern.has_block s) /\
    (forall s g, Pattern.search s = Some g -> Pattern.block s g) /\
    (forall content reqs,
        extract_requirements Pattern.search json_loads content = Some reqs ->
        exists g, Pattern.block content g /\ json_loads g = Some reqs) /\
    (forall content,
        ~ Pattern.has_block content ->
        extract_requirements Pattern.search json_loads content = None).
Proof.
  intros json_loads.
  assert (Hiff : forall s, Pattern.search s <> None <-> Pattern.has_block s).
  { intros s. split.
    - destruct (Pattern.search s) as [g|] eqn:E; [|congruence].
      intros _. exists g. now apply search_sound.
    - intros (g & before & w1 & body & w2 & after & Hw1 & Hw2 & _ & ->).
      apply search_complete. now apply match_here_complete. }
  split; [exact Hiff|]. split; [exact search_sound|]. split.
  - intros content reqs. unfold extract_requirements.
    destruct (Pattern.search content) as [g|] eqn:E; [|discriminate].
    destruct (json_loads g) as [r|] eqn:El; [|discriminate].
    intros H; inversion H; subst r. exists g. split; [|exact El].
    now apply search_sound.
  - intros content Hno. unfold extract_requirements.
    destruct (Pattern.search content) as [g|] eqn:E; [|reflexivity].
    exfalso. apply Hno, Hiff. congruence.
Qed.

(** A file with text around the block and a line break inside it. *)
Lemma metadata_block_witness :
  Pattern.block
    (String.append "# REQUIREMENTS_BEGIN"
       (String "010"%char "{chart_type=bar}  REQUIREMENTS_END #"))
    "{chart_type=bar}"
  /\ extract_requirements Pattern.search Fixture.loads
       "no block here: REQUIREMENTS_BEGIN chart_type=bar REQUIREMENTS_END"
     = None.
Proof.
  destruct (metadata_block_is_found Fixture.loads)
    as (Hiff & Hsound & _ & Hnone).
  split.
  - apply Hsound. vm_compute. reflexivity.
  - apply Hnone. intros Hb. apply Hiff in Hb. apply Hb.
    vm_compute. reflexivity.
Defined.

(** ** The further properties on the fixtures *)

Local Abbreviation fx_register :=
  (register Fixture.search Fixture.loads Fixture.exec).
Local Abbreviation fx_directory :=
  (scan_directory Fixture.search Fixture.loads Fixture.exec).
Local Abbreviation fy_directory :=
  (scan_directory Fixture.search Faulty.loads Faulty.exec).
Local Abbreviation fy_scan :=
  (scan_variations Fixture.dir Fixture.search Faulty.loads Faulty.exec).

(** A d3-js file with capitals in its type and no chart name. *)
Lemma register_then_lookup_witness :
  lookup (variations (snd (fx_register "/variation/d3-js/Bar.Chart.js"
                                       "d3-js" "chart_type=Bar"
                                       initial_state)))
         "d3-js" "bar" "bar"
  = Some (mk_info "d3-js" (FilePath "/variation/d3-js/Bar.Chart.js")
                  [("chart_type", JString "Bar")]).
Proof.
  destruct (register_then_lookup
              Fixture.search Fixture.loads Fixture.exec
              "/variation/d3-js/Bar.Chart.js" "d3-js" "chart_type=Bar"
              initial_state
              (snd (fx_register "/variation/d3-js/Bar.Chart.js" "d3-js"
                                "chart_type=Bar" initial_state))
              [("chart_type", JString "Bar")] "Bar")
    as (cn & Hcn & Hl & _).
  - reflexivity.
  - reflexivity.
  - vm_compute. reflexivity.
  - vm_compute in Hcn. inversion Hcn; subst cn. exact Hl.
Defined.

(** Two files of one directory declare the same type and name, up to
    case: the record is the one of the second file. *)
Lemma last_file_witness :
  lookup (variations
            (snd (fx_directory "/variation/echarts-js" "echarts-js" ".js"
                    (Some [File "a.js" "chart_type=bar;chart_name=x";
                           File "b.js" "chart_type=Bar;chart_name=X"])
                    initial_state)))
         "echarts-js" "bar" "x"
  = Some (mk_info "echarts-js" (FilePath "/variation/echarts-js/b.js")
                  [("chart_type", JString "Bar");
                   ("chart_name", JString "X")]).
Proof.
  destruct (last_file_of_a_listing_wins
              Fixture.search Fixture.loads Fixture.exec
              "/variation/echarts-js" "echarts-js" ".js"
              [File "a.js" "chart_type=bar;chart_name=x"]
              "b.js" "chart_type=Bar;chart_name=X" "Bar" initial_state
              (snd (fx_directory "/variation/echarts-js" "echarts-js" ".js"
                      (Some [File "a.js" "chart_type=bar;chart_name=x";
                             File "b.js" "chart_type=Bar;chart_name=X"])
                      initial_state)))
    as (reqs & cn & Hreqs & Hcn & Hl).
  - split; [reflexivity|split; [reflexivity|]].
    eexists. split; reflexivity.
  - vm_compute. reflexivity.
  - vm_compute in Hreqs. inversion Hreqs; subst reqs.
    vm_compute in Hcn. inversion Hcn; subst cn. exact Hl.
Defined.

(** The walk stops at the file with the number: the first file is in
    the index, the last one is not. *)
Lemma non_string_metadata_witness :
  fy_directory "/variation/echarts-js" "echarts-js" ".js"
               (Some Faulty.number_between) initial_state
  = (Raised AttributeError,
     snd (fy_directory "/variation/echarts-js" "echarts-js" ".js"
                       (Some [File "first.js" "chart_type=bar"])
                       initial_state)).
Proof.
  apply (non_string_metadata_aborts_the_walk
           Fixture.search Faulty.loads Faulty.exec
           "/variation/echarts-js" "echarts-js" ".js"
           [File "first.js" "chart_type=bar"] "three.js" "chart_type:3"
           [File "last.js" "chart_type=line"] initial_state).
  - reflexivity.
  - reflexivity.
  - exists [("chart_type", JNumber "3")], (JNumber "3").
    split; [reflexivity|split; [reflexivity|left; reflexivity]].
  - vm_compute. reflexivity.
Defined.

(** The walk of the d3-js directory leaves the echarts-js dictionary of
    a scanned state alone. *)
Lemma walk_touches_one_engine_witness :
  variations_get
    (variations
       (snd (fx_directory "/variation/d3-js" "d3-js" ".js"
                          (Some [File "pie.js" "chart_type=pie"])
                          (fx_scanned Fixture.tied))))
    "echarts-js"
  = variations_get (variations (fx_scanned Fixture.tied)) "echarts-js".
Proof.
  destruct (fx_directory "/variation/d3-js" "d3-js" ".js"
                         (Some [File "pie.js" "chart_type=pie"])
                         (fx_scanned Fixture.tied)) as [o s'] eqn:Hrun.
  destruct (walk_touches_one_engine
              Fixture.search Fixture.loads Fixture.exec _ _ _ _ _ _ _ Hrun)
    as [_ Hother].
  apply Hother. discriminate.
Defined.

(** A forced rescan of a scanned state raises at the file with the
    number: the flag stays set, and the resolvers go on answering from
    the index the scan left, whatever the file system holds. *)
Lemma raising_scan_witness :
  _variations_scanned
    (snd (fy_scan Faulty.with_number true (fx_scanned Fixture.tied)))
  = true
  /\ get_variation_for_chart_type
       Fixture.dir Fixture.search Faulty.loads Faulty.exec
       Fixture.bars "line" None 0
       (snd (fy_scan Faulty.with_number true (fx_scanned Fixture.tied)))
     = get_variation_for_chart_type
         Fixture.dir Fixture.search Faulty.loads Faulty.exec
         Fixture.tied "line" None 0
         (snd (fy_scan Faulty.with_number true (fx_scanned Fixture.tied))).
Proof.
  destruct (raising_scan_leaves_the_flag
              Fixture.dir Fixture.search Faulty.loads Faulty.exec
              Faulty.with_number true (fx_scanned Fixture.tied)
              AttributeError
              (snd (fy_scan Faulty.with_number true
                            (fx_scanned Fixture.tied))))
    as [Hflag Hsame].
  - vm_compute. reflexivity.
  - split.
    + rewrite Hflag. reflexivity.
    + exact (proj1 (Hsame eq_refl Fixture.bars Fixture.tied "line" None 0)).
Defined.

(** The template that raises leaves the empty bucket of its type. *)
Lemma failing_module_witness :
  bucket (variations
            (snd (register Fixture.search Fixture.loads Faulty.exec
                           "/variation/echarts_py/boom.py" "echarts_py"
                           "chart_type=pie;chart_name=raises"
                           initial_state)))
         "echarts_py" "pie"
  = Some [].
Proof.
  destruct (failing_module_leaves_an_empty_bucket
              Fixture.search Fixture.loads Faulty.exec
              "/variation/echarts_py/boom.py"
              "chart_type=pie;chart_name=raises" initial_state
              [("chart_type", JString "pie");
               ("chart_name", JString "raises")] "pie" "raises"
              eq_refl eq_refl eq_refl eq_refl eq_refl)
    as (s' & Hrun & Hbucket & _).
  rewrite Hrun. exact Hbucket.
Defined.

(** On a scanned state the resolvers leave the state as it is. *)
Lemma resolvers_scan_on_first_use_witness :
  snd (fx_by_type Fixture.vegalite_only "bar" None 0
                  (fx_scanned Fixture.bars))
  = fx_scanned Fixture.bars
  /\ snd (fx_by_name Fixture.vegalite_only "bar" (fx_scanned Fixture.bars))
     = fx_scanned Fixture.bars.
Proof.
  exact (proj2 (proj2 (resolvers_scan_on_first_use
                         Fixture.dir Fixture.search Fixture.loads
                         Fixture.exec Fixture.vegalite_only "bar" None 0
                         (fx_scanned Fixture.bars)))
               eq_refl).
Defined.

(** The type is in d3-js, listed after the unknown engine. *)
Lemma unknown_engine_witness :
  fx_by_type Fixture.bars "bar" (Some ["echarts-js"; "plotly"; "d3-js"]) 0
             (fx_scanned Fixture.radar_and_barchart)
  = (Raised KeyError, fx_scanned Fixture.radar_and_barchart).
Proof.
  apply (unknown_engine_raises_key_error
           Fixture.dir Fixture.search Fixture.loads Fixture.exec
           Fixture.bars "bar" ["echarts-js"] "plotly" ["d3-js"] 0
           (fx_scanned Fixture.radar_and_barchart)).
  - reflexivity.
  - intros [H|[H|[H|[H|[]]]]]; discriminate H.
  - intros e' [<-|[]]. eexists.
    split; [reflexivity|left; reflexivity].
Defined.

(** A record of vegalite_py is found by its name, in capitals. *)
Lemma by_name_exact_witness :
  fx_by_name Fixture.bars "PIE" (fx_scanned Fixture.vegalite_only)
  = (Ok (Some ("vegalite_py", FilePath "/variation/vegalite_py/pie.py")),
     fx_scanned Fixture.vegalite_only).
Proof.
  apply (by_name_returns_first_exact_match
           Fixture.dir Fixture.search Fixture.loads Fixture.exec
           Fixture.bars "PIE" (fx_scanned Fixture.vegalite_only) []
           ("pie", mk_info "vegalite_py"
                           (FilePath "/variation/vegalite_py/pie.py")
                           [("chart_type", JString "pie")])
           []).
  - reflexivity.
  - vm_compute. reflexivity.
  - reflexivity.
  - intros c' [].
Defined.

(** The request [ba] is in [barchart] of echarts-js and in [bar] of
    d3-js: the answer is from echarts-js, listed first. *)
Lemma partial_pass_witness :
  fx_by_type Fixture.bars "BA" None 5 (fx_scanned Fixture.longer_first)
  = (Ok (Some ("echarts-js", FilePath "/variation/echarts-js/wide.js")),
     fx_scanned Fixture.longer_first).
Proof.
  destruct (partial_pass_stops_at_first_match
              Fixture.dir Fixture.search Fixture.loads Fixture.exec
              Fixture.bars "BA" None ["echarts_py"] "echarts-js" ["d3-js"]
              [] "barchart"
              [("wide", mk_info "echarts-js"
                                (FilePath "/variation/echarts-js/wide.js")
                                [("chart_type", JString "barchart");
                                 ("chart_name", JString "wide")])]
              [] 5 (fx_scanned Fixture.longer_first))
    as (n & info & Hn & Hg & Hres).
  - reflexivity.
  - reflexivity.
  - intros e' [<-|[<-|[<-|[]]]]; eexists;
      (split; [reflexivity|left; reflexivity]).
  - intros e' [<-|[]]. eexists. split; [reflexivity|].
    intros t names [].
  - vm_compute. reflexivity.
  - intros t names [].
  - reflexivity.
  - discriminate.
  - vm_compute in Hn. inversion Hn; subst n.
    vm_compute in Hg. inversion Hg; subst info. exact Hres.
Defined.

(** The empty chart type resolves to the first type with a name. *)
Lemma empty_chart_type_witness :
  fx_by_type Fixture.bars "" None 0 (fx_scanned Fixture.longer_first)
  = (Ok (Some ("echarts-js", FilePath "/variation/echarts-js/wide.js")),
     fx_scanned Fixture.longer_first).
Proof.
  destruct (empty_chart_type_matches_the_first_type
              Fixture.dir Fixture.search Fixture.loads Fixture.exec
              Fixture.bars 0 (fx_scanned Fixture.longer_first))
    as [_ Hfirst].
  - reflexivity.
  - intros e [<-|[<-|[<-|[]]]]; reflexivity.
  - destruct (Hfirst ["echarts_py"] "echarts-js" ["d3-js"] [] "barchart"
                     [("wide", mk_info "echarts-js"
                                 (FilePath "/variation/echarts-js/wide.js")
                                 [("chart_type", JString "barchart");
                                  ("chart_name", JString "wide")])]
                     [])
      as (n & info & Hn & Hg & Hres).
    + reflexivity.
    + intros e' types [<-|[]] Hget. vm_compute in Hget.
      inversion Hget; subst types. constructor.
    + vm_compute. reflexivity.
    + constructor.
    + discriminate.
    + vm_compute in Hn. inversion Hn; subst n.
      vm_compute in Hg. inversion Hg; subst info. exact Hres.
Defined.

(** A forced rescan over another index, and a scan of the fresh state,
    end with the same outcome and index; the rescan of an index the same
    file system made changes nothing. *)
Lemma scan_rebuilds_witness :
  (fst (fx_scan Fixture.bars true (fx_scanned Fixture.tied))
   = fst (fx_scan Fixture.bars false initial_state)
   /\ variations (snd (fx_scan Fixture.bars true (fx_scanned Fixture.tied)))
      = variations (fx_scanned Fixture.bars))
  /\ fx_scan Fixture.bars true (fx_scanned Fixture.bars)
     = fx_scan Fixture.bars false initial_state.
Proof.
  split.
  - exact (proj1 (scan_rebuilds_from_the_file_system
                    Fixture.dir Fixture.search Fixture.loads Fixture.exec
                    Fixture.bars true (fx_scanned Fixture.tied)
                    (or_intror eq_refl))
                 false initial_state (or_introl eq_refl)).
  - destruct (fx_scan Fixture.bars false initial_state) as [o s1] eqn:Hrun.
    assert (Hok : exists v, o = Ok v)
      by (vm_compute in Hrun; inversion Hrun; eauto).
    destruct Hok as [v ->].
    exact (proj2 (scan_rebuilds_from_the_file_system
                    Fixture.dir Fixture.search Fixture.loads Fixture.exec
                    Fixture.bars false initial_state (or_introl eq_refl))
                 v s1 Hrun).
Defined.

(** A package file of a Python engine and a file of another extension
    between two templates. *)
Lemma walk_passes_over_witness :
  fx_directory "/variation/echarts_py" "echarts_py" ".py"
               (Some [File "a.py" "chart_type=bar";
                      File "__init__.py" "chart_type=bar";
                      File "b.py" "chart_type=pie"])
               initial_state
  = fx_directory "/variation/echarts_py" "echarts_py" ".py"
                 (Some [File "a.py" "chart_type=bar";
                        File "b.py" "chart_type=pie"])
                 initial_state
  /\ fx_directory "/variation/d3-js" "d3-js" ".js"
                  (Some [File "a.js" "chart_type=bar";
                         File "a.json" "chart_type=bar"])
                  initial_state
     = fx_directory "/variation/d3-js" "d3-js" ".js"
                    (Some [File "a.js" "chart_type=bar"])
                    initial_state.
Proof.
  split.
  - apply (walk_passes_over
             Fixture.search Fixture.loads Fixture.exec
             "/variation/echarts_py" "echarts_py" ".py"
             [File "a.py" "chart_type=bar"]
             (File "__init__.py" "chart_type=bar")
             [File "b.py" "chart_type=pie"] initial_state).
    right. left. reflexivity.
  - apply (walk_passes_over
             Fixture.search Fixture.loads Fixture.exec
             "/variation/d3-js" "d3-js" ".js"
             [File "a.js" "chart_type=bar"]
             (File "a.json" "chart_type=bar") [] initial_state).
    left. reflexivity.
Defined.

(** The record of the fixture with capitals comes from its file in the
    sub-directory. *)
Lemma index_from_file_system_witness :
  comes_from Fixture.dir Fixture.search Fixture.loads Fixture.capitals
             "echarts-js" "bar" "bar_basic"
             (mk_info "echarts-js"
                      (FilePath "/variation/echarts-js/bars/Bar_Basic.js")
                      [("chart_type", JString "Bar")]).
Proof.
  apply (index_holds_only_templates_of_the_file_system
           Fixture.dir Fixture.search Fixture.loads Fixture.exec
           Fixture.capitals false initial_state
           (fst (fx_scan Fixture.capitals false initial_state))
           (fx_scanned Fixture.capitals)).
  - left. reflexivity.
  - vm_compute. reflexivity.
  - vm_compute. reflexivity.
Defined.

(** The record of a vegalite_py template, a Python file, holds a path. *)
Lemma handle_by_engine_witness :
  engine_type (mk_info "vegalite_py"
                       (FilePath "/variation/vegalite_py/pie.py")
                       [("chart_type", JString "pie")])
  = "vegalite_py"
  /\ "vegalite_py" <> "echarts_py".
Proof.
  apply (handle_is_a_module_only_for_echarts_py
           Fixture.dir Fixture.search Fixture.loads Fixture.exec
           (fx_scanned Fixture.vegalite_only) "vegalite_py" "pie" "pie"
           (mk_info "vegalite_py"
                    (FilePath "/variation/vegalite_py/pie.py")
                    [("chart_type", JString "pie")])).
  - apply (reach_scan Fixture.dir Fixture.search Fixture.loads Fixture.exec
             initial_state Fixture.vegalite_only false
             (fst (fx_scan Fixture.vegalite_only false initial_state))).
    + apply reach_initial.
    + vm_compute. reflexivity.
  - vm_compute. reflexivity.
Defined.

(** The module of [bar_basic.py] is [bar_basic]. *)
Lemma module_name_witness :
  load_python_variation Fixture.exec "/variation/echarts_py/bar_basic.py"
                        "chart_type=bar" initial_state
  = (Ok (PyModule "bar_basic" "/variation/echarts_py/bar_basic.py"),
     initial_state).
Proof.
  apply (module_name_is_the_file_name_without_py
           Fixture.dir Fixture.search Fixture.loads Fixture.exec
           "/variation/echarts_py" "bar_basic" "chart_type=bar"
           initial_state).
  - intros H. simpl in H.
    repeat (destruct H as [H|H]; [discriminate H|]). exact H.
  - reflexivity.
  - reflexivity.
Defined.

(** With vegalite_py listed, the answer is its record of the type. *)
Lemma by_type_answer_witness :
  exists res,
    fx_by_type Fixture.bars "Pie" (Some ["vegalite_py"]) 0
               (fx_scanned Fixture.vegalite_only)
    = (Ok res, fx_scanned Fixture.vegalite_only)
    /\ answers_from (variations (fx_scanned Fixture.vegalite_only))
                    ["vegalite_py"] "pie" res.
Proof.
  apply (by_type_answers_from_the_index
           Fixture.dir Fixture.search Fixture.loads Fixture.exec
           Fixture.bars "Pie" (Some ["vegalite_py"]) 0
           (fx_scanned Fixture.vegalite_only)).
  - apply (reach_scan Fixture.dir Fixture.search Fixture.loads Fixture.exec
             initial_state Fixture.vegalite_only false
             (fst (fx_scan Fixture.vegalite_only false initial_state))).
    + apply reach_initial.
    + vm_compute. reflexivity.
  - reflexivity.
  - intros e [<-|[]]. simpl. tauto.
Defined.

(** The file in the sub-directory is indexed under its lowercased type
    and default name, and found by that name. *)
Lemma every_template_witness :
  has_name (variations (fx_scanned Fixture.capitals))
           "echarts-js" "bar" "bar_basic"
  /\ exists found,
       fx_by_name Fixture.bars "Bar_Basic" (fx_scanned Fixture.capitals)
       = (Ok (Some found), fx_scanned Fixture.capitals).
Proof.
  destruct (every_template_is_indexed
              Fixture.dir Fixture.search Fixture.loads Fixture.exec
              Fixture.capitals false initial_state
              (variations (fx_scanned Fixture.capitals))
              (fx_scanned Fixture.capitals) "echarts-js"
              [Dir "bars" [File "Bar_Basic.js" "chart_type=Bar"]]
              "/variation/echarts-js/bars/Bar_Basic.js" "Bar_Basic.js"
              "chart_type=Bar" "Bar")
    as (reqs & cn & Hreqs & Hcn & Hname & Hfound).
  - left. reflexivity.
  - vm_compute. reflexivity.
  - reflexivity.
  - apply in_tree_below with (sub := "bars")
                             (sub_listing :=
                                [File "Bar_Basic.js" "chart_type=Bar"]).
    + left. reflexivity.
    + apply (in_tree_here "/variation/echarts-js/bars"
                          [File "Bar_Basic.js" "chart_type=Bar"]
                          "Bar_Basic.js" "chart_type=Bar").
      left. reflexivity.
  - split; [reflexivity|split; [reflexivity|]].
    eexists. split; reflexivity.
  - vm_compute in Hreqs. inversion Hreqs; subst reqs.
    vm_compute in Hcn. inversion Hcn; subst cn.
    split; [exact Hname|exact (Hfound Fixture.bars)].
Defined.
